(** * Inventory API: the product controller over a Mongoose model

    A shallow embedding of [controllers/productController.js], of the
    schema in [models/Product.js], and of the routes that lead to the
    controller.

    - JavaScript numbers are IEEE 754 binary64 values: [spec_float] of the
      standard library with [prec = 53] and [emax = 1024]; [+=] and [-=] are
      [SFadd] and [SFsub], the comparisons are [SFltb] and [SFleb].
    - A request body field is a [JsValue] (what [express.json()] and
      [express.urlencoded()] can deliver for a scalar field).
    - The collection is a finite map from ObjectIds to documents; a handler
      is a state transformer over the [World], which also records every
      call made on the Mongoose model.
    - Mongoose is modelled at the level of its documented behaviour for
      version 6 and later: casting, defaults, setters, validation of the
      document on [save()], update validators for [runValidators: true],
      and [undefined] keys dropped from an update.
    - The store is reachable and requests are served one at a time.
    - The route table of [routes/productRoutes.js] and its mount in
      [app.js] are embedded on request paths split into their segments. *)

From Stdlib Require Import ZArith Lia Bool.
From Stdlib Require Import SpecFloat Ascii.
From stdpp Require Import base option strings list gmap fin_maps.

Local Open Scope Z_scope.

(** ** JavaScript numbers *)

Definition prec : Z := 53.
Definition emax : Z := 1024.

Module Num.

(** The literal [0]. *)
Definition zero : spec_float := S754_zero false.

(** The double nearest to an integer (round to nearest, ties to even):
    how an integer literal of a JSON body reads. *)
Definition Z2SF (z : Z) : spec_float := binary_normalize prec emax z 0 false.

Definition add (x y : spec_float) : spec_float := SFadd prec emax x y.
Definition sub (x y : spec_float) : spec_float := SFsub prec emax x y.
Definition div (x y : spec_float) : spec_float := SFdiv prec emax x y.

(** [x < y], [x <= y], [x >= y] and [x === y] on numbers. *)
Definition ltb (x y : spec_float) : bool := SFltb x y.
Definition leb (x y : spec_float) : bool := SFleb x y.
Definition geb (x y : spec_float) : bool := SFleb y x.
Definition eqb (x y : spec_float) : bool := SFeqb x y.

Definition isNaN (x : spec_float) : bool :=
  match x with S754_nan => true | _ => false end.

(** [Number.isInteger] on a number. *)
Definition isInteger (x : spec_float) : bool :=
  match x with
  | S754_zero _ => true
  | S754_finite _ m e =>
      if 0 <=? e then true else Zpos m mod 2 ^ (- e) =? 0
  | S754_infinity _ | S754_nan => false
  end.

(** The value of an integer-valued double. *)
Definition SF2Z (x : spec_float) : Z :=
  match x with
  | S754_finite s m e =>
      cond_Zopp s (if 0 <=? e then Zpos m * 2 ^ e else Zpos m / 2 ^ (- e))
  | _ => 0
  end.

(** [Number.MAX_SAFE_INTEGER]. *)
Definition MAX_SAFE_INTEGER : Z := 2 ^ 53 - 1.

(** A mantissa shifted left by [k] bits. *)
Definition shl (m : positive) (k : Z) : positive :=
  match k with Zpos d => Pos.iter xO m d | _ => m end.

(** The normal form of the double of value [n], for [n < 2 ^ 53]. *)
Definition canon (s : bool) (n : positive) : spec_float :=
  S754_finite s (shl n (prec - Zpos (digits2_pos n)))
              (Zpos (digits2_pos n) - prec).

(** A well-formed binary64 value. *)
Definition valid (x : spec_float) : bool := valid_binary prec emax x.

(** [Number.isSafeInteger]. *)
Definition isSafeInteger (x : spec_float) : bool :=
  isInteger x && (Z.abs (SF2Z x) <=? MAX_SAFE_INTEGER).


(** The integer of sign [s] and magnitude [n]. *)
Definition signed (s : bool) (n : positive) : Z := cond_Zopp s (Zpos n).

End Num.

(** ** Values of a request body *)

Inductive JsValue : Type :=
| JUndefined
| JNull
| JBool (b : bool)
| JNumber (x : spec_float)
| JString (s : string).

(** The built-ins of the platform that the controller and the schema reach
    through coercions and casts: [Number(s)] on a string, [String(x)] on a
    number, [String.prototype.trim], and the cast of a route parameter to
    an ObjectId (its canonical hexadecimal form, when it has one). *)
Class JsRuntime : Type := {
  StringToNumber : string -> spec_float;
  NumberToString : spec_float -> string;
  trim : string -> string;
  castObjectId : string -> option string
}.

(** ** The Product model *)

(** A String path of a stored document: missing, [null], or a string. *)
Inductive StoredString : Type :=
| SAbsent
| SNull
| SValue (s : string).

Record Product : Type := mkProduct {
  _id : string;
  name : string;
  description : StoredString;
  stock_quantity : spec_float;
  low_stock_threshold : spec_float;
  createdAt : Z;
  updatedAt : Z
}.

(** Errors thrown by Mongoose and by the driver, with their [name]. *)
Inductive MongooseError : Type :=
| CastError (path : string)
| ValidationError (errors : list (string * string))
| MongoServerError (code : Z).

Definition error_name (e : MongooseError) : string :=
  match e with
  | CastError _ => "CastError"
  | ValidationError _ => "ValidationError"
  | MongoServerError _ => "MongoServerError"
  end.

(** The outcome of casting a value for a schema path. *)
Inductive Cast (A : Type) : Type :=
| CastFail
| CastUndefined
| CastNull
| CastOk (a : A).

Arguments CastFail {A}.
Arguments CastUndefined {A}.
Arguments CastNull {A}.
Arguments CastOk {A} a.

(** A document before it is saved: what casting left on each path. *)
Record Document : Type := mkDocument {
  d_name : Cast string;
  d_description : Cast string;
  d_stock_quantity : Cast spec_float;
  d_low_stock_threshold : Cast spec_float
}.

(** ** The world: the collection and the calls made on the model *)

Inductive StoreCall : Type :=
| CallSave (id : string)
| CallFind
| CallFindLowStock
| CallFindById (id : string)
| CallFindByIdAndUpdate (id : string)
| CallFindByIdAndDelete (id : string).

Record World : Type := mkWorld {
  docs : gmap string Product;
  calls : list StoreCall
}.

(** What the platform supplies to one request: the clock read by the
    timestamps plugin and the ObjectId generated for a new document. *)
Record Env : Type := mkEnv {
  now : Z;
  freshId : string
}.

(** ** Requests and responses *)

(** [req.body], with the fields that the handlers destructure. *)
Record Body : Type := mkBody {
  b_name : JsValue;
  b_description : JsValue;
  b_stock_quantity : JsValue;
  b_low_stock_threshold : JsValue;
  b_amount : JsValue
}.

(** [req.params.id] and [req.body]. *)
Record Request : Type := mkRequest {
  params_id : string;
  body : Body
}.

(** The JSON sent by [res.json]. *)
Inductive Json : Type :=
| ErrorBody (error : string)
| ErrorMessage (e : MongooseError)
| ProductBody (p : Product)
| ProductsBody (ps : list Product)
| DeletedBody (message : string) (p : Product).

(** [res.status(s).json(j)]. *)
Record Response : Type := mkResponse {
  status : Z;
  json : Json
}.

(** ** The routes of [routes/productRoutes.js] *)

Inductive Route : Type :=
| GetLowStock
| PostProduct
| GetProducts
| GetProduct
| PutProduct
| DeleteProduct
| PatchIncrease
| PatchDecrease.

(** ** Coercions, casts and validators *)

Section Controller.

Context {rt : JsRuntime}.

(** [!v] is [negb (ToBoolean v)]. *)
Definition ToBoolean (v : JsValue) : bool :=
  match v with
  | JUndefined | JNull => false
  | JBool b => b
  | JNumber x =>
      match x with S754_zero _ | S754_nan => false | _ => true end
  | JString s => negb (String.eqb s EmptyString)
  end.

Definition ToNumber (v : JsValue) : spec_float :=
  match v with
  | JUndefined => S754_nan
  | JNull => Num.zero
  | JBool b => if b then Num.Z2SF 1 else Num.zero
  | JNumber x => x
  | JString s => StringToNumber s
  end.

(** [v < 0] and [v <= 0]: the right operand is a number, so the left one
    is converted with [ToNumber]. *)
Definition js_lt0 (v : JsValue) : bool := Num.ltb (ToNumber v) Num.zero.
Definition js_le0 (v : JsValue) : bool := Num.leb (ToNumber v) Num.zero.

(** [Number.isInteger(v)]: false for everything that is not a number. *)
Definition Number_isInteger (v : JsValue) : bool :=
  match v with
  | JNumber x => Num.isInteger x
  | _ => false
  end.

(** [v !== undefined]. *)
Definition isDefined (v : JsValue) : bool :=
  match v with JUndefined => false | _ => true end.

(** Mongoose's cast for a Number path. *)
Definition castNumber (v : JsValue) : Cast spec_float :=
  match v with
  | JUndefined => CastUndefined
  | JNull => CastNull
  | JString s =>
      if String.eqb s EmptyString then CastNull
      else if Num.isNaN (StringToNumber s) then CastFail
           else CastOk (StringToNumber s)
  | JBool b => CastOk (if b then Num.Z2SF 1 else Num.zero)
  | JNumber x => if Num.isNaN x then CastFail else CastOk x
  end.

(** Mongoose's cast for a String path. *)
Definition castString (v : JsValue) : Cast string :=
  match v with
  | JUndefined => CastUndefined
  | JNull => CastNull
  | JString s => CastOk s
  | JNumber x => CastOk (NumberToString x)
  | JBool b => CastOk (if b then "true" else "false")
  end.

(** The [trim: true] setter: non-strings are cast first, then a non-empty
    string is trimmed. *)
Definition trimSetter (v : JsValue) : Cast string :=
  match castString v with
  | CastOk s => CastOk (if String.eqb s EmptyString then s else trim s)
  | c => c
  end.

(** [default:] of a path, applied when nothing was supplied. *)
Definition withDefault {A} (d : A) (c : Cast A) : Cast A :=
  match c with CastUndefined => CastOk d | _ => c end.

Definition default_stock_quantity : spec_float := Num.zero.
Definition default_low_stock_threshold : spec_float := Num.Z2SF 10.

(** *** Validators of the schema

    Each returns the message of the first validator that fails. Validators
    other than [required] are skipped on [undefined]; the built-in [min]
    accepts [null], the custom validator [Number.isInteger] does not. *)

Definition validateName (c : Cast string) : option string :=
  match c with
  | CastFail => Some "Cast to String failed"
  | CastUndefined | CastNull => Some "Product name is required"
  | CastOk s => if String.eqb s EmptyString then Some "Product name is required" else None
  end.

Definition validateDescription (c : Cast string) : option string :=
  match c with
  | CastFail => Some "Cast to String failed"
  | _ => None
  end.

Definition validateNumber (minMsg intMsg : string) (c : Cast spec_float)
  : option string :=
  match c with
  | CastFail => Some "Cast to Number failed"
  | CastUndefined => None
  | CastNull => Some intMsg
  | CastOk x =>
      if negb (Num.geb x Num.zero) then Some minMsg
      else if negb (Num.isInteger x) then Some intMsg
           else None
  end.

Definition validateStock : Cast spec_float -> option string :=
  validateNumber "Stock quantity cannot be negative"
                 "Stock quantity must be an integer".

Definition validateThreshold : Cast spec_float -> option string :=
  validateNumber "Low stock threshold cannot be negative"
                 "Low stock threshold must be an integer".

Definition pathError (path : string) (r : option string)
  : list (string * string) :=
  match r with Some msg => [(path, msg)] | None => [] end.

(** A handler step: a state transformer over the world. *)
Definition M (A : Type) : Type := World -> A * World.

Definition ret {A} (a : A) : M A := fun w => (a, w).

Definition bind {A B} (m : M A) (k : A -> M B) : M B :=
  fun w => let (a, w') := m w in k a w'.

Definition logCall (c : StoreCall) : M unit :=
  fun w => (tt, mkWorld (docs w) (calls w ++ [c])).

Definition readDocs : M (gmap string Product) := fun w => (docs w, w).

Definition writeDocs (d : gmap string Product) : M unit :=
  fun w => (tt, mkWorld d (calls w)).

#[local] Instance M_ret : MRet M := @ret.
#[local] Instance M_bind : MBind M := fun A B k m => bind m k.

(** *** Documents and queries *)

(** [new Product({ name, description, stock_quantity, low_stock_threshold })]:
    setters, casts and defaults. Cast errors are kept on the document and
    reported by validation. *)
Definition Product_new (name description stock_quantity low_stock_threshold : JsValue)
  : Document :=
  {| d_name := trimSetter name;
     d_description := trimSetter description;
     d_stock_quantity :=
       withDefault default_stock_quantity (castNumber stock_quantity);
     d_low_stock_threshold :=
       withDefault default_low_stock_threshold (castNumber low_stock_threshold) |}.

Definition validationErrors (d : Document) : list (string * string) :=
  pathError "name" (validateName (d_name d))
  ++ pathError "description" (validateDescription (d_description d))
  ++ pathError "stock_quantity" (validateStock (d_stock_quantity d))
  ++ pathError "low_stock_threshold" (validateThreshold (d_low_stock_threshold d)).

Definition toStored (c : Cast string) : StoredString :=
  match c with
  | CastOk s => SValue s
  | CastNull => SNull
  | _ => SAbsent
  end.

(** [product.save()] on a new document: validation, then the insert. A
    second document under the same [_id] is a duplicate key error of the
    server. *)
Definition save (env : Env) (d : Document) : M (MongooseError + Product) :=
  _ ← logCall (CallSave (freshId env));
  match validationErrors d, d_name d, d_stock_quantity d, d_low_stock_threshold d with
  | [], CastOk n, CastOk q, CastOk t =>
      ds ← readDocs;
      match ds !! freshId env with
      | Some _ => mret (inl (MongoServerError 11000))
      | None =>
          let p := mkProduct (freshId env) n (toStored (d_description d)) q t
                             (now env) (now env) in
          _ ← writeDocs (<[freshId env := p]> ds);
          mret (inr p)
      end
  | errors, _, _, _ => mret (inl (ValidationError errors))
  end.

(** The document [p] with [stock_quantity] set to [v], as the save writes
    it: the timestamps plugin refreshes [updatedAt]. *)
Definition withStock (env : Env) (p : Product) (v : spec_float) : Product :=
  mkProduct (_id p) (name p) (description p) v (low_stock_threshold p)
            (createdAt p) (now env).

(** Validation of a document that was read from the collection and whose
    stock has been set to [v]: [save()] validates the paths that were
    loaded as well as the modified one. *)
Definition storedErrors (p : Product) (v : spec_float) : list (string * string) :=
  pathError "name" (validateName (CastOk (name p)))
  ++ pathError "stock_quantity" (validateStock (castNumber (JNumber v)))
  ++ pathError "low_stock_threshold"
       (validateThreshold (castNumber (JNumber (low_stock_threshold p)))).

(** [product.stock_quantity = v; await product.save()] on a document that
    was read from the collection: the document is validated; a value that
    is [===] to the old one leaves the path unmodified and nothing is
    written; a modified path is written together with [updatedAt]. *)
Definition saveStock (env : Env) (p : Product) (v : spec_float)
  : M (MongooseError + Product) :=
  _ ← logCall (CallSave (_id p));
  match storedErrors p v with
  | (_ :: _) as errors => mret (inl (ValidationError errors))
  | [] =>
      if Num.eqb v (stock_quantity p) then mret (inr p)
      else
        let p' := withStock env p v in
        ds ← readDocs;
        _ ← writeDocs (<[_id p := p']> ds);
        mret (inr p')
  end.

(** [Product.find()]; the order of the listing is the store's. *)
Definition find : M (MongooseError + list Product) :=
  _ ← logCall CallFind;
  ds ← readDocs;
  mret (inr (map_to_list ds).*2).

(** [$expr: { $lt: ['$stock_quantity', '$low_stock_threshold'] }], on
    the numbers that the schema stores. *)
Definition lowStock (p : Product) : bool :=
  Num.ltb (stock_quantity p) (low_stock_threshold p).

(** [Product.find({ $expr: ... })]. *)
Definition findLowStock : M (MongooseError + list Product) :=
  _ ← logCall CallFindLowStock;
  ds ← readDocs;
  mret (inr (List.filter lowStock (map_to_list ds).*2)).

(** [Product.findById(id)]: the id is cast first. *)
Definition findById (id : string) : M (MongooseError + option Product) :=
  _ ← logCall (CallFindById id);
  match castObjectId id with
  | None => mret (inl (CastError "_id"))
  | Some oid => ds ← readDocs; mret (inr (ds !! oid))
  end.

(** [Product.findByIdAndDelete(id)]. *)
Definition findByIdAndDelete (id : string) : M (MongooseError + option Product) :=
  _ ← logCall (CallFindByIdAndDelete id);
  match castObjectId id with
  | None => mret (inl (CastError "_id"))
  | Some oid =>
      ds ← readDocs;
      match ds !! oid with
      | None => mret (inr None)
      | Some p => _ ← writeDocs (delete oid ds); mret (inr (Some p))
      end
  end.

(** The update document [{ name, description, stock_quantity,
    low_stock_threshold }] after casting: keys whose value is [undefined]
    are dropped, so [CastUndefined] means "not part of the [$set]". *)
Definition castUpdate (name description stock_quantity low_stock_threshold : JsValue)
  : Document :=
  {| d_name := trimSetter name;
     d_description := trimSetter description;
     d_stock_quantity := castNumber stock_quantity;
     d_low_stock_threshold := castNumber low_stock_threshold |}.

Definition castFailed {A} (c : Cast A) : bool :=
  match c with CastFail => true | _ => false end.

Definition updateCastError (u : Document) : option string :=
  if castFailed (d_name u) then Some "name"
  else if castFailed (d_description u) then Some "description"
  else if castFailed (d_stock_quantity u) then Some "stock_quantity"
  else if castFailed (d_low_stock_threshold u) then Some "low_stock_threshold"
  else None.

(** Update validators ([runValidators: true]) run on the paths of the
    [$set] only; [required] fails on a path set to [null] or to the empty
    string. *)
Definition validateNameUpdate (c : Cast string) : option string :=
  match c with
  | CastUndefined => None
  | _ => validateName c
  end.

Definition updateValidationErrors (u : Document) : list (string * string) :=
  pathError "name" (validateNameUpdate (d_name u))
  ++ pathError "stock_quantity" (validateStock (d_stock_quantity u))
  ++ pathError "low_stock_threshold" (validateThreshold (d_low_stock_threshold u)).

(** One path of the [$set] applied to the stored value. *)
Definition setName (c : Cast string) (old : string) : string :=
  match c with CastOk s => s | _ => old end.

Definition setDescription (c : Cast string) (old : StoredString) : StoredString :=
  match c with
  | CastOk s => SValue s
  | CastNull => SNull
  | _ => old
  end.

Definition setNumber (c : Cast spec_float) (old : spec_float) : spec_float :=
  match c with CastOk x => x | _ => old end.

Definition applyUpdate (env : Env) (u : Document) (p : Product) : Product :=
  mkProduct (_id p)
            (setName (d_name u) (name p))
            (setDescription (d_description u) (description p))
            (setNumber (d_stock_quantity u) (stock_quantity p))
            (setNumber (d_low_stock_threshold u) (low_stock_threshold p))
            (createdAt p) (now env).

(** [Product.findByIdAndUpdate(id, update, { new: true, runValidators: true })]:
    the filter and the update are cast, the update validators run, and
    the updated document is returned; [null] when no document matches. *)
Definition findByIdAndUpdate (env : Env) (id : string) (u : Document)
  : M (MongooseError + option Product) :=
  _ ← logCall (CallFindByIdAndUpdate id);
  match castObjectId id with
  | None => mret (inl (CastError "_id"))
  | Some oid =>
      match updateCastError u with
      | Some path => mret (inl (CastError path))
      | None =>
          match updateValidationErrors u with
          | (_ :: _) as errors => mret (inl (ValidationError errors))
          | [] =>
              ds ← readDocs;
              match ds !! oid with
              | None => mret (inr None)
              | Some p =>
                  let p' := applyUpdate env u p in
                  _ ← writeDocs (<[oid := p']> ds);
                  mret (inr (Some p'))
              end
          end
      end
  end.

Definition nameIs (e : MongooseError) (n : string) : bool :=
  String.eqb (error_name e) n.

(** ** The controller *)

Definition createProduct (env : Env) (req : Request) : M Response :=
  let name := b_name (body req) in
  let description := b_description (body req) in
  let stock_quantity := b_stock_quantity (body req) in
  let low_stock_threshold := b_low_stock_threshold (body req) in
  if negb (ToBoolean name) then
    mret (mkResponse 400 (ErrorBody "Product name is required"))
  else
    let product := Product_new name description stock_quantity low_stock_threshold in
    r ← save env product;
    match r with
    | inr savedProduct => mret (mkResponse 201 (ProductBody savedProduct))
    | inl error =>
        if nameIs error "ValidationError" then
          mret (mkResponse 400 (ErrorMessage error))
        else mret (mkResponse 500 (ErrorBody "Server error while creating product"))
    end.

Definition getAllProducts (env : Env) (req : Request) : M Response :=
  r ← find;
  match r with
  | inr products => mret (mkResponse 200 (ProductsBody products))
  | inl error => mret (mkResponse 500 (ErrorBody "Server error while fetching products"))
  end.

Definition getProductById (env : Env) (req : Request) : M Response :=
  r ← findById (params_id req);
  match r with
  | inr None => mret (mkResponse 404 (ErrorBody "Product not found"))
  | inr (Some product) => mret (mkResponse 200 (ProductBody product))
  | inl error =>
      if nameIs error "CastError" then
        mret (mkResponse 400 (ErrorBody "Invalid product ID"))
      else mret (mkResponse 500 (ErrorBody "Server error while fetching product"))
  end.

Definition updateProduct (env : Env) (req : Request) : M Response :=
  let name := b_name (body req) in
  let description := b_description (body req) in
  let stock_quantity := b_stock_quantity (body req) in
  let low_stock_threshold := b_low_stock_threshold (body req) in
  if isDefined stock_quantity && js_lt0 stock_quantity then
    mret (mkResponse 400 (ErrorBody "Stock quantity cannot be negative"))
  else if isDefined low_stock_threshold && js_lt0 low_stock_threshold then
    mret (mkResponse 400 (ErrorBody "Low stock threshold cannot be negative"))
  else
    r ← findByIdAndUpdate env (params_id req)
          (castUpdate name description stock_quantity low_stock_threshold);
    match r with
    | inr None => mret (mkResponse 404 (ErrorBody "Product not found"))
    | inr (Some product) => mret (mkResponse 200 (ProductBody product))
    | inl error =>
        if nameIs error "ValidationError" then
          mret (mkResponse 400 (ErrorMessage error))
        else if nameIs error "CastError" then
          mret (mkResponse 400 (ErrorBody "Invalid product ID"))
        else mret (mkResponse 500 (ErrorBody "Server error while updating product"))
    end.

Definition deleteProduct (env : Env) (req : Request) : M Response :=
  r ← findByIdAndDelete (params_id req);
  match r with
  | inr None => mret (mkResponse 404 (ErrorBody "Product not found"))
  | inr (Some product) =>
      mret (mkResponse 200 (DeletedBody "Product deleted successfully" product))
  | inl error =>
      if nameIs error "CastError" then
        mret (mkResponse 400 (ErrorBody "Invalid product ID"))
      else mret (mkResponse 500 (ErrorBody "Server error while deleting product"))
  end.

(** In both stock handlers [amount] is a number once the two checks have
    passed ([Number.isInteger] holds of numbers only), so [+=] is the
    addition of numbers. *)
Definition increaseStock (env : Env) (req : Request) : M Response :=
  let amount := b_amount (body req) in
  if negb (ToBoolean amount) || js_le0 amount then
    mret (mkResponse 400 (ErrorBody "Amount must be a positive number"))
  else if negb (Number_isInteger amount) then
    mret (mkResponse 400 (ErrorBody "Amount must be an integer"))
  else
    r ← findById (params_id req);
    match r with
    | inr None => mret (mkResponse 404 (ErrorBody "Product not found"))
    | inr (Some product) =>
        s ← saveStock env product
              (Num.add (stock_quantity product) (ToNumber amount));
        match s with
        | inr product' => mret (mkResponse 200 (ProductBody product'))
        | inl error =>
            if nameIs error "CastError" then
              mret (mkResponse 400 (ErrorBody "Invalid product ID"))
            else mret (mkResponse 500 (ErrorBody "Server error while increasing stock"))
        end
    | inl error =>
        if nameIs error "CastError" then
          mret (mkResponse 400 (ErrorBody "Invalid product ID"))
        else mret (mkResponse 500 (ErrorBody "Server error while increasing stock"))
    end.

Definition decreaseStock (env : Env) (req : Request) : M Response :=
  let amount := b_amount (body req) in
  if negb (ToBoolean amount) || js_le0 amount then
    mret (mkResponse 400 (ErrorBody "Amount must be a positive number"))
  else if negb (Number_isInteger amount) then
    mret (mkResponse 400 (ErrorBody "Amount must be an integer"))
  else
    r ← findById (params_id req);
    match r with
    | inr None => mret (mkResponse 404 (ErrorBody "Product not found"))
    | inr (Some product) =>
        if Num.ltb (Num.sub (stock_quantity product) (ToNumber amount)) Num.zero then
          mret (mkResponse 400 (ErrorBody "Insufficient stock"))
        else
          s ← saveStock env product
                (Num.sub (stock_quantity product) (ToNumber amount));
          match s with
          | inr product' => mret (mkResponse 200 (ProductBody product'))
          | inl error =>
              if nameIs error "CastError" then
                mret (mkResponse 400 (ErrorBody "Invalid product ID"))
              else mret (mkResponse 500 (ErrorBody "Server error while decreasing stock"))
          end
    | inl error =>
        if nameIs error "CastError" then
          mret (mkResponse 400 (ErrorBody "Invalid product ID"))
        else mret (mkResponse 500 (ErrorBody "Server error while decreasing stock"))
    end.

Definition getLowStockProducts (env : Env) (req : Request) : M Response :=
  r ← findLowStock;
  match r with
  | inr products => mret (mkResponse 200 (ProductsBody products))
  | inl error =>
      mret (mkResponse 500 (ErrorBody "Server error while fetching low stock products"))
  end.

(** The routes of [routes/productRoutes.js]. *)
Definition router (r : Route) : Env -> Request -> M Response :=
  match r with
  | GetLowStock => getLowStockProducts
  | PostProduct => createProduct
  | GetProducts => getAllProducts
  | GetProduct => getProductById
  | PutProduct => updateProduct
  | DeleteProduct => deleteProduct
  | PatchIncrease => increaseStock
  | PatchDecrease => decreaseStock
  end.

(** ** Properties of worlds used by the theorems *)

(** The two routes that adjust the stock. *)
Definition adjusts (r : Route) : Prop := r = PatchIncrease \/ r = PatchDecrease.

(** A stored product that satisfies the schema: a name, and a stock and
    a threshold that are integers and at least 0. *)
Definition conforms (p : Product) : bool :=
  negb (String.eqb (name p) EmptyString)
  && (Num.geb (stock_quantity p) Num.zero && Num.isInteger (stock_quantity p))
  && (Num.geb (low_stock_threshold p) Num.zero
      && Num.isInteger (low_stock_threshold p)).

(** A property that holds of every stored product. *)
Definition allStored (P : Product -> Prop) (w : World) : Prop :=
  forall id p, docs w !! id = Some p -> P p.

(** [stock_quantity >= 0], and a world where every stored product has
    it. *)
Definition nonNegativeStock (p : Product) : Prop :=
  Num.geb (stock_quantity p) Num.zero = true.

Definition stockNonNegative (w : World) : Prop := allStored nonNegativeStock w.

(** The world after a sequence of requests, served one after the other. *)
Fixpoint serve (steps : list (Route * Env * Request)) (w : World) : World :=
  match steps with
  | [] => w
  | (r, env, req) :: steps' => serve steps' (router r env req w).2
  end.

End Controller.

(** ** A runtime for evaluating the handlers on concrete requests

    It agrees with JavaScript on the strings and numbers it is used on:
    decimal integer strings, integers of at most twenty digits, ASCII
    white space, and ids of 24 lower-case hexadecimal digits. *)

Module Ref.

Definition code (c : ascii) : Z := Z.of_nat (nat_of_ascii c).

Definition digitOf (c : ascii) : option Z :=
  if (48 <=? code c) && (code c <=? 57) then Some (code c - 48) else None.

Fixpoint parseDigits (acc : Z) (s : string) : option Z :=
  match s with
  | EmptyString => Some acc
  | String c s' =>
      match digitOf c with
      | Some d => parseDigits (10 * acc + d) s'
      | None => None
      end
  end.

Definition parseNumber (s : string) : spec_float :=
  match s with
  | EmptyString => Num.zero
  | String "-" (String c s' as ds) =>
      match parseDigits 0 ds with
      | Some n => SFopp (Num.Z2SF n)
      | None => S754_nan
      end
  | _ =>
      match parseDigits 0 s with
      | Some n => Num.Z2SF n
      | None => S754_nan
      end
  end.

Definition isSpace (c : ascii) : bool :=
  (code c =? 32) || ((9 <=? code c) && (code c <=? 13)).

Fixpoint dropSpaces (l : list ascii) : list ascii :=
  match l with
  | c :: l' => if isSpace c then dropSpaces l' else l
  | [] => []
  end.

Definition trimSpaces (s : string) : string :=
  String.string_of_list_ascii
    (rev (dropSpaces (rev (dropSpaces (String.list_ascii_of_string s))))).

Definition isHex (c : ascii) : bool :=
  ((48 <=? code c) && (code c <=? 57)) || ((97 <=? code c) && (code c <=? 102)).

Definition objectId (s : string) : option string :=
  if (Z.of_nat (String.length s) =? 24) && forallb isHex (String.list_ascii_of_string s)
  then Some s else None.

Definition printNumber (x : spec_float) : string :=
  if Num.isInteger x then pretty.pretty (Num.SF2Z x) else "NaN".

#[export] Instance runtime : JsRuntime := {|
  StringToNumber := parseNumber;
  NumberToString := printNumber;
  trim := trimSpaces;
  castObjectId := objectId
|}.

Definition emptyBody : Body :=
  mkBody JUndefined JUndefined JUndefined JUndefined JUndefined.

Definition amountBody (v : JsValue) : Body :=
  mkBody JUndefined JUndefined JUndefined JUndefined v.

Definition id1 : string := "64b7f1a2c3d4e5f6a7b8c9d0".
Definition id2 : string := "64b7f1a2c3d4e5f6a7b8c9d1".
Definition id3 : string := "64b7f1a2c3d4e5f6a7b8c9d2".

(** A stored product with the given stock and threshold. *)
Definition product (id : string) (stock threshold : Z) : Product :=
  mkProduct id "Test Product" SAbsent (Num.Z2SF stock) (Num.Z2SF threshold) 0 0.

Definition world (ps : list Product) : World :=
  mkWorld (list_to_map (map (fun p => (_id p, p)) ps)) [].

Definition env : Env := mkEnv 1 id3.

(** The body of a creation request with a name and a stock. *)
Definition createBody (stock : spec_float) : Body :=
  mkBody (JString "Test Product") JUndefined (JNumber stock) JUndefined JUndefined.

(** The world after [POST /api/products] with the given stock on an empty
    collection; the product is stored under [id3]. *)
Definition stocked (stock : Z) : World :=
  (createProduct env (mkRequest EmptyString (createBody (Num.Z2SF stock)))
                 (mkWorld ∅ [])).2.

(** The product that [stocked] stores. *)
Definition testProduct (stock : Z) : Product :=
  mkProduct id3 "Test Product" SAbsent (Num.Z2SF stock) (Num.Z2SF 10) 1 1.

(** [PATCH /api/products/id3/...] with [{ amount: k }]. *)
Definition adjust (k : Z) : Request :=
  mkRequest id3 (amountBody (JNumber (Num.Z2SF k))).

(** [{ stock_quantity: v }]. *)
Definition stockBody (v : JsValue) : Body :=
  mkBody JUndefined JUndefined v JUndefined JUndefined.

(** The numbers [-1.5] and [1.5]. *)
Definition minusThreeHalves : spec_float := Num.div (Num.Z2SF (-3)) (Num.Z2SF 2).
Definition threeHalves : spec_float := Num.div (Num.Z2SF 3) (Num.Z2SF 2).

(** The stock stored under an id, and the stock of the product in a
    response, as integers. *)
Definition stockAt (w : World) (id : string) : option Z :=
  (fun p => Num.SF2Z (stock_quantity p)) <$> docs w !! id.

Definition returnedStock (r : Response) : option Z :=
  match json r with
  | ProductBody p => Some (Num.SF2Z (stock_quantity p))
  | _ => None
  end.

End Ref.

(** ** What a route reads from a request *)

Section Requests.

Context {rt : JsRuntime}.

(** The routes whose path has an [:id] parameter: their handlers pass
    [req.params.id] to the model. *)
Definition takesId (r : Route) : bool :=
  match r with
  | GetProduct | PutProduct | DeleteProduct | PatchIncrease | PatchDecrease => true
  | GetLowStock | PostProduct | GetProducts => false
  end.

(** The checks that a handler makes on [req.body] before its first call
    on the model: the two checks on [amount] in the stock handlers, the two
    sign checks in [updateProduct], the check on [name] in
    [createProduct]. *)
Definition bodyChecked (r : Route) (b : Body) : bool :=
  match r with
  | PatchIncrease | PatchDecrease =>
      negb (negb (ToBoolean (b_amount b)) || js_le0 (b_amount b))
      && Number_isInteger (b_amount b)
  | PutProduct =>
      negb (isDefined (b_stock_quantity b) && js_lt0 (b_stock_quantity b))
      && negb (isDefined (b_low_stock_threshold b) && js_lt0 (b_low_stock_threshold b))
  | PostProduct => ToBoolean (b_name b)
  | GetLowStock | GetProducts | GetProduct | DeleteProduct => true
  end.

(** The update document that [updateProduct] passes to the model. *)
Definition updateOf (b : Body) : Document :=
  castUpdate (b_name b) (b_description b) (b_stock_quantity b) (b_low_stock_threshold b).

(** The message of the final [res.status(500)] of each handler. *)
Definition serverError (r : Route) : string :=
  match r with
  | GetLowStock => "Server error while fetching low stock products"
  | PostProduct => "Server error while creating product"
  | GetProducts => "Server error while fetching products"
  | GetProduct => "Server error while fetching product"
  | PutProduct => "Server error while updating product"
  | DeleteProduct => "Server error while deleting product"
  | PatchIncrease => "Server error while increasing stock"
  | PatchDecrease => "Server error while decreasing stock"
  end.

(** The new stock that a stock handler computes from the stored one. *)
Definition adjusted (r : Route) (stock amount : spec_float) : spec_float :=
  match r with
  | PatchDecrease => Num.sub stock amount
  | _ => Num.add stock amount
  end.

(** The id of the only document that a request can write: the generated
    one for a creation; the one that the path names for an update, a
    deletion and a stock adjustment. *)
Definition target (r : Route) (env : Env) (req : Request) : option string :=
  match r with
  | PostProduct => Some (freshId env)
  | PutProduct | DeleteProduct | PatchIncrease | PatchDecrease =>
      castObjectId (params_id req)
  | GetLowStock | GetProducts | GetProduct => None
  end.

(** The writes of the four routes that write: the response of a request
    that wrote, and the collection after it. *)
Inductive Wrote (r : Route) (env : Env) (req : Request) (w : World)
  : Response -> gmap string Product -> Prop :=
| WroteNew (p : Product) :
    r = PostProduct -> _id p = freshId env ->
    createdAt p = now env -> updatedAt p = now env ->
    docs w !! freshId env = None ->
    Wrote r env req w (mkResponse 201 (ProductBody p)) (<[freshId env := p]> (docs w))
| WroteUpdate (oid : string) (p : Product) :
    r = PutProduct -> castObjectId (params_id req) = Some oid ->
    docs w !! oid = Some p ->
    Wrote r env req w
          (mkResponse 200 (ProductBody (applyUpdate env (updateOf (body req)) p)))
          (<[oid := applyUpdate env (updateOf (body req)) p]> (docs w))
| WroteDelete (oid : string) (p : Product) :
    r = DeleteProduct -> castObjectId (params_id req) = Some oid ->
    docs w !! oid = Some p ->
    Wrote r env req w
          (mkResponse 200 (DeletedBody "Product deleted successfully" p))
          (delete oid (docs w))
| WroteStock (oid : string) (p : Product) (v : spec_float) :
    adjusts r -> castObjectId (params_id req) = Some oid ->
    docs w !! oid = Some p ->
    Wrote r env req w
          (mkResponse 200 (ProductBody (withStock env p v)))
          (<[_id p := withStock env p v]> (docs w)).

(** A body that is an error object. *)
Definition isErrorJson (j : Json) : bool :=
  match j with
  | ErrorBody _ | ErrorMessage _ => true
  | _ => false
  end.

(** What one request does: it is refused with an error, or it lists
    products, or it returns one stored product without writing, or it
    writes. The second index is the collection after the request. *)
Inductive Outcome (r : Route) (env : Env) (req : Request) (w : World)
  : Response -> gmap string Product -> Prop :=
| Refused (resp : Response) :
    isErrorJson (json resp) = true -> 400 <= status resp ->
    Outcome r env req w resp (docs w)
| Listed (l : list Product) :
    r = GetLowStock \/ r = GetProducts ->
    Outcome r env req w (mkResponse 200 (ProductsBody l)) (docs w)
| Found (oid : string) (p : Product) :
    r = GetProduct \/ adjusts r ->
    castObjectId (params_id req) = Some oid -> docs w !! oid = Some p ->
    Outcome r env req w (mkResponse 200 (ProductBody p)) (docs w)
| Written (resp : Response) (ds : gmap string Product) :
    Wrote r env req w resp ds ->
    Outcome r env req w resp ds.

(** Every document is stored under its own [_id]. *)
Definition idsAreKeys (w : World) : Prop :=
  forall id p, docs w !! id = Some p -> _id p = id.

(** A stock and a threshold that are safe integers. *)
Definition safeQuantities (p : Product) : bool :=
  Num.valid (stock_quantity p) && Num.isSafeInteger (stock_quantity p)
  && (Num.valid (low_stock_threshold p) && Num.isSafeInteger (low_stock_threshold p)).

End Requests.

(** ** The route table of [routes/productRoutes.js] and its mount in [app.js]

    A request path is the list of its segments (the text between the
    slashes, none of them empty); Express compares the literal parts of a
    route path without regard to case and takes the first route, in the
    order of registration, whose method and path both match. A parameter
    is bound to the segment as it stands in the path; the handler reads it
    after percent-decoding, which leaves a segment without [%] as it is. *)

(** The methods that the table registers. *)
Inductive Method : Type := GET | POST | PUT | DELETE | PATCH.

Definition Method_eqb (a b : Method) : bool :=
  match a, b with
  | GET, GET | POST, POST | PUT, PUT | DELETE, DELETE | PATCH, PATCH => true
  | _, _ => false
  end.

(** One part of a route path: a literal, or a parameter such as [:id]. *)
Inductive Segment : Type :=
| Lit (s : string)
| Param (name : string).

Definition lowerAscii (c : ascii) : ascii :=
  let n := nat_of_ascii c in
  if ((65 <=? n) && (n <=? 90))%nat then ascii_of_nat (n + 32) else c.

Fixpoint lower (s : string) : string :=
  match s with
  | EmptyString => EmptyString
  | String c s' => String (lowerAscii c) (lower s')
  end.

Definition litEq (lit seg : string) : bool := String.eqb (lower lit) (lower seg).

(** The parameters bound when a route path matches a request path. *)
Fixpoint matchPath (pat : list Segment) (path : list string)
  : option (list (string * string)) :=
  match pat, path with
  | [], [] => Some []
  | Lit s :: pat', seg :: path' =>
      if litEq s seg then matchPath pat' path' else None
  | Param n :: pat', seg :: path' =>
      if String.eqb seg EmptyString then None
      else match matchPath pat' path' with
           | Some ps => Some ((n, seg) :: ps)
           | None => None
           end
  | _, _ => None
  end.

(** [router.get('/low-stock', ...)] and the seven registrations after it,
    in their order. *)
Definition routes : list (Method * list Segment * Route) :=
  [ (GET, [Lit "low-stock"], GetLowStock);
    (POST, [], PostProduct);
    (GET, [], GetProducts);
    (GET, [Param "id"], GetProduct);
    (PUT, [Param "id"], PutProduct);
    (DELETE, [Param "id"], DeleteProduct);
    (PATCH, [Param "id"; Lit "increase"], PatchIncrease);
    (PATCH, [Param "id"; Lit "decrease"], PatchDecrease) ].

(** The first route of a table that matches, with its parameters. *)
Fixpoint dispatch (table : list (Method * list Segment * Route))
    (m : Method) (path : list string) : option (Route * list (string * string)) :=
  match table with
  | [] => None
  | (m', pat, r) :: table' =>
      if Method_eqb m m' then
        match matchPath pat path with
        | Some ps => Some (r, ps)
        | None => dispatch table' m path
        end
      else dispatch table' m path
  end.

Definition productRoutes : Method -> list string -> option (Route * list (string * string)) :=
  dispatch routes.

(** The segment bound to [:id], from which [req.params.id] is decoded. *)
Definition paramId (ps : list (string * string)) : option string :=
  match List.find (fun kv => String.eqb kv.1 "id") ps with
  | Some kv => Some kv.2
  | None => None
  end.

(** What [app.js] runs for a request: the welcome handler on [GET /], the
    product routes under [/api/products]. *)
Inductive Target : Type :=
| Welcome
| Api (r : Route) (params : list (string * string)).

Definition app (m : Method) (path : list string) : option Target :=
  match path with
  | [] => if Method_eqb m GET then Some Welcome else None
  | [_] => None
  | a :: p :: rest =>
      if litEq "api" a && litEq "products" p then
        match productRoutes m rest with
        | Some (r, ps) => Some (Api r ps)
        | None => None
        end
      else None
  end.

(** * Facts about binary64 arithmetic on integers

    Integers of magnitude below [2 ^ 53] are represented exactly, and sums,
    differences and comparisons of such integers are exact as long as the
    result stays in that range. *)

Module NumFacts.

Import Num.

(** ** Mantissas, shifts and digits *)

Lemma iter_xO_spec (d m : positive) :
  Zpos (Pos.iter xO m d) = Zpos m * 2 ^ Zpos d.
Proof.
  induction d as [|d IH] using Pos.peano_ind.
  - simpl. lia.
  - rewrite Pos.iter_succ, Pos2Z.inj_xO, IH, Pos2Z.inj_succ, Z.pow_succ_r by lia. lia.
Qed.

Lemma shl_spec m k : 0 <= k -> Zpos (shl m k) = Zpos m * 2 ^ k.
Proof.
  destruct k as [|d|d]; intros Hk; try lia; simpl shl.
  - simpl. lia.
  - apply iter_xO_spec.
Qed.

Lemma digits2_bounds (p : positive) :
  2 ^ (Zpos (digits2_pos p) - 1) <= Zpos p < 2 ^ Zpos (digits2_pos p).
Proof.
  induction p as [p IH|p IH|]; cbn [digits2_pos].
  - rewrite Pos2Z.inj_succ, (Pos2Z.inj_xI p).
    replace (Z.succ (Zpos (digits2_pos p)) - 1) with (Z.succ (Zpos (digits2_pos p) - 1)) by lia.
    rewrite !Z.pow_succ_r by lia.
    set (a := 2 ^ _) in *. set (b := 2 ^ _) in *. lia.
  - rewrite Pos2Z.inj_succ, (Pos2Z.inj_xO p).
    replace (Z.succ (Zpos (digits2_pos p)) - 1) with (Z.succ (Zpos (digits2_pos p) - 1)) by lia.
    rewrite !Z.pow_succ_r by lia.
    set (a := 2 ^ _) in *. set (b := 2 ^ _) in *. lia.
  - simpl. lia.
Qed.

Lemma digits2_unique (p : positive) (d : Z) :
  2 ^ (d - 1) <= Zpos p < 2 ^ d -> Zpos (digits2_pos p) = d.
Proof.
  intros [Hl Hu]. pose proof (digits2_bounds p) as [Hl' Hu'].
  assert (Hd : 0 < d).
  { destruct (Z.lt_ge_cases 0 d) as [|Hle]; [assumption|].
    destruct (Z.eq_dec d 0) as [->|]; [simpl in Hu; lia|].
    rewrite Z.pow_neg_r in Hu by lia. lia. }
  destruct (Z.lt_trichotomy (Zpos (digits2_pos p)) d) as [Hlt|[Heq|Hgt]]; [|assumption|].
  - assert (2 ^ Zpos (digits2_pos p) <= 2 ^ (d - 1)) by (apply Z.pow_le_mono_r; lia). lia.
  - assert (2 ^ d <= 2 ^ (Zpos (digits2_pos p) - 1)) by (apply Z.pow_le_mono_r; lia). lia.
Qed.

Lemma digits2_shl m k : 0 <= k ->
  Zpos (digits2_pos (shl m k)) = Zpos (digits2_pos m) + k.
Proof.
  intros Hk. apply digits2_unique. rewrite shl_spec by assumption.
  pose proof (digits2_bounds m) as [Hl Hu].
  replace (Zpos (digits2_pos m) + k - 1) with ((Zpos (digits2_pos m) - 1) + k) by lia.
  rewrite !Z.pow_add_r by lia.
  assert (0 < 2 ^ k) by (apply Z.pow_pos_nonneg; lia).
  split; nia.
Qed.

Lemma shl_shl m a b : 0 <= a -> 0 <= b -> shl (shl m a) b = shl m (a + b).
Proof.
  intros Ha Hb. apply Pos2Z.inj. rewrite !shl_spec by lia.
  rewrite Z.pow_add_r by lia. lia.
Qed.

Lemma iter_pos_iter {A} (f : A -> A) (p : positive) (x : A) :
  SpecFloat.iter_pos f p x = Pos.iter f x p.
Proof.
  revert x. induction p as [p IH|p IH|]; intros x; simpl.
  - rewrite !IH. rewrite !Pos.iter_swap. reflexivity.
  - rewrite !IH. reflexivity.
  - reflexivity.
Qed.

Lemma shr_iter_exact (d m : positive) :
  SpecFloat.iter_pos shr_1 d (Build_shr_record (Zpos (Pos.iter xO m d)) false false)
  = Build_shr_record (Zpos m) false false.
Proof.
  rewrite iter_pos_iter.
  induction d as [|d IH] using Pos.peano_ind.
  - reflexivity.
  - rewrite Pos.iter_succ_r. rewrite Pos.iter_succ. simpl shr_1. exact IH.
Qed.

(** ** Rounding a value that needs no rounding *)

Lemma fexp_int d : 1 <= d -> fexp prec emax d = d - prec.
Proof. intros H. unfold fexp, emin, prec, emax. lia. Qed.

Lemma binary_round_aux_normal s m e :
  Zpos (digits2_pos m) = prec -> -52 <= e <= 0 ->
  binary_round_aux prec emax s (Zpos m) e loc_Exact = S754_finite s m e.
Proof.
  intros Hd He. unfold binary_round_aux, shr_fexp. 
  cbn [Zdigits2 shr_record_of_loc]. rewrite Hd.
  rewrite fexp_int by (unfold prec; lia).
  replace (prec + e - prec - e) with 0 by lia.
  cbn [shr shr_m loc_of_shr_record round_nearest_even].
  cbn [Zdigits2 shr_record_of_loc]. rewrite Hd.
  rewrite fexp_int by (unfold prec; lia).
  replace (prec + e - prec - e) with 0 by lia.
  cbn [shr shr_m].
  replace (e <=? emax - prec) with true; [reflexivity|].
  symmetry. apply Z.leb_le. unfold emax, prec. lia.
Qed.

Lemma binary_round_exact s n K :
  Zpos (digits2_pos n) <= prec -> 0 <= K ->
  binary_round prec emax s (shl n K) (- K) = canon s n.
Proof.
  intros HD HK. set (D := Zpos (digits2_pos n)) in *.
  assert (HD1 : 1 <= D) by (unfold D; lia).
  unfold binary_round.
  rewrite digits2_shl by assumption. fold D.
  replace (D + K + - K) with D by lia.
  rewrite fexp_int by assumption.
  unfold shl_align.
  assert (Hc : Zpos (digits2_pos (shl n (prec - D))) = prec).
  { rewrite digits2_shl by lia. fold D. lia. }
  destruct (D - prec - - K) as [|q|q] eqn:Hq.
  - (* already aligned *)
    assert (K = prec - D) by lia. subst K.
    replace (- (prec - D)) with (D - prec) by lia.
    apply binary_round_aux_normal; [assumption | unfold prec in *; lia].
  - (* too many low bits: exact right shift *)
    unfold binary_round_aux at 1. unfold shr_fexp at 1.
    cbn [Zdigits2 shr_record_of_loc].
    rewrite digits2_shl by assumption. fold D.
    replace (D + K + - K) with D by lia.
    rewrite fexp_int by assumption. rewrite Hq.
    unfold shr at 1.
    assert (Hs : shl n K = Pos.iter xO (shl n (prec - D)) q).
    { change (Pos.iter xO (shl n (prec - D)) q) with (shl (shl n (prec - D)) (Zpos q)).
      rewrite shl_shl by lia. f_equal. lia. }
    rewrite Hs, shr_iter_exact.
    cbn [shr_m loc_of_shr_record round_nearest_even].
    replace (- K + Zpos q) with (D - prec) by lia.
    pose proof (binary_round_aux_normal s (shl n (prec - D)) (D - prec) Hc) as Hn.
    unfold binary_round_aux in Hn at 1. unfold shr_fexp in Hn at 1.
    cbn [Zdigits2 shr_record_of_loc] in Hn. rewrite Hc in Hn.
    rewrite fexp_int in Hn by (unfold prec in *; lia).
    replace (prec + (D - prec) - prec - (D - prec)) with 0 in Hn by lia.
    cbn [shr shr_m loc_of_shr_record round_nearest_even] in Hn.
    apply Hn. unfold prec in *; lia.
  - (* fewer bits than the precision: left shift *)
    assert (Hs : Pos.iter xO (shl n K) q = shl n (prec - D)).
    { change (Pos.iter xO (shl n K) q) with (shl (shl n K) (Zpos q)).
      rewrite shl_shl by lia. f_equal. lia. }
    rewrite Hs.
    apply binary_round_aux_normal; [assumption | unfold prec in *; lia].
Qed.

(** ** Integers below [2 ^ 53] as doubles *)

Lemma digits2_le_prec (p : positive) : Zpos p < 2 ^ 53 -> Zpos (digits2_pos p) <= prec.
Proof.
  intros Hp. pose proof (digits2_bounds p) as [Hl _]. unfold prec.
  destruct (Z.le_gt_cases (Zpos (digits2_pos p)) 53) as [|Hgt]; [assumption|].
  assert (2 ^ 53 <= 2 ^ (Zpos (digits2_pos p) - 1)) by (apply Z.pow_le_mono_r; lia). lia.
Qed.

Lemma Z2SF_pos (p : positive) : Zpos p < 2 ^ 53 -> Z2SF (Zpos p) = canon false p.
Proof.
  intros Hp. unfold Z2SF, binary_normalize.
  apply (binary_round_exact false p 0); [apply digits2_le_prec; assumption | lia].
Qed.

Lemma Z2SF_neg (p : positive) : Zpos p < 2 ^ 53 -> Z2SF (Zneg p) = canon true p.
Proof.
  intros Hp. unfold Z2SF, binary_normalize.
  apply (binary_round_exact true p 0); [apply digits2_le_prec; assumption | lia].
Qed.

Lemma normalize_scaled (z K : Z) :
  Z.abs z < 2 ^ 53 -> 0 <= K ->
  binary_normalize prec emax (z * 2 ^ K) (- K) false = Z2SF z.
Proof.
  intros Hz HK. destruct z as [|p|p].
  - reflexivity.
  - rewrite <- shl_spec by assumption. rewrite Z2SF_pos by lia.
    apply binary_round_exact; [apply digits2_le_prec; lia | assumption].
  - change (Zneg p) with (- Zpos p) at 1. rewrite Z.mul_opp_l, <- shl_spec by assumption.
    rewrite Z2SF_neg by lia. cbn [Z.opp binary_normalize].
    apply binary_round_exact; [apply digits2_le_prec; lia | assumption].
Qed.

Lemma Z2SF_signed s n : Zpos n < 2 ^ 53 -> Z2SF (signed s n) = canon s n.
Proof. destruct s; [apply Z2SF_neg | apply Z2SF_pos]. Qed.

(** ** Exact sums and differences *)

Lemma shl_align_fst m e ez : ez <= e -> fst (shl_align m e ez) = shl m (e - ez).
Proof.
  intros H. unfold shl_align. destruct (ez - e) as [|d|d] eqn:Hd; try lia.
  - replace (e - ez) with 0 by lia. reflexivity.
  - replace (e - ez) with (Zpos d) by lia. reflexivity.
Qed.

Lemma cond_Zopp_shl s n K : 0 <= K ->
  cond_Zopp s (Zpos (shl n K)) = signed s n * 2 ^ K.
Proof.
  intros HK. unfold signed. rewrite shl_spec by assumption.
  destruct s; cbn [cond_Zopp]; lia.
Qed.

Lemma aligned_mantissa s n ez :
  Zpos (digits2_pos n) <= prec -> ez <= Zpos (digits2_pos n) - prec ->
  cond_Zopp s (Zpos (fst (shl_align (shl n (prec - Zpos (digits2_pos n)))
                                     (Zpos (digits2_pos n) - prec) ez)))
  = signed s n * 2 ^ (- ez).
Proof.
  intros HD He. rewrite shl_align_fst by assumption.
  rewrite shl_shl by lia.
  replace (prec - Zpos (digits2_pos n) + (Zpos (digits2_pos n) - prec - ez)) with (- ez) by lia.
  apply cond_Zopp_shl. lia.
Qed.

Lemma add_canon sn n sk k :
  Zpos n < 2 ^ 53 -> Zpos k < 2 ^ 53 ->
  Z.abs (signed sn n + signed sk k) < 2 ^ 53 ->
  add (canon sn n) (canon sk k) = Z2SF (signed sn n + signed sk k).
Proof.
  intros Hn Hk Hs.
  pose proof (digits2_le_prec n Hn) as HDn. pose proof (digits2_le_prec k Hk) as HDk.
  unfold add, canon, SFadd.
  set (ez := Z.min _ _).
  rewrite !aligned_mantissa by (try assumption; unfold ez; lia).
  rewrite <- Z.mul_add_distr_r.
  replace ez with (- - ez) at 2 by lia.
  apply normalize_scaled; [assumption | unfold ez; lia].
Qed.

Lemma sub_canon sn n sk k :
  Zpos n < 2 ^ 53 -> Zpos k < 2 ^ 53 ->
  Z.abs (signed sn n - signed sk k) < 2 ^ 53 ->
  sub (canon sn n) (canon sk k) = Z2SF (signed sn n - signed sk k).
Proof.
  intros Hn Hk Hs.
  pose proof (digits2_le_prec n Hn) as HDn. pose proof (digits2_le_prec k Hk) as HDk.
  unfold sub, canon, SFsub.
  set (ez := Z.min _ _).
  rewrite !aligned_mantissa by (try assumption; unfold ez; lia).
  rewrite <- Z.mul_sub_distr_r.
  replace ez with (- - ez) at 2 by lia.
  apply normalize_scaled; [assumption | unfold ez; lia].
Qed.

(** Every integer of magnitude below [2 ^ 53] is [signed s n] or zero. *)
Lemma Z2SF_cases (z : Z) :
  Z.abs z < 2 ^ 53 ->
  (z = 0 /\ Z2SF z = zero)
  \/ (exists s n, z = signed s n /\ Zpos n < 2 ^ 53 /\ Z2SF z = canon s n).
Proof.
  intros Hz. destruct z as [|p|p].
  - left. split; reflexivity.
  - right. exists false, p. split; [reflexivity|]. split; [lia|]. apply Z2SF_pos. lia.
  - right. exists true, p. split; [reflexivity|]. split; [lia|]. apply Z2SF_neg. lia.
Qed.

Lemma add_exact (x y : Z) :
  Z.abs x < 2 ^ 53 -> Z.abs y < 2 ^ 53 -> Z.abs (x + y) < 2 ^ 53 ->
  add (Z2SF x) (Z2SF y) = Z2SF (x + y).
Proof.
  intros Hx Hy Hxy.
  destruct (Z2SF_cases x Hx) as [[-> Ex]|(sx & n & -> & Hn & Ex)];
  destruct (Z2SF_cases y Hy) as [[-> Ey]|(sy & k & -> & Hk & Ey)].
  - reflexivity.
  - rewrite Z.add_0_l. rewrite Ey. reflexivity.
  - rewrite Z.add_0_r. rewrite Ex. reflexivity.
  - rewrite Ex, Ey. apply add_canon; assumption.
Qed.

Lemma sub_exact (x y : Z) :
  Z.abs x < 2 ^ 53 -> Z.abs y < 2 ^ 53 -> Z.abs (x - y) < 2 ^ 53 ->
  sub (Z2SF x) (Z2SF y) = Z2SF (x - y).
Proof.
  intros Hx Hy Hxy.
  destruct (Z2SF_cases x Hx) as [[-> Ex]|(sx & n & -> & Hn & Ex)];
  destruct (Z2SF_cases y Hy) as [[-> Ey]|(sy & k & -> & Hk & Ey)].
  - reflexivity.
  - rewrite Ey. replace (0 - signed sy k) with (signed (negb sy) k)
      by (unfold signed; destruct sy; cbn [cond_Zopp negb]; lia).
    rewrite Z2SF_signed by assumption. reflexivity.
  - rewrite Z.sub_0_r. rewrite Ex. reflexivity.
  - rewrite Ex, Ey. apply sub_canon; assumption.
Qed.

(** ** Exact comparisons *)

Lemma compare_magnitude (n k : positive) :
  Zpos n < 2 ^ 53 -> Zpos k < 2 ^ 53 ->
  match Zpos (digits2_pos n) - prec ?= Zpos (digits2_pos k) - prec with
  | Lt => Lt
  | Gt => Gt
  | Eq => Pos.compare_cont Eq (shl n (prec - Zpos (digits2_pos n)))
                              (shl k (prec - Zpos (digits2_pos k)))
  end = (Zpos n ?= Zpos k).
Proof.
  intros Hn Hk.
  pose proof (digits2_le_prec n Hn) as HDn. pose proof (digits2_le_prec k Hk) as HDk.
  pose proof (digits2_bounds n) as [Ln Un]. pose proof (digits2_bounds k) as [Lk Uk].
  destruct (Z.compare_spec (Zpos (digits2_pos n) - prec) (Zpos (digits2_pos k) - prec))
    as [He|He|He].
  - assert (Hd : Zpos (digits2_pos n) = Zpos (digits2_pos k)) by lia.
    rewrite Hd. change (Pos.compare_cont Eq ?a ?b) with (Zpos a ?= Zpos b).
    rewrite !shl_spec by lia.
    assert (Hp : 0 < 2 ^ (prec - Zpos (digits2_pos k))) by (apply Z.pow_pos_nonneg; lia).
    destruct (Z.compare_spec (Zpos n) (Zpos k)) as [Hc|Hc|Hc];
      [apply Z.compare_eq_iff | apply Z.compare_lt_iff | apply Z.compare_gt_iff]; nia.
  - symmetry. apply Z.compare_lt_iff.
    assert (2 ^ Zpos (digits2_pos n) <= 2 ^ (Zpos (digits2_pos k) - 1))
      by (apply Z.pow_le_mono_r; lia). lia.
  - symmetry. apply Z.compare_gt_iff.
    assert (2 ^ Zpos (digits2_pos k) <= 2 ^ (Zpos (digits2_pos n) - 1))
      by (apply Z.pow_le_mono_r; lia). lia.
Qed.

Lemma compare_canon sn n sk k :
  Zpos n < 2 ^ 53 -> Zpos k < 2 ^ 53 ->
  SFcompare (canon sn n) (canon sk k) = Some (signed sn n ?= signed sk k).
Proof.
  intros Hn Hk. pose proof (compare_magnitude n k Hn Hk) as Hm.
  unfold canon, SFcompare, signed. destruct sn, sk; cbn [cond_Zopp]; try reflexivity.
  - f_equal. change (- Zpos n ?= - Zpos k) with (CompOpp (Zpos n ?= Zpos k)).
    rewrite <- Hm. destruct (_ ?= _); reflexivity.
  - f_equal. exact Hm.
Qed.

Lemma compare_exact (x y : Z) :
  Z.abs x < 2 ^ 53 -> Z.abs y < 2 ^ 53 ->
  SFcompare (Z2SF x) (Z2SF y) = Some (x ?= y).
Proof.
  intros Hx Hy.
  destruct (Z2SF_cases x Hx) as [[-> Ex]|(sx & n & -> & Hn & Ex)];
  destruct (Z2SF_cases y Hy) as [[-> Ey]|(sy & k & -> & Hk & Ey)];
  rewrite ?Ex, ?Ey.
  - reflexivity.
  - destruct sy; reflexivity.
  - destruct sx; reflexivity.
  - apply compare_canon; assumption.
Qed.

Lemma ltb_exact (x y : Z) :
  Z.abs x < 2 ^ 53 -> Z.abs y < 2 ^ 53 -> ltb (Z2SF x) (Z2SF y) = (x <? y).
Proof.
  intros Hx Hy. unfold ltb, SFltb, Z.ltb. rewrite compare_exact by assumption.
  destruct (x ?= y); reflexivity.
Qed.

Lemma leb_exact (x y : Z) :
  Z.abs x < 2 ^ 53 -> Z.abs y < 2 ^ 53 -> leb (Z2SF x) (Z2SF y) = (x <=? y).
Proof.
  intros Hx Hy. unfold leb, SFleb, Z.leb. rewrite compare_exact by assumption.
  destruct (x ?= y); reflexivity.
Qed.

Lemma eqb_exact (x y : Z) :
  Z.abs x < 2 ^ 53 -> Z.abs y < 2 ^ 53 -> eqb (Z2SF x) (Z2SF y) = (x =? y).
Proof.
  intros Hx Hy. unfold eqb, SFeqb. rewrite compare_exact by assumption.
  destruct (Z.eqb_spec x y) as [->|Hne].
  - rewrite Z.compare_refl. reflexivity.
  - destruct (x ?= y) eqn:E; try reflexivity.
    apply Z.compare_eq_iff in E. contradiction.
Qed.

(** ** Integrality and value *)

Lemma isInteger_canon s n : Zpos n < 2 ^ 53 -> isInteger (canon s n) = true.
Proof.
  intros Hn. pose proof (digits2_le_prec n Hn) as HD.
  unfold canon, isInteger. destruct (Z.leb_spec 0 (Zpos (digits2_pos n) - prec)); [reflexivity|].
  apply Z.eqb_eq. rewrite shl_spec by lia.
  replace (- (Zpos (digits2_pos n) - prec)) with (prec - Zpos (digits2_pos n)) by lia.
  apply Z.mod_mul. apply Z.pow_nonzero; lia.
Qed.

Lemma isInteger_exact (z : Z) : Z.abs z < 2 ^ 53 -> isInteger (Z2SF z) = true.
Proof.
  intros Hz. destruct (Z2SF_cases z Hz) as [[-> E]|(s & n & -> & Hn & E)]; rewrite E.
  - reflexivity.
  - apply isInteger_canon. assumption.
Qed.

Lemma SF2Z_canon s n : Zpos n < 2 ^ 53 -> SF2Z (canon s n) = signed s n.
Proof.
  intros Hn. pose proof (digits2_le_prec n Hn) as HD.
  unfold canon, SF2Z, signed. f_equal. rewrite shl_spec by lia.
  destruct (Z.leb_spec 0 (Zpos (digits2_pos n) - prec)).
  - replace (prec - Zpos (digits2_pos n)) with 0 by lia.
    replace (Zpos (digits2_pos n) - prec) with 0 by lia. simpl. lia.
  - replace (- (Zpos (digits2_pos n) - prec)) with (prec - Zpos (digits2_pos n)) by lia.
    apply Z.div_mul. apply Z.pow_nonzero; lia.
Qed.

Lemma SF2Z_exact (z : Z) : Z.abs z < 2 ^ 53 -> SF2Z (Z2SF z) = z.
Proof.
  intros Hz. destruct (Z2SF_cases z Hz) as [[-> E]|(s & n & -> & Hn & E)]; rewrite E.
  - reflexivity.
  - apply SF2Z_canon. assumption.
Qed.

(** A well-formed double whose value is an integer below [2 ^ 53] is the
    double of that integer. *)
Lemma canonical_integer (s : bool) (m : positive) (e : Z) :
  valid_binary prec emax (S754_finite s m e) = true ->
  isInteger (S754_finite s m e) = true ->
  Z.abs (SF2Z (S754_finite s m e)) < 2 ^ 53 ->
  S754_finite s m e = Z2SF (SF2Z (S754_finite s m e)).
Proof.
  cbn [valid_binary isInteger SF2Z]. unfold bounded, canonical_mantissa, fexp, emin, prec, emax.
  intros Hv Hi Hb. apply andb_true_iff in Hv as [Hc _]. apply Z.eqb_eq in Hc.
  pose proof (digits2_bounds m) as [Hl Hu].
  set (D := Zpos (digits2_pos m)) in *.
  destruct (Z.leb_spec 0 e) as [He|He].
  - (* no fractional bits *)
    assert (HD : D = 53) by lia.
    assert (Hp : 2 ^ 52 <= Zpos m) by (rewrite HD in Hl; exact Hl).
    assert (He0 : e = 0).
    { destruct (Z.eq_dec e 0) as [|Hne]; [assumption|].
      assert (2 ^ 1 <= 2 ^ e) by (apply Z.pow_le_mono_r; lia).
      assert (Z.abs (cond_Zopp s (Zpos m * 2 ^ e)) = Zpos m * 2 ^ e)
        by (destruct s; cbn [cond_Zopp]; lia).
      nia. }
    subst e. rewrite Z.pow_0_r, Z.mul_1_r.
    change (cond_Zopp s (Zpos m)) with (signed s m).
    rewrite Z2SF_signed by (destruct s; cbn [cond_Zopp] in Hb; lia).
    unfold canon. fold D. rewrite HD. reflexivity.
  - apply Z.eqb_eq in Hi.
    assert (Hpow : 0 < 2 ^ (- e)) by (apply Z.pow_pos_nonneg; lia).
    assert (Hm : Zpos m = Zpos m / 2 ^ (- e) * 2 ^ (- e)).
    { rewrite (Z.div_mod (Zpos m) (2 ^ (- e))) at 1 by lia. rewrite Hi. lia. }
    destruct (Zpos m / 2 ^ (- e)) as [|n|n] eqn:Hq; try lia.
    assert (Hn : Zpos n < 2 ^ 53) by (destruct s; cbn [cond_Zopp] in Hb; lia).
    assert (Hshl : m = shl n (- e)).
    { apply Pos2Z.inj. rewrite shl_spec by lia. exact Hm. }
    assert (HDn : D = Zpos (digits2_pos n) + - e).
    { unfold D. rewrite Hshl. apply digits2_shl. lia. }
    pose proof (digits2_le_prec n Hn) as Hle. unfold prec in Hle.
    assert (HD : D = 53) by lia.
    change (cond_Zopp s (Zpos n)) with (signed s n).
    rewrite Z2SF_signed by assumption.
    unfold canon, prec. rewrite Hshl. f_equal; [f_equal|]; lia.
Qed.

(** ** Safe integers *)

Lemma safe_bound (z : Z) : Z.abs z <= MAX_SAFE_INTEGER <-> Z.abs z < 2 ^ 53.
Proof. unfold MAX_SAFE_INTEGER. lia. Qed.

Lemma safe_integer_cases (x : spec_float) :
  valid x = true -> isSafeInteger x = true ->
  Z.abs (SF2Z x) < 2 ^ 53 /\ (x = Z2SF (SF2Z x) \/ x = S754_zero true).
Proof.
  unfold valid, isSafeInteger. intros Hv Hs.
  apply andb_true_iff in Hs as [Hi Hb]. apply Z.leb_le, safe_bound in Hb.
  split; [assumption|].
  destruct x as [[|]| | |s m e]; try discriminate Hi.
  - right. reflexivity.
  - left. reflexivity.
  - left. apply canonical_integer; assumption.
Qed.

(** A stock value of the schema in the safe range: [+0], [-0] or a
    positive integer. *)
Lemma safe_stock_cases (x : spec_float) :
  valid x = true -> isSafeInteger x = true -> geb x zero = true ->
  0 <= SF2Z x < 2 ^ 53 /\ (x = Z2SF (SF2Z x) \/ x = S754_zero true).
Proof.
  intros Hv Hs Hg. destruct (safe_integer_cases x Hv Hs) as [Hb [E|E]].
  - split; [|left; assumption]. split; [|lia].
    unfold geb in Hg. rewrite E in Hg. change (SFleb zero ?a) with (leb (Z2SF 0) a) in Hg.
    rewrite leb_exact in Hg by lia. apply Z.leb_le in Hg. assumption.
  - subst x. split; [cbn; lia | right; reflexivity].
Qed.

Lemma safe_amount_cases (a : spec_float) :
  valid a = true -> isSafeInteger a = true -> ltb zero a = true ->
  0 < SF2Z a < 2 ^ 53 /\ a = Z2SF (SF2Z a).
Proof.
  intros Hv Hs Hl. destruct (safe_integer_cases a Hv Hs) as [Hb [E|E]].
  - split; [|assumption]. split; [|lia].
    rewrite E in Hl. change zero with (Z2SF 0) in Hl.
    rewrite ltb_exact in Hl by lia. apply Z.ltb_lt in Hl. assumption.
  - subst a. discriminate Hl.
Qed.

Lemma Z2SF_positive_finite (k : Z) :
  0 < k < 2 ^ 53 -> exists m e, Z2SF k = S754_finite false m e.
Proof.
  intros Hk. destruct k as [|p|p]; try lia. rewrite Z2SF_pos by lia.
  unfold canon. eauto.
Qed.

Lemma add_safe (x a : spec_float) :
  valid x = true -> isSafeInteger x = true -> geb x zero = true ->
  valid a = true -> isSafeInteger a = true -> ltb zero a = true ->
  SF2Z x + SF2Z a <= MAX_SAFE_INTEGER ->
  add x a = Z2SF (SF2Z x + SF2Z a) /\ eqb (add x a) x = false.
Proof.
  intros Hvx Hsx Hgx Hva Hsa Hla Hsum. unfold MAX_SAFE_INTEGER in Hsum.
  destruct (safe_stock_cases x Hvx Hsx Hgx) as [Hx [Ex|Ex]];
  destruct (safe_amount_cases a Hva Hsa Hla) as [Ha Ea].
  - assert (E : add x a = Z2SF (SF2Z x + SF2Z a)).
    { rewrite Ex at 1. rewrite Ea at 1. apply add_exact; lia. }
    split; [assumption|]. rewrite E. rewrite Ex at 2.
    rewrite eqb_exact by lia. apply Z.eqb_neq. lia.
  - subst x. cbn [SF2Z]. rewrite Z.add_0_l, <- Ea.
    destruct (Z2SF_positive_finite (SF2Z a) Ha) as (m & e & Em). rewrite Ea, Em.
    split; reflexivity.
Qed.

Lemma sub_safe (x a : spec_float) :
  valid x = true -> isSafeInteger x = true -> geb x zero = true ->
  valid a = true -> isSafeInteger a = true -> ltb zero a = true ->
  sub x a = Z2SF (SF2Z x - SF2Z a) /\ eqb (sub x a) x = false.
Proof.
  intros Hvx Hsx Hgx Hva Hsa Hla.
  destruct (safe_stock_cases x Hvx Hsx Hgx) as [Hx [Ex|Ex]];
  destruct (safe_amount_cases a Hva Hsa Hla) as [Ha Ea].
  - assert (E : sub x a = Z2SF (SF2Z x - SF2Z a)).
    { rewrite Ex at 1. rewrite Ea at 1. apply sub_exact; lia. }
    split; [assumption|]. rewrite E. rewrite Ex at 2.
    rewrite eqb_exact by lia. apply Z.eqb_neq. lia.
  - subst x. cbn [SF2Z]. 
    destruct (SF2Z a) as [|k|k] eqn:Ek; try lia.
    rewrite Ea. rewrite Z2SF_pos by lia. change (0 - Zpos k) with (Zneg k).
    rewrite Z2SF_neg by lia. split; reflexivity.
Qed.

(** ** The sign of a rounded value

    Rounding a non-zero integer at an exponent of at least [emin] never
    yields a zero: the result keeps the sign. *)













End NumFacts.

(** * Facts about the controller *)

Section ControllerFacts.

Context {rt : JsRuntime}.

Ltac run_m :=
  unfold mbind, M_bind, bind, mret, M_ret, ret, logCall, readDocs, writeDocs; cbn.

(** ** The checks on [amount] *)

Lemma leb_zero_rejected (x : spec_float) :
  Num.leb x Num.zero = true ->
  negb (ToBoolean (JNumber x)) || js_le0 (JNumber x) = true.
Proof.
  intros H. unfold js_le0. cbn [ToNumber]. rewrite H. apply orb_true_r.
Qed.

Lemma positive_accepted (x : spec_float) :
  Num.ltb Num.zero x = true ->
  negb (ToBoolean (JNumber x)) || js_le0 (JNumber x) = false.
Proof.
  intros H. unfold js_le0. cbn [ToNumber].
  destruct x as [s|s| |s m e]; try discriminate H; destruct s; try discriminate H; reflexivity.
Qed.

(** ** The model operations *)

Lemma findById_cast (id oid : string) (w : World) :
  castObjectId id = Some oid ->
  findById id w = (inr (docs w !! oid), mkWorld (docs w) (calls w ++ [CallFindById id])).
Proof. intros H. unfold findById. run_m. rewrite H. reflexivity. Qed.

Lemma findById_docs (id : string) (w : World) : docs (findById id w).2 = docs w.
Proof. unfold findById. run_m. destruct (castObjectId id); reflexivity. Qed.

(** ** Stored products that satisfy the schema *)

Lemma geb_zero_not_lt (x : spec_float) :
  Num.geb x Num.zero = true -> Num.ltb x Num.zero = false /\ Num.isNaN x = false.
Proof.
  destruct x as [s|s| |s m e]; try destruct s; cbn; intros H;
    try discriminate H; split; reflexivity.
Qed.

Lemma conforms_spec (p : Product) :
  conforms p = true ->
  String.eqb (name p) EmptyString = false
  /\ Num.geb (stock_quantity p) Num.zero = true
  /\ Num.isInteger (stock_quantity p) = true
  /\ Num.geb (low_stock_threshold p) Num.zero = true
  /\ Num.isInteger (low_stock_threshold p) = true.
Proof.
  unfold conforms. intros H.
  apply andb_true_iff in H as [H Ht]. apply andb_true_iff in H as [Hn Hs].
  apply andb_true_iff in Hs as [Hs1 Hs2]. apply andb_true_iff in Ht as [Ht1 Ht2].
  apply negb_true_iff in Hn. repeat split; assumption.
Qed.

Lemma validateNumber_accepts (minMsg intMsg : string) (x : spec_float) :
  Num.geb x Num.zero = true -> Num.isInteger x = true ->
  validateNumber minMsg intMsg (castNumber (JNumber x)) = None.
Proof.
  intros Hge Hint. destruct (geb_zero_not_lt x Hge) as [_ Hnan].
  cbn [castNumber]. rewrite Hnan. unfold validateNumber. rewrite Hge, Hint. reflexivity.
Qed.

Lemma storedErrors_nil (p : Product) (v : spec_float) :
  conforms p = true -> Num.geb v Num.zero = true -> Num.isInteger v = true ->
  storedErrors p v = [].
Proof.
  intros Hp Hge Hint. destruct (conforms_spec p Hp) as (Hn & _ & _ & Ht1 & Ht2).
  unfold storedErrors, validateStock, validateThreshold.
  rewrite !validateNumber_accepts by assumption.
  cbn [validateName]. rewrite Hn. reflexivity.
Qed.

Lemma saveStock_written (env : Env) (p : Product) (v : spec_float) (w : World) :
  conforms p = true ->
  Num.eqb v (stock_quantity p) = false ->
  Num.geb v Num.zero = true -> Num.isInteger v = true ->
  saveStock env p v w
  = (inr (withStock env p v),
     mkWorld (<[_id p := withStock env p v]> (docs w)) (calls w ++ [CallSave (_id p)])).
Proof.
  intros Hp Hne Hge Hint. unfold saveStock.
  rewrite storedErrors_nil by assumption. run_m. rewrite Hne. reflexivity.
Qed.

Lemma Z2SF_storable (z : Z) :
  0 <= z < 2 ^ 53 ->
  Num.geb (Num.Z2SF z) Num.zero = true
  /\ Num.isInteger (Num.Z2SF z) = true.
Proof.
  intros Hz. split.
  - unfold Num.geb. change (SFleb Num.zero ?a) with (Num.leb (Num.Z2SF 0) a).
    rewrite NumFacts.leb_exact by lia. apply Z.leb_le. lia.
  - apply NumFacts.isInteger_exact. lia.
Qed.

Lemma findByIdAndUpdate_found env id oid u p w :
  castObjectId id = Some oid -> docs w !! oid = Some p ->
  updateCastError u = None -> updateValidationErrors u = [] ->
  findByIdAndUpdate env id u w
  = (inr (Some (applyUpdate env u p)),
     mkWorld (<[oid := applyUpdate env u p]> (docs w))
             (calls w ++ [CallFindByIdAndUpdate id])).
Proof.
  intros Hid Hp Hc Hv. unfold findByIdAndUpdate. run_m.
  rewrite Hid, Hc, Hv. cbn. rewrite Hp. reflexivity.
Qed.

(** ** The stock handlers on a stored product *)

(** [increaseStock] once the amount has passed the checks and the sum is a
    value that the schema accepts. *)
Lemma increaseStock_saved
    (env : Env) (req : Request) (w : World) (oid : string) (p : Product)
    (a v : spec_float) :
  castObjectId (params_id req) = Some oid ->
  docs w !! oid = Some p ->
  b_amount (body req) = JNumber a ->
  Num.ltb Num.zero a = true -> Num.isInteger a = true ->
  conforms p = true ->
  Num.add (stock_quantity p) a = v ->
  Num.eqb v (stock_quantity p) = false ->
  Num.geb v Num.zero = true -> Num.isInteger v = true ->
  increaseStock env req w
  = (mkResponse 200 (ProductBody (withStock env p v)),
     mkWorld (<[_id p := withStock env p v]> (docs w))
             (calls w ++ [CallFindById (params_id req); CallSave (_id p)])).
Proof.
  intros Hid Hp Ha Hpos Hint Hc Hv Hne Hge Hvi.
  unfold increaseStock. rewrite Ha, (positive_accepted a Hpos).
  cbn [Number_isInteger]. rewrite Hint. cbn [negb ToNumber].
  unfold mbind at 1, M_bind, bind. rewrite (findById_cast _ oid) by assumption.
  cbn [docs]. rewrite Hp. unfold mbind, M_bind, bind. rewrite Hv.
  rewrite saveStock_written by assumption.
  cbn. rewrite <- app_assoc. reflexivity.
Qed.

(** [decreaseStock] once the amount has passed the checks: the floor
    check on the difference, then the save. *)
Lemma decreaseStock_checked
    (env : Env) (req : Request) (w : World) (oid : string) (p : Product)
    (a v : spec_float) :
  castObjectId (params_id req) = Some oid ->
  docs w !! oid = Some p ->
  b_amount (body req) = JNumber a ->
  Num.ltb Num.zero a = true -> Num.isInteger a = true ->
  Num.sub (stock_quantity p) a = v ->
  decreaseStock env req w
  = if Num.ltb v Num.zero
    then (mkResponse 400 (ErrorBody "Insufficient stock"),
          mkWorld (docs w) (calls w ++ [CallFindById (params_id req)]))
    else
      let (s, w') :=
        saveStock env p v (mkWorld (docs w) (calls w ++ [CallFindById (params_id req)])) in
      match s with
      | inr product' => (mkResponse 200 (ProductBody product'), w')
      | inl error =>
          if nameIs error "CastError"
          then (mkResponse 400 (ErrorBody "Invalid product ID"), w')
          else (mkResponse 500 (ErrorBody "Server error while decreasing stock"), w')
      end.
Proof.
  intros Hid Hp Ha Hpos Hint Hv.
  unfold decreaseStock. rewrite Ha, (positive_accepted a Hpos).
  cbn [Number_isInteger]. rewrite Hint. cbn [negb ToNumber].
  unfold mbind at 1, M_bind, bind. rewrite (findById_cast _ oid) by assumption.
  cbn [docs]. rewrite Hp, Hv.
  destruct (Num.ltb v Num.zero); [reflexivity|].
  unfold mbind, M_bind, bind. destruct (saveStock _ _ _ _) as [[e|q] w']; [|reflexivity].
  destruct (nameIs _ _); reflexivity.
Qed.

Lemma decreaseStock_saved
    (env : Env) (req : Request) (w : World) (oid : string) (p : Product)
    (a : spec_float) (z : Z) :
  castObjectId (params_id req) = Some oid ->
  docs w !! oid = Some p ->
  b_amount (body req) = JNumber a ->
  Num.ltb Num.zero a = true -> Num.isInteger a = true ->
  conforms p = true ->
  Num.sub (stock_quantity p) a = Num.Z2SF z ->
  Num.eqb (Num.Z2SF z) (stock_quantity p) = false ->
  0 <= z < 2 ^ 53 ->
  decreaseStock env req w
  = (mkResponse 200 (ProductBody (withStock env p (Num.Z2SF z))),
     mkWorld (<[_id p := withStock env p (Num.Z2SF z)]> (docs w))
             (calls w ++ [CallFindById (params_id req); CallSave (_id p)])).
Proof.
  intros Hid Hp Ha Hpos Hint Hc Hv Hne Hz.
  rewrite (decreaseStock_checked env req w oid p a (Num.Z2SF z)) by assumption.
  change Num.zero with (Num.Z2SF 0). rewrite NumFacts.ltb_exact by lia.
  destruct (Z.ltb_spec z 0); [lia|].
  destruct (Z2SF_storable z Hz) as (Hge & Hvi).
  rewrite saveStock_written by assumption.
  cbn. rewrite <- app_assoc. reflexivity.
Qed.


Lemma positive_SF2Z (a : spec_float) : Num.ltb Num.zero a = true -> 0 <= Num.SF2Z a.
Proof.
  destruct a as [s|s| |s m e]; cbn [Num.SF2Z]; try lia.
  destruct s; [discriminate|]. intros _. cbn [cond_Zopp].
  destruct (Z.leb_spec 0 e).
  - apply Z.mul_nonneg_nonneg; [lia | apply Z.pow_nonneg; lia].
  - apply Z.div_pos; [lia | apply Z.pow_pos_nonneg; lia].
Qed.

Lemma amount_within_sum (x a : spec_float) :
  Num.valid x = true -> Num.isSafeInteger x = true -> Num.geb x Num.zero = true ->
  Num.isInteger a = true -> Num.ltb Num.zero a = true ->
  Num.SF2Z x + Num.SF2Z a <= Num.MAX_SAFE_INTEGER ->
  Num.isSafeInteger a = true.
Proof.
  intros Hvx Hsx Hgx Hia Hla Hsum.
  destruct (NumFacts.safe_stock_cases x Hvx Hsx Hgx) as [Hx _].
  pose proof (positive_SF2Z a Hla) as Ha.
  unfold Num.isSafeInteger. rewrite Hia. apply Z.leb_le. lia.
Qed.

(** ** Decrease: the floor check *)


(** ** Increase *)

(** C6, amended: for a stored product that satisfies the schema and a
    validated amount (a positive integer) whose sum with the stock is a
    safe integer (at most [Number.MAX_SAFE_INTEGER]), increase succeeds
    and the stored stock is the prior stock plus the amount. *)
Theorem increase_adds_amount
    (env : Env) (req : Request) (w : World) (oid : string) (p : Product)
    (a : spec_float) :
  castObjectId (params_id req) = Some oid ->
  docs w !! oid = Some p ->
  conforms p = true ->
  Num.valid (stock_quantity p) = true ->
  Num.isSafeInteger (stock_quantity p) = true ->
  b_amount (body req) = JNumber a ->
  Num.valid a = true -> Num.isInteger a = true -> Num.ltb Num.zero a = true ->
  Num.SF2Z (stock_quantity p) + Num.SF2Z a <= Num.MAX_SAFE_INTEGER ->
  exists p',
    increaseStock env req w
    = (mkResponse 200 (ProductBody p'),
       mkWorld (<[_id p := p']> (docs w))
               (calls w ++ [CallFindById (params_id req); CallSave (_id p)]))
    /\ p' = withStock env p (stock_quantity p')
    /\ Num.isInteger (stock_quantity p') = true
    /\ Num.SF2Z (stock_quantity p')
       = Num.SF2Z (stock_quantity p) + Num.SF2Z a.
Proof.
  intros Hid Hp Hc Hvs Hss Ha Hva Hint Hla Hsum.
  destruct (conforms_spec p Hc) as (_ & Hgs & _).
  pose proof (amount_within_sum _ _ Hvs Hss Hgs Hint Hla Hsum) as Hsa.
  destruct (NumFacts.add_safe _ _ Hvs Hss Hgs Hva Hsa Hla Hsum) as [Hadd Hne].
  destruct (NumFacts.safe_stock_cases _ Hvs Hss Hgs) as [Hn _].
  destruct (NumFacts.safe_amount_cases _ Hva Hsa Hla) as [Hk _].
  unfold Num.MAX_SAFE_INTEGER in Hsum.
  assert (Hz : 0 <= Num.SF2Z (stock_quantity p) + Num.SF2Z a < 2 ^ 53) by lia.
  destruct (Z2SF_storable _ Hz) as (Hge & Hvi).
  exists (withStock env p (Num.Z2SF (Num.SF2Z (stock_quantity p) + Num.SF2Z a))).
  split; [|split; [reflexivity|split]].
  - apply (increaseStock_saved env req w oid p a); try assumption.
    rewrite <- Hadd. exact Hne.
  - exact Hvi.
  - cbn [withStock stock_quantity]. apply NumFacts.SF2Z_exact. lia.
Qed.

(** ** Increase, then decrease *)

(** C5, amended: for a stored product that satisfies the schema and a
    positive integer amount whose sum with the stock is a safe integer
    (at most [Number.MAX_SAFE_INTEGER]), increase followed by decrease of
    the same amount succeeds and restores the stock. *)
Theorem increase_then_decrease_restores
    (env1 env2 : Env) (req : Request) (w : World) (oid : string) (p : Product)
    (a : spec_float) :
  castObjectId (params_id req) = Some oid ->
  docs w !! oid = Some p -> _id p = oid ->
  conforms p = true ->
  Num.valid (stock_quantity p) = true ->
  Num.isSafeInteger (stock_quantity p) = true ->
  b_amount (body req) = JNumber a ->
  Num.valid a = true -> Num.isInteger a = true -> Num.ltb Num.zero a = true ->
  Num.SF2Z (stock_quantity p) + Num.SF2Z a <= Num.MAX_SAFE_INTEGER ->
  exists p2,
    (decreaseStock env2 req (increaseStock env1 req w).2).1
    = mkResponse 200 (ProductBody p2)
    /\ docs (decreaseStock env2 req (increaseStock env1 req w).2).2 !! oid = Some p2
    /\ Num.eqb (stock_quantity p2) (stock_quantity p) = true
    /\ Num.SF2Z (stock_quantity p2) = Num.SF2Z (stock_quantity p).
Proof.
  intros Hid Hp Hoid Hc Hvs Hss Ha Hva Hint Hla Hsum.
  destruct (conforms_spec p Hc) as (Hname & Hgs & _ & Ht1 & Ht2).
  pose proof (amount_within_sum _ _ Hvs Hss Hgs Hint Hla Hsum) as Hsa.
  destruct (NumFacts.add_safe _ _ Hvs Hss Hgs Hva Hsa Hla Hsum) as [Hadd Hne].
  destruct (NumFacts.safe_stock_cases _ Hvs Hss Hgs) as [Hn Hcan].
  destruct (NumFacts.safe_amount_cases _ Hva Hsa Hla) as [Hk Ea].
  unfold Num.MAX_SAFE_INTEGER in Hsum.
  set (n := Num.SF2Z (stock_quantity p)) in *. set (k := Num.SF2Z a) in *.
  assert (Hz : 0 <= n + k < 2 ^ 53) by lia.
  destruct (Z2SF_storable _ Hz) as (Hge & Hvi).
  rewrite (increaseStock_saved env1 req w oid p a (Num.Z2SF (n + k)));
    try assumption; [|rewrite <- Hadd; exact Hne].
  cbn [snd]. set (p1 := withStock env1 p (Num.Z2SF (n + k))). set (w1 := mkWorld _ _).
  assert (Hp1 : docs w1 !! oid = Some p1).
  { unfold w1. cbn [docs]. rewrite Hoid. apply lookup_insert_eq. }
  assert (Hc1 : conforms p1 = true).
  { unfold conforms, p1. cbn [withStock name stock_quantity low_stock_threshold].
    rewrite Hname, Hge, Hvi, Ht1, Ht2. reflexivity. }
  assert (Hsub : Num.sub (stock_quantity p1) a = Num.Z2SF n).
  { unfold p1. cbn [withStock stock_quantity]. rewrite Ea.
    rewrite NumFacts.sub_exact by lia. f_equal. lia. }
  rewrite (decreaseStock_saved env2 req w1 oid p1 a n); try assumption.
  - cbn [fst snd docs]. exists (withStock env2 p1 (Num.Z2SF n)).
    split; [reflexivity|]. split; [|split].
    + unfold p1 at 1. cbn [withStock _id]. rewrite Hoid. apply lookup_insert_eq.
    + cbn [withStock stock_quantity]. destruct Hcan as [E|E].
      * rewrite E. fold n. rewrite NumFacts.eqb_exact by lia. apply Z.eqb_refl.
      * subst n. rewrite E. reflexivity.
    + cbn [withStock stock_quantity]. apply NumFacts.SF2Z_exact. lia.
  - unfold p1. cbn [withStock stock_quantity].
    rewrite NumFacts.eqb_exact by lia. apply Z.eqb_neq. lia.
Qed.

(** ** Validation of the amount *)

(** C4, amended: in increase and in decrease, whatever the stored
    products, an amount that is absent, zero or negative is answered with
    "Amount must be a positive number", and an amount that is positive and
    not an integer with "Amount must be an integer". *)
Theorem amount_validation (r : Route) (env : Env) (req : Request) (w : World) :
  adjusts r ->
  ((b_amount (body req) = JUndefined
    \/ exists x, b_amount (body req) = JNumber x /\ Num.leb x Num.zero = true) ->
   router r env req w
   = (mkResponse 400 (ErrorBody "Amount must be a positive number"), w))
  /\ (forall x, b_amount (body req) = JNumber x ->
        Num.ltb Num.zero x = true -> Num.isInteger x = false ->
        router r env req w
        = (mkResponse 400 (ErrorBody "Amount must be an integer"), w)).
Proof.
  intros Hr. split.
  - intros Ha.
    assert (Hrej : negb (ToBoolean (b_amount (body req))) || js_le0 (b_amount (body req)) = true).
    { destruct Ha as [->|(x & -> & Hx)]; [reflexivity | apply leb_zero_rejected; assumption]. }
    destruct Hr as [-> | ->]; cbn [router]; unfold increaseStock, decreaseStock;
      rewrite Hrej; reflexivity.
  - intros x Ha Hpos Hint.
    destruct Hr as [-> | ->]; cbn [router]; unfold increaseStock, decreaseStock;
      rewrite Ha, (positive_accepted x Hpos); cbn [Number_isInteger]; rewrite Hint; reflexivity.
Qed.


(** ** Invariants of the collection

    A property of products holds of every stored product after a request
    if it held before and the three writes of the model establish it. *)

Section Invariant.

Variable P : Product -> Prop.

Hypothesis created_ok : forall env d n q t,
  validationErrors d = [] ->
  d_name d = CastOk n -> d_stock_quantity d = CastOk q ->
  d_low_stock_threshold d = CastOk t ->
  P (mkProduct (freshId env) n (toStored (d_description d)) q t (now env) (now env)).

Hypothesis saved_ok : forall env p v,
  P p -> storedErrors p v = [] -> P (withStock env p v).

Hypothesis updated_ok : forall env u p,
  P p -> updateCastError u = None -> updateValidationErrors u = [] ->
  P (applyUpdate env u p).

Lemma allStored_insert (w : World) (id : string) (p : Product) (c : list StoreCall) :
  allStored P w -> P p -> allStored P (mkWorld (<[id := p]> (docs w)) c).
Proof.
  intros Hw Hp id' p'. cbn [docs]. rewrite lookup_insert.
  case_decide; [intros [= <-]; assumption | apply Hw].
Qed.

Lemma allStored_delete (w : World) (id : string) (c : list StoreCall) :
  allStored P w -> allStored P (mkWorld (delete id (docs w)) c).
Proof.
  intros Hw id' p'. cbn [docs]. rewrite lookup_delete.
  case_decide; [discriminate | apply Hw].
Qed.

Lemma allStored_calls (w : World) (c : list StoreCall) :
  allStored P w -> allStored P (mkWorld (docs w) c).
Proof. intros Hw id p. apply Hw. Qed.

Ltac keep_docs Hw := try (cbn; apply allStored_calls; exact Hw).

Lemma save_allStored env d w :
  allStored P w -> allStored P (save env d w).2.
Proof.
  intros Hw. unfold save. run_m.
  destruct (validationErrors d) eqn:Hv; keep_docs Hw.
  destruct (d_name d) eqn:Hn; keep_docs Hw.
  destruct (d_stock_quantity d) eqn:Hq; keep_docs Hw.
  destruct (d_low_stock_threshold d) eqn:Ht; keep_docs Hw.
  cbn. destruct (docs w !! freshId env); keep_docs Hw.
  cbn. apply allStored_insert; [assumption|].
  apply created_ok; assumption.
Qed.

Lemma saveStock_allStored env p v w :
  allStored P w -> P p -> allStored P (saveStock env p v w).2.
Proof.
  intros Hw Hp. unfold saveStock.
  unfold mbind, M_bind, bind, mret, M_ret, ret, logCall, readDocs, writeDocs.
  destruct (storedErrors p v) eqn:Hv; keep_docs Hw.
  destruct (Num.eqb v (stock_quantity p)); keep_docs Hw.
  cbn. apply allStored_insert; [assumption|]. apply saved_ok; assumption.
Qed.

Lemma findById_found id w p :
  (findById id w).1 = inr (Some p) -> exists oid, docs w !! oid = Some p.
Proof.
  unfold findById. run_m. destruct (castObjectId id) as [oid|]; cbn; [|discriminate].
  intros [= H]. eauto.
Qed.

Lemma findByIdAndDelete_allStored id w :
  allStored P w -> allStored P (findByIdAndDelete id w).2.
Proof.
  intros Hw. unfold findByIdAndDelete. run_m.
  destruct (castObjectId id) as [oid|]; keep_docs Hw.
  cbn. destruct (docs w !! oid); keep_docs Hw.
  cbn. apply allStored_delete. assumption.
Qed.

Lemma findByIdAndUpdate_allStored env id u w :
  allStored P w -> allStored P (findByIdAndUpdate env id u w).2.
Proof.
  intros Hw. unfold findByIdAndUpdate. run_m.
  destruct (castObjectId id) as [oid|]; keep_docs Hw.
  destruct (updateCastError u) eqn:Hc; keep_docs Hw.
  destruct (updateValidationErrors u) eqn:Hv; keep_docs Hw.
  cbn. destruct (docs w !! oid) as [p|] eqn:Hp; keep_docs Hw.
  cbn. apply allStored_insert; [assumption|].
  apply updated_ok; [apply (Hw _ _ Hp) | assumption ..].
Qed.

Ltac finish_handler :=
  repeat match goal with
         | |- context [match ?x with _ => _ end] => destruct x
         end; cbn; try assumption.

Lemma router_allStored (r : Route) (env : Env) (req : Request) (w : World) :
  allStored P w -> allStored P (router r env req w).2.
Proof.
  intros Hw. destruct r; cbn [router].
  - unfold getLowStockProducts, findLowStock. run_m. apply allStored_calls. assumption.
  - unfold createProduct. destruct (negb _); [assumption|].
    unfold mbind, M_bind, bind.
    pose proof (save_allStored env
      (Product_new (b_name (body req)) (b_description (body req))
                   (b_stock_quantity (body req)) (b_low_stock_threshold (body req))) w Hw) as H.
    destruct (save _ _ _) as [s w']. cbn [snd] in H. finish_handler.
  - unfold getAllProducts, find. run_m. apply allStored_calls. assumption.
  - unfold getProductById. unfold mbind, M_bind, bind.
    pose proof (findById_docs (params_id req) w) as H.
    destruct (findById _ _) as [s w']. cbn [snd] in H.
    assert (allStored P w') by (intros i q; rewrite H; apply Hw).
    finish_handler.
  - unfold updateProduct. destruct (_ && _); [assumption|]. destruct (_ && _); [assumption|].
    unfold mbind, M_bind, bind.
    pose proof (findByIdAndUpdate_allStored env (params_id req)
      (castUpdate (b_name (body req)) (b_description (body req))
                  (b_stock_quantity (body req)) (b_low_stock_threshold (body req))) w Hw) as H.
    destruct (findByIdAndUpdate _ _ _ _) as [s w']. cbn [snd] in H. finish_handler.
  - unfold deleteProduct. unfold mbind, M_bind, bind.
    pose proof (findByIdAndDelete_allStored (params_id req) w Hw) as H.
    destruct (findByIdAndDelete _ _) as [s w']. cbn [snd] in H. finish_handler.
  - unfold increaseStock. destruct (_ || _); [assumption|]. destruct (negb _); [assumption|].
    unfold mbind at 1, M_bind, bind.
    pose proof (findById_docs (params_id req) w) as H.
    pose proof (findById_found (params_id req) w) as Hf.
    destruct (findById _ _) as [s w']. cbn [fst snd] in H, Hf.
    assert (Hw' : allStored P w') by (intros i q; rewrite H; apply Hw).
    destruct s as [e|[product|]]; [finish_handler| |exact Hw'].
    destruct (Hf product eq_refl) as [oid Hoid].
    unfold mbind, M_bind, bind.
    pose proof (saveStock_allStored env product
      (Num.add (stock_quantity product) (ToNumber (b_amount (body req)))) w' Hw'
      (Hw _ _ Hoid)) as H2.
    destruct (saveStock _ _ _ _) as [s2 w2]. cbn [snd] in H2. finish_handler.
  - unfold decreaseStock. destruct (_ || _); [assumption|]. destruct (negb _); [assumption|].
    unfold mbind at 1, M_bind, bind.
    pose proof (findById_docs (params_id req) w) as H.
    pose proof (findById_found (params_id req) w) as Hf.
    destruct (findById _ _) as [s w']. cbn [fst snd] in H, Hf.
    assert (Hw' : allStored P w') by (intros i q; rewrite H; apply Hw).
    destruct s as [e|[product|]]; [finish_handler| |exact Hw'].
    destruct (Hf product eq_refl) as [oid Hoid].
    destruct (Num.ltb _ _); [exact Hw'|].
    unfold mbind, M_bind, bind.
    pose proof (saveStock_allStored env product
      (Num.sub (stock_quantity product) (ToNumber (b_amount (body req)))) w' Hw'
      (Hw _ _ Hoid)) as H2.
    destruct (saveStock _ _ _ _) as [s2 w2]. cbn [snd] in H2. finish_handler.
Qed.

Lemma serve_allStored (steps : list (Route * Env * Request)) (w : World) :
  allStored P w -> allStored P (serve steps w).
Proof.
  revert w. induction steps as [|[[r env] req] steps IH]; intros w Hw.
  - exact Hw.
  - cbn [serve]. apply IH. apply router_allStored. exact Hw.
Qed.

End Invariant.

Lemma allStored_empty (P : Product -> Prop) : allStored P (mkWorld ∅ []).
Proof. intros id p H. cbn [docs] in H. rewrite lookup_empty in H. discriminate H. Qed.

(** *** What validation establishes *)

Lemma validateNumber_ok (minMsg intMsg : string) (x : spec_float) :
  validateNumber minMsg intMsg (CastOk x) = None ->
  Num.geb x Num.zero = true /\ Num.isInteger x = true.
Proof.
  unfold validateNumber.
  destruct (Num.geb x Num.zero); [|cbn; discriminate].
  destruct (Num.isInteger x); [|cbn; discriminate]. split; reflexivity.
Qed.

Lemma validateNumber_cast (minMsg intMsg : string) (x : spec_float) :
  validateNumber minMsg intMsg (castNumber (JNumber x)) = None ->
  Num.geb x Num.zero = true /\ Num.isInteger x = true.
Proof.
  cbn [castNumber]. destruct (Num.isNaN x); [cbn; discriminate|].
  apply validateNumber_ok.
Qed.

Lemma pathError_nil (path : string) (r : option string) :
  pathError path r = [] -> r = None.
Proof. destruct r; [discriminate | reflexivity]. Qed.

Lemma validationErrors_nil (d : Document) :
  validationErrors d = [] ->
  validateName (d_name d) = None
  /\ validateStock (d_stock_quantity d) = None
  /\ validateThreshold (d_low_stock_threshold d) = None.
Proof.
  unfold validationErrors. intros Hv.
  apply app_eq_nil in Hv as [Hn Hv]. apply app_eq_nil in Hv as [_ Hv].
  apply app_eq_nil in Hv as [Hs Ht].
  repeat split; eapply pathError_nil; eassumption.
Qed.

Lemma storedErrors_nil_inv (p : Product) (v : spec_float) :
  storedErrors p v = [] ->
  String.eqb (name p) EmptyString = false
  /\ (Num.geb v Num.zero = true /\ Num.isInteger v = true)
  /\ (Num.geb (low_stock_threshold p) Num.zero = true
      /\ Num.isInteger (low_stock_threshold p) = true).
Proof.
  unfold storedErrors. intros Hv.
  apply app_eq_nil in Hv as [Hn Hv]. apply app_eq_nil in Hv as [Hs Ht].
  apply pathError_nil in Hn, Hs, Ht.
  split; [|split].
  - cbn [validateName] in Hn. destruct (String.eqb (name p) EmptyString); [discriminate|reflexivity].
  - apply (validateNumber_cast _ _ _ Hs).
  - apply (validateNumber_cast _ _ _ Ht).
Qed.

Lemma updateValidationErrors_nil (u : Document) :
  updateValidationErrors u = [] ->
  validateNameUpdate (d_name u) = None
  /\ validateStock (d_stock_quantity u) = None
  /\ validateThreshold (d_low_stock_threshold u) = None.
Proof.
  unfold updateValidationErrors. intros Hv.
  apply app_eq_nil in Hv as [Hn Hv]. apply app_eq_nil in Hv as [Hs Ht].
  repeat split; eapply pathError_nil; eassumption.
Qed.

Lemma validateName_ok (s : string) :
  validateName (CastOk s) = None -> String.eqb s EmptyString = false.
Proof. cbn. destruct (String.eqb s EmptyString); [discriminate | reflexivity]. Qed.

Lemma conforms_intro (p : Product) :
  String.eqb (name p) EmptyString = false ->
  Num.geb (stock_quantity p) Num.zero = true /\ Num.isInteger (stock_quantity p) = true ->
  Num.geb (low_stock_threshold p) Num.zero = true
  /\ Num.isInteger (low_stock_threshold p) = true ->
  conforms p = true.
Proof.
  intros Hn [Hs1 Hs2] [Ht1 Ht2]. unfold conforms.
  rewrite Hn, Hs1, Hs2, Ht1, Ht2. reflexivity.
Qed.

Lemma setNumber_ok (minMsg intMsg : string) (c : Cast spec_float) (old : spec_float) :
  validateNumber minMsg intMsg c = None ->
  Num.geb old Num.zero = true /\ Num.isInteger old = true ->
  Num.geb (setNumber c old) Num.zero = true /\ Num.isInteger (setNumber c old) = true.
Proof.
  intros Hv Hold. destruct c as [| | |x]; cbn [setNumber]; try assumption.
  apply (validateNumber_ok _ _ _ Hv).
Qed.

Lemma created_conforms env d n q t :
  validationErrors d = [] ->
  d_name d = CastOk n -> d_stock_quantity d = CastOk q ->
  d_low_stock_threshold d = CastOk t ->
  conforms (mkProduct (freshId env) n (toStored (d_description d)) q t (now env) (now env))
  = true.
Proof.
  intros Hv Hn Hq Ht. destruct (validationErrors_nil d Hv) as (Vn & Vs & Vt).
  rewrite Hn in Vn. rewrite Hq in Vs. rewrite Ht in Vt.
  apply conforms_intro; cbn.
  - apply validateName_ok. assumption.
  - apply (validateNumber_ok _ _ _ Vs).
  - apply (validateNumber_ok _ _ _ Vt).
Qed.

Lemma saved_conforms env p v :
  conforms p = true -> storedErrors p v = [] -> conforms (withStock env p v) = true.
Proof.
  intros _ Hv. destruct (storedErrors_nil_inv p v Hv) as (Hn & Hs & Ht).
  apply conforms_intro; cbn; assumption.
Qed.

Lemma updated_conforms env u p :
  conforms p = true -> updateCastError u = None -> updateValidationErrors u = [] ->
  conforms (applyUpdate env u p) = true.
Proof.
  intros Hp _ Hv. destruct (updateValidationErrors_nil u Hv) as (Vn & Vs & Vt).
  destruct (conforms_spec p Hp) as (Hn & Hs1 & Hs2 & Ht1 & Ht2).
  apply conforms_intro; cbn.
  - destruct (d_name u) as [| | |s]; cbn [setName]; try assumption.
    apply validateName_ok. exact Vn.
  - apply (setNumber_ok _ _ _ _ Vs). split; assumption.
  - apply (setNumber_ok _ _ _ _ Vt). split; assumption.
Qed.

(** Every stored product satisfies the schema, after any sequence of
    requests on a collection where it did. *)
Lemma serve_conforms (steps : list (Route * Env * Request)) (w : World) :
  allStored (fun p => conforms p = true) w ->
  allStored (fun p => conforms p = true) (serve steps w).
Proof.
  apply serve_allStored.
  - apply created_conforms.
  - apply saved_conforms.
  - apply updated_conforms.
Qed.

Lemma created_nonNegative env d n q t :
  validationErrors d = [] ->
  d_name d = CastOk n -> d_stock_quantity d = CastOk q ->
  d_low_stock_threshold d = CastOk t ->
  nonNegativeStock
    (mkProduct (freshId env) n (toStored (d_description d)) q t (now env) (now env)).
Proof.
  intros Hv _ Hq _. destruct (validationErrors_nil d Hv) as (_ & Vs & _).
  rewrite Hq in Vs. apply (validateNumber_ok _ _ _ Vs).
Qed.

Lemma saved_nonNegative env p v :
  nonNegativeStock p -> storedErrors p v = [] -> nonNegativeStock (withStock env p v).
Proof. intros _ Hv. destruct (storedErrors_nil_inv p v Hv) as (_ & [Hs _] & _). exact Hs. Qed.

Lemma updated_nonNegative env u p :
  nonNegativeStock p -> updateCastError u = None -> updateValidationErrors u = [] ->
  nonNegativeStock (applyUpdate env u p).
Proof.
  intros Hp _ Hv. destruct (updateValidationErrors_nil u Hv) as (_ & Vs & _).
  unfold nonNegativeStock, applyUpdate. cbn [stock_quantity].
  destruct (d_stock_quantity u) as [| | |x]; cbn [setNumber]; try exact Hp.
  apply (validateNumber_ok _ _ _ Vs).
Qed.

(** The single request. *)
Lemma router_stockNonNegative (r : Route) (env : Env) (req : Request) (w : World) :
  stockNonNegative w -> stockNonNegative (router r env req w).2.
Proof.
  apply router_allStored.
  - apply created_nonNegative.
  - apply saved_nonNegative.
  - apply updated_nonNegative.
Qed.

(** C2: whatever the requests and their outcomes, if every stored product
    has [stock_quantity >= 0] before a sequence of requests, every stored
    product has [stock_quantity >= 0] after it; in particular after every
    successful create, update, increase and decrease. *)
Theorem stock_never_negative (steps : list (Route * Env * Request)) (w : World) :
  stockNonNegative w -> stockNonNegative (serve steps w).
Proof.
  apply serve_allStored.
  - apply created_nonNegative.
  - apply saved_nonNegative.
  - apply updated_nonNegative.
Qed.

(** From the empty collection no sequence of requests stores a negative
    stock, and every stored product satisfies the schema. *)
Corollary reachable_stock_non_negative (steps : list (Route * Env * Request)) :
  stockNonNegative (serve steps (mkWorld ∅ [])).
Proof.
  apply serve_allStored;
    [apply created_nonNegative | apply saved_nonNegative | apply updated_nonNegative |].
  apply allStored_empty.
Qed.

Corollary reachable_conforms (steps : list (Route * Env * Request)) :
  allStored (fun p => conforms p = true) (serve steps (mkWorld ∅ [])).
Proof. apply serve_conforms, allStored_empty. Qed.


(** ** The low-stock query *)

Lemma eqb_not_ltb (x y : spec_float) : Num.eqb x y = true -> Num.ltb x y = false.
Proof.
  unfold Num.eqb, Num.ltb, SFeqb, SFltb.
  destruct (SFcompare x y) as [[| |]|]; intros H; try discriminate H; reflexivity.
Qed.

Lemma elem_of_findLowStock (w : World) (p : Product) :
  p ∈ List.filter lowStock (map_to_list (docs w)).*2
  <-> (exists id, docs w !! id = Some p)
      /\ Num.ltb (stock_quantity p) (low_stock_threshold p) = true.
Proof.
  rewrite list_elem_of_In, filter_In, <- list_elem_of_In, list_elem_of_fmap.
  unfold lowStock. split.
  - intros [([id q] & -> & Hin) Hlt]. split; [|assumption].
    exists id. apply elem_of_map_to_list in Hin. assumption.
  - intros [[id Hid] Hlt]. split; [|assumption].
    exists (id, p). split; [reflexivity|]. apply elem_of_map_to_list. assumption.
Qed.

(** C3: the low-stock query answers 200 with exactly the stored products
    whose stock is strictly below their threshold; a product whose stock
    equals its threshold is not listed, and the list is empty, with the
    same status, when no product qualifies. *)
Theorem low_stock_query (env : Env) (req : Request) (w : World) :
  exists l,
    getLowStockProducts env req w
    = (mkResponse 200 (ProductsBody l), mkWorld (docs w) (calls w ++ [CallFindLowStock]))
    /\ (forall p, p ∈ l <->
                  (exists id, docs w !! id = Some p)
                  /\ Num.ltb (stock_quantity p) (low_stock_threshold p) = true)
    /\ (forall p, Num.eqb (stock_quantity p) (low_stock_threshold p) = true -> p ∉ l)
    /\ ((forall id p, docs w !! id = Some p ->
                      Num.ltb (stock_quantity p) (low_stock_threshold p) = false) ->
        l = []).
Proof.
  exists (List.filter lowStock (map_to_list (docs w)).*2).
  split; [reflexivity|]. split; [apply elem_of_findLowStock|]. split.
  - intros p Heq Hin. apply elem_of_findLowStock in Hin as [_ Hlt].
    rewrite (eqb_not_ltb _ _ Heq) in Hlt. discriminate.
  - intros Hnone.
    destruct (List.filter lowStock (map_to_list (docs w)).*2) as [|p l] eqn:E; [reflexivity|].
    assert (Hin : p ∈ List.filter lowStock (map_to_list (docs w)).*2)
      by (rewrite E; apply list_elem_of_here).
    apply elem_of_findLowStock in Hin as [[id Hid] Hlt].
    rewrite (Hnone id p Hid) in Hlt. discriminate.
Qed.

(** ** The general update *)


Lemma trimSetter_casts (v : JsValue) : castFailed (trimSetter v) = false.
Proof. destruct v; reflexivity. Qed.


(** C8: when the general update succeeds, the product returned is the
    stored product with the supplied fields set; every field of the
    request that was not supplied keeps its prior value, as do [_id] and
    [createdAt], and no other document changes. ([updatedAt] is not a
    field of the request: the store refreshes it.) *)
Theorem update_changes_only_supplied_fields
    (env : Env) (req : Request) (w : World) :
  status (updateProduct env req w).1 = 200 ->
  exists oid p p',
    castObjectId (params_id req) = Some oid
    /\ docs w !! oid = Some p
    /\ json (updateProduct env req w).1 = ProductBody p'
    /\ docs (updateProduct env req w).2 = <[oid := p']> (docs w)
    /\ p' = applyUpdate env (castUpdate (b_name (body req)) (b_description (body req))
                                        (b_stock_quantity (body req))
                                        (b_low_stock_threshold (body req))) p
    /\ _id p' = _id p /\ createdAt p' = createdAt p /\ updatedAt p' = now env
    /\ (b_name (body req) = JUndefined -> name p' = name p)
    /\ (b_description (body req) = JUndefined -> description p' = description p)
    /\ (b_stock_quantity (body req) = JUndefined -> stock_quantity p' = stock_quantity p)
    /\ (b_low_stock_threshold (body req) = JUndefined ->
        low_stock_threshold p' = low_stock_threshold p).
Proof.
  unfold updateProduct.
  destruct (_ && _); [cbn; discriminate|]. destruct (_ && _); [cbn; discriminate|].
  unfold mbind at 1 2 3, M_bind, bind. unfold findByIdAndUpdate. run_m.
  destruct (castObjectId (params_id req)) as [oid|]; [|cbn; discriminate].
  destruct (updateCastError _); [cbn; discriminate|].
  destruct (updateValidationErrors _); [|cbn; discriminate].
  cbn. destruct (docs w !! oid) as [p|] eqn:Hp; [|cbn; discriminate].
  cbn. intros _. exists oid, p. eexists. repeat split; try reflexivity; try exact Hp.
  all: intros ->; reflexivity.
Qed.

(** ** Creation *)

(** C9: when creation succeeds, a stock that was not supplied is 0, a
    threshold that was not supplied is 10 and a description that was not
    supplied is absent; the product that is stored has a stock and a
    threshold that are at least 0. *)
Theorem create_applies_defaults (env : Env) (req : Request) (w : World) :
  status (createProduct env req w).1 = 201 ->
  exists p,
    json (createProduct env req w).1 = ProductBody p
    /\ docs (createProduct env req w).2 !! _id p = Some p
    /\ (b_stock_quantity (body req) = JUndefined -> stock_quantity p = Num.Z2SF 0)
    /\ (b_low_stock_threshold (body req) = JUndefined ->
        low_stock_threshold p = Num.Z2SF 10)
    /\ (b_description (body req) = JUndefined -> description p = SAbsent)
    /\ Num.geb (stock_quantity p) Num.zero = true
    /\ Num.geb (low_stock_threshold p) Num.zero = true.
Proof.
  unfold createProduct. destruct (negb _); [cbn; discriminate|].
  remember (Product_new (b_name (body req)) (b_description (body req))
                        (b_stock_quantity (body req)) (b_low_stock_threshold (body req)))
    as d eqn:Hd.
  unfold save. run_m.
  destruct (validationErrors d) eqn:Hv; [|cbn; discriminate].
  destruct (validationErrors_nil d Hv) as (_ & Hs & Ht).
  destruct (d_name d) as [| | |n]; try (cbn; discriminate).
  destruct (d_stock_quantity d) as [| | |q] eqn:Hq; try (cbn; discriminate).
  destruct (d_low_stock_threshold d) as [| | |t] eqn:Htq; try (cbn; discriminate).
  cbn. destruct (docs w !! freshId env); [cbn; discriminate|].
  cbn. intros _. eexists. split; [reflexivity|]. cbn.
  split; [apply lookup_insert_eq|].
  split; [|split; [|split; [|split]]].
  - intros E. rewrite Hd in Hq. cbn [Product_new d_stock_quantity] in Hq.
    rewrite E in Hq. injection Hq as <-. reflexivity.
  - intros E. rewrite Hd in Htq. cbn [Product_new d_low_stock_threshold] in Htq.
    rewrite E in Htq. injection Htq as <-. reflexivity.
  - intros E. rewrite Hd. cbn. rewrite E. reflexivity.
  - apply (validateNumber_ok _ _ _ Hs).
  - apply (validateNumber_ok _ _ _ Ht).
Qed.

End ControllerFacts.

(** * The handlers beyond the stock arithmetic *)

Section HandlerFacts.

Context {rt : JsRuntime}.

Ltac run_store :=
  unfold mbind, M_bind, bind, mret, M_ret, ret, logCall, readDocs, writeDocs; cbn.

(** ** The model operations, by the outcome of the id cast and of the lookup *)

Lemma findById_malformed (id : string) (w : World) :
  castObjectId id = None ->
  findById id w = (inl (CastError "_id"), mkWorld (docs w) (calls w ++ [CallFindById id])).
Proof. intros H. unfold findById. run_store. rewrite H. reflexivity. Qed.

Lemma findByIdAndDelete_malformed (id : string) (w : World) :
  castObjectId id = None ->
  findByIdAndDelete id w
  = (inl (CastError "_id"), mkWorld (docs w) (calls w ++ [CallFindByIdAndDelete id])).
Proof. intros H. unfold findByIdAndDelete. run_store. rewrite H. reflexivity. Qed.

Lemma findByIdAndDelete_missing (id oid : string) (w : World) :
  castObjectId id = Some oid -> docs w !! oid = None ->
  findByIdAndDelete id w
  = (inr None, mkWorld (docs w) (calls w ++ [CallFindByIdAndDelete id])).
Proof. intros H Hp. unfold findByIdAndDelete. run_store. rewrite H. cbn. rewrite Hp. reflexivity. Qed.

Lemma findByIdAndDelete_found (id oid : string) (p : Product) (w : World) :
  castObjectId id = Some oid -> docs w !! oid = Some p ->
  findByIdAndDelete id w
  = (inr (Some p), mkWorld (delete oid (docs w)) (calls w ++ [CallFindByIdAndDelete id])).
Proof. intros H Hp. unfold findByIdAndDelete. run_store. rewrite H. cbn. rewrite Hp. reflexivity. Qed.

Lemma findByIdAndUpdate_malformed env (id : string) (u : Document) (w : World) :
  castObjectId id = None ->
  findByIdAndUpdate env id u w
  = (inl (CastError "_id"), mkWorld (docs w) (calls w ++ [CallFindByIdAndUpdate id])).
Proof. intros H. unfold findByIdAndUpdate. run_store. rewrite H. reflexivity. Qed.

Lemma findByIdAndUpdate_missing env (id oid : string) (u : Document) (w : World) :
  castObjectId id = Some oid -> docs w !! oid = None ->
  updateCastError u = None -> updateValidationErrors u = [] ->
  findByIdAndUpdate env id u w
  = (inr None, mkWorld (docs w) (calls w ++ [CallFindByIdAndUpdate id])).
Proof.
  intros H Hp Hc Hv. unfold findByIdAndUpdate. run_store.
  rewrite H, Hc, Hv. cbn. rewrite Hp. reflexivity.
Qed.

(** The two checks on [amount], passed. *)
Lemma amount_checked (b : Body) :
  negb (negb (ToBoolean (b_amount b)) || js_le0 (b_amount b)) && Number_isInteger (b_amount b)
  = true ->
  negb (ToBoolean (b_amount b)) || js_le0 (b_amount b) = false
  /\ Number_isInteger (b_amount b) = true.
Proof.
  intros H. apply andb_true_iff in H as [H1 H2]. apply negb_true_iff in H1. split; assumption.
Qed.

(** ** Ids that are malformed or unknown *)

(** X1: on every route with an [:id] parameter, once the body has passed the
    checks of the handler, an id that is not an ObjectId is answered with
    400 "Invalid product ID" after one call on the model, and the
    collection is left as it was. *)
Theorem malformed_id_is_rejected (r : Route) (env : Env) (req : Request) (w : World) :
  takesId r = true ->
  bodyChecked r (body req) = true ->
  castObjectId (params_id req) = None ->
  (router r env req w).1 = mkResponse 400 (ErrorBody "Invalid product ID")
  /\ docs (router r env req w).2 = docs w
  /\ length (calls (router r env req w).2) = S (length (calls w)).
Proof.
  intros Hr Hb Hid. destruct r; try discriminate Hr; cbn [router bodyChecked] in *.
  - unfold getProductById, mbind, M_bind, bind.
    rewrite findById_malformed by assumption. cbn.
    rewrite length_app. cbn. repeat split; lia.
  - apply andb_true_iff in Hb as [H1 H2]. apply negb_true_iff in H1, H2.
    unfold updateProduct. rewrite H1, H2. unfold mbind, M_bind, bind.
    rewrite findByIdAndUpdate_malformed by assumption. cbn.
    rewrite length_app. cbn. repeat split; lia.
  - unfold deleteProduct, mbind, M_bind, bind.
    rewrite findByIdAndDelete_malformed by assumption. cbn.
    rewrite length_app. cbn. repeat split; lia.
  - destruct (amount_checked _ Hb) as [H1 H2].
    unfold increaseStock. rewrite H1, H2. cbn [negb]. unfold mbind, M_bind, bind.
    rewrite findById_malformed by assumption. cbn.
    rewrite length_app. cbn. repeat split; lia.
  - destruct (amount_checked _ Hb) as [H1 H2].
    unfold decreaseStock. rewrite H1, H2. cbn [negb]. unfold mbind, M_bind, bind.
    rewrite findById_malformed by assumption. cbn.
    rewrite length_app. cbn. repeat split; lia.
Qed.

(** X2: on every route with an [:id] parameter, once the body has passed the
    checks of the handler (and, for the update, the casts and validators
    of the model), a well-formed id under which nothing is stored is
    answered with 404 "Product not found", and the collection is left as
    it was. *)
Theorem unknown_id_is_not_found
    (r : Route) (env : Env) (req : Request) (w : World) (oid : string) :
  takesId r = true ->
  bodyChecked r (body req) = true ->
  (r = PutProduct ->
   updateCastError (updateOf (body req)) = None
   /\ updateValidationErrors (updateOf (body req)) = []) ->
  castObjectId (params_id req) = Some oid ->
  docs w !! oid = None ->
  (router r env req w).1 = mkResponse 404 (ErrorBody "Product not found")
  /\ docs (router r env req w).2 = docs w
  /\ length (calls (router r env req w).2) = S (length (calls w)).
Proof.
  intros Hr Hb Hu Hid Hp. destruct r; try discriminate Hr; cbn [router bodyChecked] in *.
  - unfold getProductById, mbind, M_bind, bind.
    rewrite (findById_cast _ oid) by assumption. rewrite Hp. cbn.
    rewrite length_app. cbn. repeat split; lia.
  - apply andb_true_iff in Hb as [H1 H2]. apply negb_true_iff in H1, H2.
    destruct (Hu eq_refl) as [Hc Hv]. unfold updateOf in Hc, Hv.
    unfold updateProduct. rewrite H1, H2. unfold mbind, M_bind, bind.
    rewrite (findByIdAndUpdate_missing _ _ oid) by assumption. cbn.
    rewrite length_app. cbn. repeat split; lia.
  - unfold deleteProduct, mbind, M_bind, bind.
    rewrite (findByIdAndDelete_missing _ oid) by assumption. cbn.
    rewrite length_app. cbn. repeat split; lia.
  - destruct (amount_checked _ Hb) as [H1 H2].
    unfold increaseStock. rewrite H1, H2. cbn [negb]. unfold mbind, M_bind, bind.
    rewrite (findById_cast _ oid) by assumption. rewrite Hp. cbn.
    rewrite length_app. cbn. repeat split; lia.
  - destruct (amount_checked _ Hb) as [H1 H2].
    unfold decreaseStock. rewrite H1, H2. cbn [negb]. unfold mbind, M_bind, bind.
    rewrite (findById_cast _ oid) by assumption. rewrite Hp. cbn.
    rewrite length_app. cbn. repeat split; lia.
Qed.

(** ** Listing *)

(** X3: [GET /] answers 200 with the stored products: a product is listed if
    and only if it is stored, the list is as long as the collection is
    large (so it is empty on an empty collection), and the collection is
    left as it was. *)
Theorem get_all_lists_collection (env : Env) (req : Request) (w : World) :
  exists l,
    getAllProducts env req w
    = (mkResponse 200 (ProductsBody l), mkWorld (docs w) (calls w ++ [CallFind]))
    /\ (forall p, p ∈ l <-> exists id, docs w !! id = Some p)
    /\ length l = size (docs w).
Proof.
  exists (map_to_list (docs w)).*2. split; [reflexivity|]. split.
  - intros p. rewrite list_elem_of_fmap. split.
    + intros ([id q] & -> & Hin). exists id. apply elem_of_map_to_list in Hin. exact Hin.
    + intros [id Hid]. exists (id, p). split; [reflexivity|].
      apply elem_of_map_to_list. exact Hid.
  - rewrite length_fmap. apply length_map_to_list.
Qed.

(** ** Deletion *)

Lemma deleteProduct_found
    (env : Env) (req : Request) (w : World) (oid : string) (p : Product) :
  castObjectId (params_id req) = Some oid ->
  docs w !! oid = Some p ->
  deleteProduct env req w
  = (mkResponse 200 (DeletedBody "Product deleted successfully" p),
     mkWorld (delete oid (docs w)) (calls w ++ [CallFindByIdAndDelete (params_id req)])).
Proof.
  intros Hid Hp. unfold deleteProduct, mbind, M_bind, bind.
  rewrite (findByIdAndDelete_found _ oid p) by assumption. reflexivity.
Qed.

(** X4: [DELETE /:id] on a stored product answers 200 with the message and
    the product as it was stored, removes that product and no other. *)
Theorem delete_removes_product
    (env : Env) (req : Request) (w : World) (oid : string) (p : Product) :
  castObjectId (params_id req) = Some oid ->
  docs w !! oid = Some p ->
  deleteProduct env req w
  = (mkResponse 200 (DeletedBody "Product deleted successfully" p),
     mkWorld (delete oid (docs w)) (calls w ++ [CallFindByIdAndDelete (params_id req)]))
  /\ docs (deleteProduct env req w).2 !! oid = None
  /\ (forall j, j <> oid -> docs (deleteProduct env req w).2 !! j = docs w !! j)
  /\ S (size (docs (deleteProduct env req w).2)) = size (docs w).
Proof.
  intros Hid Hp. rewrite (deleteProduct_found env req w oid p Hid Hp). cbn [snd docs]. split; [reflexivity|]. split; [|split].
  - apply lookup_delete_eq.
  - intros j Hj. apply lookup_delete_ne. congruence.
  - rewrite <- (insert_id (docs w) oid p Hp) at 2.
    rewrite <- insert_delete_eq. rewrite map_size_insert_None; [reflexivity|].
    apply lookup_delete_eq.
Qed.

(** X5: after a delete that answered 200, the same id is answered with 404 by
    a lookup and by a second delete, and the second delete changes
    nothing. *)
Theorem deleted_product_is_gone (env env' : Env) (req : Request) (w : World) :
  status (deleteProduct env req w).1 = 200 ->
  (getProductById env' req (deleteProduct env req w).2).1
  = mkResponse 404 (ErrorBody "Product not found")
  /\ (deleteProduct env' req (deleteProduct env req w).2).1
     = mkResponse 404 (ErrorBody "Product not found")
  /\ docs (deleteProduct env' req (deleteProduct env req w).2).2
     = docs (deleteProduct env req w).2.
Proof.
  intros Hs.
  destruct (castObjectId (params_id req)) as [oid|] eqn:Hid.
  - destruct (docs w !! oid) as [p|] eqn:Hp.
    + clear Hs. rewrite (deleteProduct_found env req w oid p Hid Hp). cbn [snd].
      set (w1 := mkWorld _ _).
      assert (Hgone : docs w1 !! oid = None) by apply lookup_delete_eq.
      unfold getProductById, deleteProduct, mbind, M_bind, bind.
      rewrite (findById_cast _ oid) by assumption.
      rewrite (findByIdAndDelete_missing _ oid) by assumption.
      rewrite Hgone. repeat split; reflexivity.
    + exfalso. revert Hs. unfold deleteProduct, mbind, M_bind, bind.
      rewrite (findByIdAndDelete_missing _ oid) by assumption. cbn. discriminate.
  - exfalso. revert Hs. unfold deleteProduct, mbind, M_bind, bind.
    rewrite findByIdAndDelete_malformed by assumption. cbn. discriminate.
Qed.

(** ** Creation *)

(** A document that fails the validation is not inserted. *)
Lemma save_invalid (env : Env) (d : Document) (w : World) :
  validationErrors d <> [] ->
  save env d w
  = (inl (ValidationError (validationErrors d)),
     mkWorld (docs w) (calls w ++ [CallSave (freshId env)])).
Proof.
  intros Hne. unfold save. run_store.
  destruct (validationErrors d) as [|e l]; [congruence|]. reflexivity.
Qed.

Lemma createProduct_invalid (env : Env) (req : Request) (w : World) :
  ToBoolean (b_name (body req)) = true ->
  validationErrors (Product_new (b_name (body req)) (b_description (body req))
                                (b_stock_quantity (body req))
                                (b_low_stock_threshold (body req))) <> [] ->
  createProduct env req w
  = (mkResponse 400
       (ErrorMessage
          (ValidationError
             (validationErrors (Product_new (b_name (body req)) (b_description (body req))
                                            (b_stock_quantity (body req))
                                            (b_low_stock_threshold (body req)))))),
     mkWorld (docs w) (calls w ++ [CallSave (freshId env)])).
Proof.
  intros Hn Hv. unfold createProduct. rewrite Hn. cbn [negb].
  unfold mbind, M_bind, bind. rewrite save_invalid by assumption. reflexivity.
Qed.

Lemma createProduct_created (env : Env) (req : Request) (w : World) :
  status (createProduct env req w).1 = 201 ->
  exists n q t,
    d_name (Product_new (b_name (body req)) (b_description (body req))
                        (b_stock_quantity (body req)) (b_low_stock_threshold (body req)))
    = CastOk n
    /\ docs w !! freshId env = None
    /\ createProduct env req w
       = (mkResponse 201
            (ProductBody
               (mkProduct (freshId env) n (toStored (trimSetter (b_description (body req))))
                          q t (now env) (now env))),
          mkWorld (<[freshId env :=
                       mkProduct (freshId env) n
                                 (toStored (trimSetter (b_description (body req))))
                                 q t (now env) (now env)]> (docs w))
                  (calls w ++ [CallSave (freshId env)])).
Proof.
  unfold createProduct. destruct (negb _); [cbn; discriminate|].
  remember (Product_new (b_name (body req)) (b_description (body req))
                        (b_stock_quantity (body req)) (b_low_stock_threshold (body req)))
    as d eqn:Hd.
  unfold save. run_store.
  destruct (validationErrors d) eqn:Hv; [|cbn; discriminate].
  destruct (d_name d) as [| | |n]; try (cbn; discriminate).
  destruct (d_stock_quantity d) as [| | |q] eqn:Hq; try (cbn; discriminate).
  destruct (d_low_stock_threshold d) as [| | |t] eqn:Htq; try (cbn; discriminate).
  cbn. destruct (docs w !! freshId env) eqn:Hfree; [cbn; discriminate|].
  cbn. intros _. exists n, q, t. rewrite Hd. cbn [Product_new d_description].
  repeat split; reflexivity.
Qed.

(** X6: a creation that answers 201 adds one document, under the id that was
    generated for it and with both timestamps at the time of the request:
    that id was free, every product stored before is still stored as it
    was, and the collection has grown by one. *)
Theorem create_adds_one_document (env : Env) (req : Request) (w : World) :
  status (createProduct env req w).1 = 201 ->
  exists p,
    json (createProduct env req w).1 = ProductBody p
    /\ _id p = freshId env /\ createdAt p = now env /\ updatedAt p = now env
    /\ docs w !! freshId env = None
    /\ docs (createProduct env req w).2 = <[freshId env := p]> (docs w)
    /\ (forall id q, docs w !! id = Some q -> docs (createProduct env req w).2 !! id = Some q)
    /\ size (docs (createProduct env req w).2) = S (size (docs w)).
Proof.
  intros Hs. destruct (createProduct_created env req w Hs) as (n & q & t & _ & Hfree & E).
  rewrite E. cbn [fst snd json docs]. eexists. split; [reflexivity|].
  cbn [_id createdAt updatedAt]. repeat split; try assumption.
  - intros id p Hp. rewrite lookup_insert_ne; [exact Hp|]. congruence.
  - apply map_size_insert_None. exact Hfree.
Qed.

(** X7: after a creation that answered 201, a lookup by the id of the new
    product answers 200 with the product that the creation returned. *)
Theorem created_product_can_be_read
    (env env' : Env) (req req' : Request) (w : World) :
  status (createProduct env req w).1 = 201 ->
  castObjectId (params_id req') = Some (freshId env) ->
  exists p,
    json (createProduct env req w).1 = ProductBody p
    /\ _id p = freshId env
    /\ (getProductById env' req' (createProduct env req w).2).1
       = mkResponse 200 (ProductBody p).
Proof.
  intros Hs Hid. destruct (createProduct_created env req w Hs) as (n & q & t & _ & _ & E).
  rewrite E. cbn [fst snd json]. eexists. split; [reflexivity|]. split; [reflexivity|].
  unfold getProductById, mbind, M_bind, bind.
  rewrite (findById_cast _ (freshId env)) by assumption.
  cbn [docs]. rewrite lookup_insert_eq. reflexivity.
Qed.

(** X8: a name that is falsy ([undefined], [null], the empty string, [0],
    [false]) is answered with 400 "Product name is required" before any
    call on the model; a string that is not empty but that trimming leaves
    empty passes that check and fails the validation of the schema: the
    answer is 400 with the validation error, which names the path, and
    nothing is stored. *)
Theorem create_requires_name (env : Env) (req : Request) (w : World) :
  (ToBoolean (b_name (body req)) = false ->
   createProduct env req w
   = (mkResponse 400 (ErrorBody "Product name is required"), w))
  /\ (forall s, b_name (body req) = JString s -> s <> EmptyString -> trim s = EmptyString ->
        exists errs,
          createProduct env req w
          = (mkResponse 400 (ErrorMessage (ValidationError errs)),
             mkWorld (docs w) (calls w ++ [CallSave (freshId env)]))
          /\ ("name", "Product name is required") ∈ errs).
Proof.
  split.
  - intros H. unfold createProduct. rewrite H. reflexivity.
  - intros s Hn Hs Ht.
    assert (Hne : String.eqb s EmptyString = false) by (apply String.eqb_neq; exact Hs).
    assert (Hin : ("name", "Product name is required")
                  ∈ validationErrors
                      (Product_new (b_name (body req)) (b_description (body req))
                                   (b_stock_quantity (body req))
                                   (b_low_stock_threshold (body req)))).
    { unfold validationErrors, Product_new. cbn [d_name]. rewrite Hn.
      unfold trimSetter. cbn [castString]. rewrite Hne, Ht. cbn.
      apply list_elem_of_here. }
    eexists. split; [|exact Hin].
    apply createProduct_invalid.
    + rewrite Hn. cbn. rewrite Hne. reflexivity.
    + intros E. rewrite E in Hin. inversion Hin.
Qed.

Lemma negative_number (x : spec_float) :
  Num.ltb x Num.zero = true -> Num.isNaN x = false /\ Num.geb x Num.zero = false.
Proof.
  destruct x as [s|s| |s m e]; try destruct s; cbn; intros H;
    try discriminate H; split; reflexivity.
Qed.

Lemma validateNumber_negative (minMsg intMsg : string) (x d : spec_float) :
  Num.ltb x Num.zero = true ->
  validateNumber minMsg intMsg (withDefault d (castNumber (JNumber x))) = Some minMsg.
Proof.
  intros H. destruct (negative_number x H) as [Hnan Hge].
  cbn [castNumber]. rewrite Hnan. cbn [withDefault]. unfold validateNumber.
  rewrite Hge. reflexivity.
Qed.

Lemma validateNumber_fraction (minMsg intMsg : string) (x d : spec_float) :
  Num.geb x Num.zero = true -> Num.isInteger x = false ->
  validateNumber minMsg intMsg (withDefault d (castNumber (JNumber x))) = Some intMsg.
Proof.
  intros Hge Hint. destruct (geb_zero_not_lt x Hge) as [_ Hnan].
  cbn [castNumber]. rewrite Hnan. cbn [withDefault]. unfold validateNumber.
  rewrite Hge, Hint. reflexivity.
Qed.

Lemma validateNumber_rejects (minMsg intMsg : string) (x d : spec_float) :
  Num.ltb x Num.zero = true \/ Num.isInteger x = false ->
  validateNumber minMsg intMsg (withDefault d (castNumber (JNumber x))) <> None.
Proof.
  intros H. cbn [castNumber]. destruct (Num.isNaN x) eqn:Hnan; [cbn; discriminate|].
  cbn [withDefault]. unfold validateNumber.
  destruct (Num.geb x Num.zero) eqn:Hge; [|cbn; discriminate].
  destruct H as [H|H].
  - destruct (negative_number x H) as [_ Hge']. congruence.
  - rewrite H. cbn. discriminate.
Qed.

(** X9: a creation whose name passes the check and whose [stock_quantity] or
    [low_stock_threshold] is a number that is negative or not an integer
    is answered with 400 and the validation error of the schema, which
    holds the message of the violated constraint under the path; nothing
    is stored. *)
Theorem create_rejects_invalid_quantities
    (env : Env) (req : Request) (w : World) (x : spec_float) :
  ToBoolean (b_name (body req)) = true ->
  b_stock_quantity (body req) = JNumber x \/ b_low_stock_threshold (body req) = JNumber x ->
  Num.ltb x Num.zero = true \/ Num.isInteger x = false ->
  exists errs,
    createProduct env req w
    = (mkResponse 400 (ErrorMessage (ValidationError errs)),
       mkWorld (docs w) (calls w ++ [CallSave (freshId env)]))
    /\ (b_stock_quantity (body req) = JNumber x ->
        (Num.ltb x Num.zero = true ->
         ("stock_quantity", "Stock quantity cannot be negative") ∈ errs)
        /\ (Num.geb x Num.zero = true -> Num.isInteger x = false ->
            ("stock_quantity", "Stock quantity must be an integer") ∈ errs))
    /\ (b_low_stock_threshold (body req) = JNumber x ->
        (Num.ltb x Num.zero = true ->
         ("low_stock_threshold", "Low stock threshold cannot be negative") ∈ errs)
        /\ (Num.geb x Num.zero = true -> Num.isInteger x = false ->
            ("low_stock_threshold", "Low stock threshold must be an integer") ∈ errs)).
Proof.
  intros Hn Hfield Hbad. eexists. split; [|split].
  - apply createProduct_invalid; [exact Hn|].
    unfold validationErrors, Product_new.
    cbn [d_name d_description d_stock_quantity d_low_stock_threshold].
    intros E. apply app_eq_nil in E as [_ E]. apply app_eq_nil in E as [_ E].
    apply app_eq_nil in E as [Es Et]. apply pathError_nil in Es, Et.
    destruct Hfield as [Hf|Hf]; rewrite Hf in *.
    + exact (validateNumber_rejects _ _ x _ Hbad Es).
    + exact (validateNumber_rejects _ _ x _ Hbad Et).
  - intros Hf. unfold validationErrors, Product_new.
    cbn [d_name d_description d_stock_quantity d_low_stock_threshold]. rewrite Hf.
    split.
    + intros Hlt. unfold validateStock. rewrite validateNumber_negative by assumption.
      rewrite !elem_of_app. right. right. left. apply list_elem_of_here.
    + intros Hge Hint. unfold validateStock. rewrite validateNumber_fraction by assumption.
      rewrite !elem_of_app. right. right. left. apply list_elem_of_here.
  - intros Hf. unfold validationErrors, Product_new.
    cbn [d_name d_description d_stock_quantity d_low_stock_threshold]. rewrite Hf.
    split.
    + intros Hlt. unfold validateThreshold. rewrite validateNumber_negative by assumption.
      rewrite !elem_of_app. right. right. right. apply list_elem_of_here.
    + intros Hge Hint. unfold validateThreshold. rewrite validateNumber_fraction by assumption.
      rewrite !elem_of_app. right. right. right. apply list_elem_of_here.
Qed.

(** ** The general update: failures of the model *)

Lemma update_checks_passed (b : Body) :
  bodyChecked PutProduct b = true ->
  isDefined (b_stock_quantity b) && js_lt0 (b_stock_quantity b) = false
  /\ isDefined (b_low_stock_threshold b) && js_lt0 (b_low_stock_threshold b) = false.
Proof.
  cbn [bodyChecked]. intros H. apply andb_true_iff in H as [H1 H2].
  apply negb_true_iff in H1, H2. split; assumption.
Qed.

(** A string that is not empty and does not read as a number cannot be
    cast for a Number path. *)
Lemma castNumber_text (s : string) :
  s <> EmptyString -> Num.isNaN (StringToNumber s) = true ->
  castNumber (JString s) = CastFail.
Proof.
  intros Hs Hn. cbn [castNumber].
  assert (E : String.eqb s EmptyString = false) by (apply String.eqb_neq; exact Hs).
  rewrite E, Hn. reflexivity.
Qed.

Lemma updateCastError_number (b : Body) :
  castNumber (b_stock_quantity b) = CastFail
  \/ castNumber (b_low_stock_threshold b) = CastFail ->
  exists path, updateCastError (updateOf b) = Some path.
Proof.
  intros H. unfold updateCastError, updateOf, castUpdate.
  cbn [d_name d_description d_stock_quantity d_low_stock_threshold].
  rewrite !trimSetter_casts.
  destruct H as [H|H]; rewrite H; cbn [castFailed].
  - eexists. reflexivity.
  - destruct (castFailed _); eexists; reflexivity.
Qed.

(** X10: when the sign checks of [updateProduct] pass and [stock_quantity] or
    [low_stock_threshold] cannot be cast to a number (a string such as
    ["abc"]), the answer is 400 "Invalid product ID", whatever the id, and
    nothing is written: the handler reports every cast error as an error
    of the id. *)
Theorem update_cast_failure_reports_invalid_id (env : Env) (req : Request) (w : World) :
  bodyChecked PutProduct (body req) = true ->
  castNumber (b_stock_quantity (body req)) = CastFail
  \/ castNumber (b_low_stock_threshold (body req)) = CastFail ->
  updateProduct env req w
  = (mkResponse 400 (ErrorBody "Invalid product ID"),
     mkWorld (docs w) (calls w ++ [CallFindByIdAndUpdate (params_id req)])).
Proof.
  intros Hb Hc. destruct (update_checks_passed _ Hb) as [H1 H2].
  destruct (updateCastError_number _ Hc) as [path Hpath]. unfold updateOf in Hpath.
  unfold updateProduct. rewrite H1, H2.
  unfold mbind, M_bind, bind, findByIdAndUpdate. run_store.
  destruct (castObjectId (params_id req)); [|reflexivity].
  rewrite Hpath. reflexivity.
Qed.

Lemma findByIdAndUpdate_invalid env (id oid : string) (u : Document) (w : World) :
  castObjectId id = Some oid ->
  updateCastError u = None -> updateValidationErrors u <> [] ->
  findByIdAndUpdate env id u w
  = (inl (ValidationError (updateValidationErrors u)),
     mkWorld (docs w) (calls w ++ [CallFindByIdAndUpdate id])).
Proof.
  intros Hid Hc Hv. unfold findByIdAndUpdate. run_store. rewrite Hid, Hc.
  destruct (updateValidationErrors u); [congruence|]. reflexivity.
Qed.

(** X11: when the sign checks of [updateProduct] pass, the id is well formed and
    every field can be cast, a [stock_quantity] or a [low_stock_threshold]
    that is a number at least 0 and not an integer is answered with 400 and
    the validation error of the schema, which holds "... must be an
    integer" under the path; nothing is written, whether or not a product
    is stored under the id. *)
Theorem update_rejects_fractions
    (env : Env) (req : Request) (w : World) (oid : string) (x : spec_float) :
  castObjectId (params_id req) = Some oid ->
  bodyChecked PutProduct (body req) = true ->
  updateCastError (updateOf (body req)) = None ->
  b_stock_quantity (body req) = JNumber x \/ b_low_stock_threshold (body req) = JNumber x ->
  Num.geb x Num.zero = true -> Num.isInteger x = false ->
  exists errs,
    updateProduct env req w
    = (mkResponse 400 (ErrorMessage (ValidationError errs)),
       mkWorld (docs w) (calls w ++ [CallFindByIdAndUpdate (params_id req)]))
    /\ (b_stock_quantity (body req) = JNumber x ->
        ("stock_quantity", "Stock quantity must be an integer") ∈ errs)
    /\ (b_low_stock_threshold (body req) = JNumber x ->
        ("low_stock_threshold", "Low stock threshold must be an integer") ∈ errs).
Proof.
  intros Hid Hb Hc Hfield Hge Hint. destruct (update_checks_passed _ Hb) as [H1 H2].
  pose proof (validateNumber_fraction "Stock quantity cannot be negative"
                "Stock quantity must be an integer" x Num.zero Hge Hint) as Vs.
  pose proof (validateNumber_fraction "Low stock threshold cannot be negative"
                "Low stock threshold must be an integer" x Num.zero Hge Hint) as Vt.
  destruct (geb_zero_not_lt x Hge) as [_ Hnan].
  cbn [castNumber] in Vs, Vt. rewrite Hnan in Vs, Vt. cbn [withDefault] in Vs, Vt.
  assert (Hs : b_stock_quantity (body req) = JNumber x ->
               ("stock_quantity", "Stock quantity must be an integer")
               ∈ updateValidationErrors (updateOf (body req))).
  { intros Hf. unfold updateValidationErrors, updateOf, castUpdate.
    cbn [d_name d_stock_quantity d_low_stock_threshold]. rewrite Hf.
    cbn [castNumber]. rewrite Hnan. unfold validateStock. rewrite Vs.
    rewrite !elem_of_app. right. left. apply list_elem_of_here. }
  assert (Ht : b_low_stock_threshold (body req) = JNumber x ->
               ("low_stock_threshold", "Low stock threshold must be an integer")
               ∈ updateValidationErrors (updateOf (body req))).
  { intros Hf. unfold updateValidationErrors, updateOf, castUpdate.
    cbn [d_name d_stock_quantity d_low_stock_threshold]. rewrite Hf.
    cbn [castNumber]. rewrite Hnan. unfold validateThreshold. rewrite Vt.
    rewrite !elem_of_app. right. right. apply list_elem_of_here. }
  exists (updateValidationErrors (updateOf (body req))). split; [|split; assumption].
  unfold updateProduct. rewrite H1, H2. unfold mbind, M_bind, bind.
  fold (updateOf (body req)).
  rewrite (findByIdAndUpdate_invalid _ _ oid); try assumption; [reflexivity|].
  intros E. destruct Hfield as [Hf|Hf]; [apply Hs in Hf | apply Ht in Hf];
    rewrite E in Hf; inversion Hf.
Qed.

(** ** What one request does to the collection *)

(** The two stock handlers on a stored product, once the amount has
    passed the checks: the floor check (decrease only), the validation of
    the document, and the write when the value has changed. *)
Lemma adjust_found
    (r : Route) (env : Env) (req : Request) (w : World) (oid : string) (p : Product) :
  adjusts r ->
  bodyChecked r (body req) = true ->
  castObjectId (params_id req) = Some oid ->
  docs w !! oid = Some p ->
  let v := adjusted r (stock_quantity p) (ToNumber (b_amount (body req))) in
  let found := calls w ++ [CallFindById (params_id req)] in
  let saved := calls w ++ [CallFindById (params_id req); CallSave (_id p)] in
  (r = PatchDecrease /\ Num.ltb v Num.zero = true
   /\ router r env req w
      = (mkResponse 400 (ErrorBody "Insufficient stock"), mkWorld (docs w) found))
  \/ (storedErrors p v <> []
      /\ router r env req w
         = (mkResponse 500 (ErrorBody (serverError r)), mkWorld (docs w) saved))
  \/ (storedErrors p v = [] /\ Num.eqb v (stock_quantity p) = true
      /\ router r env req w = (mkResponse 200 (ProductBody p), mkWorld (docs w) saved))
  \/ (storedErrors p v = [] /\ Num.eqb v (stock_quantity p) = false
      /\ router r env req w
         = (mkResponse 200 (ProductBody (withStock env p v)),
            mkWorld (<[_id p := withStock env p v]> (docs w)) saved)).
Proof.
  intros Hr Hb Hid Hp v found saved. subst found saved.
  assert (Hb' : bodyChecked PatchIncrease (body req) = true)
    by (destruct Hr as [-> | ->]; exact Hb).
  destruct (amount_checked _ Hb') as [H1 H2].
  assert (Hsave :
            saveStock env p v (mkWorld (docs w) (calls w ++ [CallFindById (params_id req)]))
            = match storedErrors p v with
              | [] =>
                  if Num.eqb v (stock_quantity p)
                  then (inr p,
                        mkWorld (docs w)
                                (calls w ++ [CallFindById (params_id req); CallSave (_id p)]))
                  else (inr (withStock env p v),
                        mkWorld (<[_id p := withStock env p v]> (docs w))
                                (calls w ++ [CallFindById (params_id req); CallSave (_id p)]))
              | e :: l =>
                  (inl (ValidationError (e :: l)),
                   mkWorld (docs w)
                           (calls w ++ [CallFindById (params_id req); CallSave (_id p)]))
              end).
  { unfold saveStock. run_store. rewrite <- app_assoc. cbn [app].
    destruct (storedErrors p v); [|reflexivity].
    destruct (Num.eqb v (stock_quantity p)); reflexivity. }
  assert (Hrun : router r env req w
                 = if match r with PatchDecrease => Num.ltb v Num.zero | _ => false end
                   then (mkResponse 400 (ErrorBody "Insufficient stock"),
                         mkWorld (docs w) (calls w ++ [CallFindById (params_id req)]))
                   else
                     let (s, w') :=
                       saveStock env p v
                                 (mkWorld (docs w) (calls w ++ [CallFindById (params_id req)])) in
                     match s with
                     | inr product' => (mkResponse 200 (ProductBody product'), w')
                     | inl error =>
                         if nameIs error "CastError"
                         then (mkResponse 400 (ErrorBody "Invalid product ID"), w')
                         else (mkResponse 500 (ErrorBody (serverError r)), w')
                     end).
  { destruct Hr as [-> | ->]; cbn [router serverError adjusted] in *.
    - unfold increaseStock. rewrite H1, H2. cbn [negb].
      unfold mbind at 1, M_bind, bind. rewrite (findById_cast _ oid) by assumption.
      cbn [docs]. rewrite Hp. unfold mbind, M_bind, bind. fold v.
      destruct (saveStock _ _ _ _) as [[e|q] w']; [|reflexivity].
      destruct (nameIs _ _); reflexivity.
    - unfold decreaseStock. rewrite H1, H2. cbn [negb].
      unfold mbind at 1, M_bind, bind. rewrite (findById_cast _ oid) by assumption.
      cbn [docs]. rewrite Hp. fold v. destruct (Num.ltb v Num.zero); [reflexivity|].
      unfold mbind, M_bind, bind.
      destruct (saveStock _ _ _ _) as [[e|q] w']; [|reflexivity].
      destruct (nameIs _ _); reflexivity. }
  rewrite Hrun, Hsave. clear Hrun Hsave.
  destruct (match r with PatchDecrease => Num.ltb v Num.zero | _ => false end) eqn:Hfloor.
  - left. destruct Hr as [-> | ->]; [discriminate|]. repeat split; assumption.
  - right. destruct (storedErrors p v) as [|e l].
    + destruct (Num.eqb v (stock_quantity p)).
      * right. left. repeat split; reflexivity.
      * right. right. repeat split; reflexivity.
    + left. split; [discriminate | reflexivity].
Qed.

Lemma adjust_unchecked (r : Route) (env : Env) (req : Request) (w : World) :
  adjusts r -> bodyChecked r (body req) = false ->
  (router r env req w).2 = w
  /\ status (router r env req w).1 = 400
  /\ isErrorJson (json (router r env req w).1) = true.
Proof.
  intros Hr Hb.
  assert (Hb' : negb (negb (ToBoolean (b_amount (body req)))
                      || js_le0 (b_amount (body req)))
                && Number_isInteger (b_amount (body req)) = false)
    by (destruct Hr as [-> | ->]; exact Hb).
  destruct Hr as [-> | ->]; cbn [router]; unfold increaseStock, decreaseStock;
    destruct (_ || _); try (repeat split; reflexivity);
    cbn [negb andb] in Hb'; rewrite Hb'; repeat split; reflexivity.
Qed.

Lemma adjust_no_product (r : Route) (env : Env) (req : Request) (w : World) :
  adjusts r ->
  bodyChecked r (body req) = true ->
  castObjectId (params_id req) ≫= (docs w !!.) = None ->
  docs (router r env req w).2 = docs w
  /\ 400 <= status (router r env req w).1
  /\ isErrorJson (json (router r env req w).1) = true.
Proof.
  intros Hr Hb Hnone.
  assert (Hb' : bodyChecked PatchIncrease (body req) = true)
    by (destruct Hr as [-> | ->]; exact Hb).
  destruct (amount_checked _ Hb') as [H1 H2].
  destruct (castObjectId (params_id req)) as [oid|] eqn:Hid; cbn in Hnone.
  - destruct Hr as [-> | ->]; cbn [router]; unfold increaseStock, decreaseStock;
      rewrite H1, H2; cbn [negb]; unfold mbind, M_bind, bind;
      rewrite (findById_cast _ oid) by assumption; cbn [docs]; rewrite Hnone;
      cbn; repeat split; lia.
  - destruct Hr as [-> | ->]; cbn [router]; unfold increaseStock, decreaseStock;
      rewrite H1, H2; cbn [negb]; unfold mbind, M_bind, bind;
      rewrite findById_malformed by assumption; cbn; repeat split; lia.
Qed.

Lemma createProduct_refused (env : Env) (req : Request) (w : World) :
  status (createProduct env req w).1 = 201
  \/ (docs (createProduct env req w).2 = docs w
      /\ 400 <= status (createProduct env req w).1
      /\ isErrorJson (json (createProduct env req w).1) = true).
Proof.
  unfold createProduct. destruct (negb _); [right; cbn; repeat split; lia|].
  remember (Product_new (b_name (body req)) (b_description (body req))
                        (b_stock_quantity (body req)) (b_low_stock_threshold (body req)))
    as d eqn:Hd.
  unfold save. run_store.
  destruct (validationErrors d); [|right; cbn; repeat split; lia].
  destruct (d_name d); try (right; cbn; repeat split; lia).
  destruct (d_stock_quantity d); try (right; cbn; repeat split; lia).
  destruct (d_low_stock_threshold d); try (right; cbn; repeat split; lia).
  cbn. destruct (docs w !! freshId env); [right; cbn; repeat split; lia|].
  left. reflexivity.
Qed.

Lemma updateProduct_refused (env : Env) (req : Request) (w : World) :
  (exists oid p,
      castObjectId (params_id req) = Some oid /\ docs w !! oid = Some p
      /\ updateProduct env req w
         = (mkResponse 200 (ProductBody (applyUpdate env (updateOf (body req)) p)),
            mkWorld (<[oid := applyUpdate env (updateOf (body req)) p]> (docs w))
                    (calls w ++ [CallFindByIdAndUpdate (params_id req)])))
  \/ (docs (updateProduct env req w).2 = docs w
      /\ 400 <= status (updateProduct env req w).1
      /\ isErrorJson (json (updateProduct env req w).1) = true).
Proof.
  unfold updateProduct.
  destruct (_ && _); [right; cbn; repeat split; lia|].
  destruct (_ && _); [right; cbn; repeat split; lia|].
  fold (updateOf (body req)). unfold mbind, M_bind, bind, findByIdAndUpdate. run_store.
  destruct (castObjectId (params_id req)) as [oid|] eqn:Hid;
    [|right; cbn; repeat split; lia].
  destruct (updateCastError _); [right; cbn; repeat split; lia|].
  destruct (updateValidationErrors _); [|right; cbn; repeat split; lia].
  cbn. destruct (docs w !! oid) as [p|] eqn:Hp; [|right; cbn; repeat split; lia].
  left. exists oid, p. repeat split; first [reflexivity | assumption].
Qed.

(** Every request has one of the outcomes. *)
Lemma router_outcome (r : Route) (env : Env) (req : Request) (w : World) :
  Outcome r env req w (router r env req w).1 (docs (router r env req w).2).
Proof.
  assert (Hadjust : adjusts r ->
            Outcome r env req w (router r env req w).1 (docs (router r env req w).2)).
  { intros Hr. destruct (bodyChecked r (body req)) eqn:Hb.
    - destruct (castObjectId (params_id req) ≫= (docs w !!.)) as [p|] eqn:Hfind.
      + destruct (castObjectId (params_id req)) as [oid|] eqn:Hid; [|discriminate].
        cbn in Hfind.
        destruct (adjust_found r env req w oid p Hr Hb Hid Hfind)
          as [(_ & _ & E)|[(_ & E)|[(_ & _ & E)|(_ & _ & E)]]];
          rewrite E; cbn [fst snd docs].
        * apply Refused; cbn; [reflexivity | lia].
        * apply Refused; cbn; [reflexivity | lia].
        * apply (Found r env req w oid p); [right|..]; assumption.
        * apply Written. apply (WroteStock r env req w oid p); assumption.
      + destruct (adjust_no_product r env req w Hr Hb Hfind) as (E & Hs & Hj).
        rewrite E. apply Refused; assumption.
    - destruct (adjust_unchecked r env req w Hr Hb) as (E & Hs & Hj).
      rewrite E. apply Refused; [assumption | lia]. }
  destruct r; try (apply Hadjust; first [left; reflexivity | right; reflexivity]);
    clear Hadjust; cbn [router].
  - unfold getLowStockProducts, findLowStock. run_store. apply Listed. left. reflexivity.
  - destruct (createProduct_refused env req w) as [Hs|(E & Hs & Hj)].
    + destruct (createProduct_created env req w Hs) as (n & q & t & _ & Hfree & E).
      rewrite E. cbn [fst snd docs]. apply Written, WroteNew; try reflexivity. exact Hfree.
    + rewrite E. apply Refused; assumption.
  - unfold getAllProducts, find. run_store. apply Listed. right. reflexivity.
  - unfold getProductById, mbind, M_bind, bind.
    destruct (castObjectId (params_id req)) as [oid|] eqn:Hid.
    + rewrite (findById_cast _ oid) by assumption.
      destruct (docs w !! oid) as [p|] eqn:Hp; cbn.
      * apply (Found _ _ _ _ oid p); [left; reflexivity|assumption..].
      * apply Refused; cbn; [reflexivity | lia].
    + rewrite findById_malformed by assumption. cbn. apply Refused; cbn; [reflexivity | lia].
  - destruct (updateProduct_refused env req w) as [(oid & p & Hid & Hp & E)|(E & Hs & Hj)].
    + rewrite E. cbn [fst snd docs].
      apply Written, (WroteUpdate _ _ _ _ oid p); [reflexivity|assumption..].
    + rewrite E. apply Refused; assumption.
  - destruct (castObjectId (params_id req)) as [oid|] eqn:Hid.
    + destruct (docs w !! oid) as [p|] eqn:Hp.
      * rewrite (deleteProduct_found env req w oid p Hid Hp). cbn [fst snd docs].
        apply Written, (WroteDelete _ _ _ _ oid p); [reflexivity|assumption..].
      * unfold deleteProduct, mbind, M_bind, bind.
        rewrite (findByIdAndDelete_missing _ oid) by assumption. cbn.
        apply Refused; cbn; [reflexivity | lia].
    + unfold deleteProduct, mbind, M_bind, bind.
      rewrite findByIdAndDelete_malformed by assumption. cbn.
      apply Refused; cbn; [reflexivity | lia].
Qed.

(** A request leaves the collection as it was, or it is one of the four
    writes. *)
Lemma router_effect (r : Route) (env : Env) (req : Request) (w : World) :
  docs (router r env req w).2 = docs w
  \/ exists resp ds,
       (router r env req w).1 = resp /\ docs (router r env req w).2 = ds
       /\ Wrote r env req w resp ds.
Proof.
  destruct (router_outcome r env req w) as [resp _ _|l _|oid p _ _ _|resp ds H];
    [left; reflexivity ..|].
  right. exists resp, ds. repeat split. exact H.
Qed.

(** X12: a request that is answered with an error status changes no stored
    document: no handler writes and then fails. *)
Theorem error_leaves_collection (r : Route) (env : Env) (req : Request) (w : World) :
  400 <= status (router r env req w).1 ->
  docs (router r env req w).2 = docs w.
Proof.
  intros Hs. destruct (router_effect r env req w) as [H|(resp & ds & E & _ & H)]; [exact H|].
  exfalso. rewrite E in Hs. destruct H; cbn in Hs; lia.
Qed.

(** X13: a request writes at most the document it addresses (the new one for a
    creation, the one named by the path otherwise): on a collection where
    every document is stored under its [_id], every other document is
    after the request what it was before, and the three reading routes
    change none. *)
Theorem writes_are_confined
    (r : Route) (env : Env) (req : Request) (w : World) (j : string) :
  idsAreKeys w ->
  target r env req <> Some j ->
  docs (router r env req w).2 !! j = docs w !! j.
Proof.
  intros Hk Hj.
  destruct (router_effect r env req w) as [H|(resp & ds & _ & E & H)];
    rewrite ?H, ?E; [reflexivity|].
  destruct H as [p Hr _ _ _ _|oid p Hr Hid _|oid p Hr Hid _|oid p v Hr Hid Hp].
  - subst r. cbn [target] in Hj. apply lookup_insert_ne. congruence.
  - subst r. cbn [target] in Hj. apply lookup_insert_ne. congruence.
  - subst r. cbn [target] in Hj. apply lookup_delete_ne. congruence.
  - rewrite (Hk _ _ Hp). apply lookup_insert_ne.
    destruct Hr as [-> | ->]; cbn [target] in Hj; congruence.
Qed.

(** X14: no request changes the [_id] or the [createdAt] of a stored product;
    only the general update changes its name, description or threshold;
    and a route other than the update and the two stock routes changes no
    field of it at all. *)
Theorem stored_fields_frame
    (r : Route) (env : Env) (req : Request) (w : World) (id : string) (p p' : Product) :
  idsAreKeys w ->
  docs w !! id = Some p ->
  docs (router r env req w).2 !! id = Some p' ->
  _id p' = _id p /\ createdAt p' = createdAt p
  /\ (r <> PutProduct ->
      name p' = name p /\ description p' = description p
      /\ low_stock_threshold p' = low_stock_threshold p)
  /\ (r <> PutProduct -> ~ adjusts r -> p' = p).
Proof.
  intros Hk Hp Hp'.
  assert (Hsame : p' = p ->
                  _id p' = _id p /\ createdAt p' = createdAt p
                  /\ (r <> PutProduct ->
                      name p' = name p /\ description p' = description p
                      /\ low_stock_threshold p' = low_stock_threshold p)
                  /\ (r <> PutProduct -> ~ adjusts r -> p' = p)).
  { intros ->. repeat split; reflexivity. }
  destruct (router_effect r env req w) as [H|(resp & ds & _ & E & H)].
  - apply Hsame. rewrite H, Hp in Hp'. congruence.
  - rewrite E in Hp'.
    destruct H as [q Hr _ _ _ Hfree|oid q Hr Hid Hq|oid q Hr Hid Hq|oid q v Hr Hid Hq].
    + apply Hsame. rewrite lookup_insert_ne in Hp' by congruence. congruence.
    + rewrite lookup_insert in Hp'. case_decide as Hd.
      * subst oid. injection Hp' as <-. rewrite Hq in Hp. injection Hp as ->.
        repeat split; try reflexivity; intros; congruence.
      * apply Hsame. congruence.
    + rewrite lookup_delete in Hp'. case_decide; [discriminate|]. apply Hsame. congruence.
    + rewrite lookup_insert in Hp'. case_decide as Hd.
      * rewrite (Hk _ _ Hq) in Hd. subst oid. injection Hp' as <-.
        rewrite Hq in Hp. injection Hp as ->.
        repeat split; try reflexivity. intros _ Hn. contradiction.
      * apply Hsame. congruence.
Qed.

(** ** Invariants of the collection, continued *)

Lemma router_idsAreKeys (r : Route) (env : Env) (req : Request) (w : World) :
  idsAreKeys w -> idsAreKeys (router r env req w).2.
Proof.
  intros Hk id p.
  destruct (router_effect r env req w) as [H|(resp & ds & _ & E & H)];
    rewrite ?H, ?E; [apply Hk|].
  destruct H as [q Hr Hq _ _ _|oid q Hr Hid Hq|oid q Hr Hid Hq|oid q v Hr Hid Hq].
  - rewrite lookup_insert. case_decide; [intros [= <-]; congruence | apply Hk].
  - rewrite lookup_insert. case_decide; [|apply Hk].
    intros [= <-]. cbn [applyUpdate _id]. rewrite (Hk _ _ Hq). assumption.
  - rewrite lookup_delete. case_decide; [discriminate | apply Hk].
  - rewrite lookup_insert. case_decide; [|apply Hk].
    intros [= <-]. cbn [withStock _id]. assumption.
Qed.

(** X15: every document is stored under its own [_id] after any sequence of
    requests, if that held before; so a lookup that answers 200 returns a
    product whose [_id] is the ObjectId that the path named. *)
Theorem ids_are_keys
    (steps : list (Route * Env * Request)) (w : World) (env : Env) (req : Request) :
  idsAreKeys w ->
  idsAreKeys (serve steps w)
  /\ (forall p,
        (getProductById env req (serve steps w)).1 = mkResponse 200 (ProductBody p) ->
        castObjectId (params_id req) = Some (_id p)).
Proof.
  intros Hk.
  assert (Hk' : idsAreKeys (serve steps w)).
  { revert w Hk. induction steps as [|[[r e] q] steps IH]; intros w Hk; [exact Hk|].
    cbn [serve]. apply IH. apply router_idsAreKeys. exact Hk. }
  split; [exact Hk'|]. intros p. unfold getProductById, mbind, M_bind, bind.
  destruct (castObjectId (params_id req)) as [oid|] eqn:Hid.
  - rewrite (findById_cast _ oid) by assumption.
    destruct (docs (serve steps w) !! oid) as [q|] eqn:Hq; cbn; [|discriminate].
    intros [= <-]. rewrite (Hk' _ _ Hq). reflexivity.
  - rewrite findById_malformed by assumption. cbn. discriminate.
Qed.

(** X16: the invariants of the schema: after any sequence of requests on a
    collection whose products satisfied the schema, every stored product
    has a name that is not empty and a stock and a threshold that are
    integers and at least 0. *)
Theorem schema_invariant
    (steps : list (Route * Env * Request)) (w : World) (id : string) (p : Product) :
  allStored (fun q => conforms q = true) w ->
  docs (serve steps w) !! id = Some p ->
  name p <> EmptyString
  /\ Num.geb (stock_quantity p) Num.zero = true
  /\ Num.isInteger (stock_quantity p) = true
  /\ Num.geb (low_stock_threshold p) Num.zero = true
  /\ Num.isInteger (low_stock_threshold p) = true.
Proof.
  intros Hw Hp.
  assert (Hc : conforms p = true).
  { refine (serve_allStored (fun q => conforms q = true) _ _ _ steps w Hw id p Hp).
    - apply created_conforms.
    - apply saved_conforms.
    - apply updated_conforms. }
  destruct (conforms_spec p Hc) as (Hn & Hrest). split; [|exact Hrest].
  apply String.eqb_neq. exact Hn.
Qed.

(** ** Stock adjustments, continued *)

Lemma validateNumber_unstorable (minMsg intMsg : string) (x : spec_float) :
  Num.isInteger x = false \/ Num.geb x Num.zero = false ->
  validateNumber minMsg intMsg (castNumber (JNumber x)) <> None.
Proof.
  intros H. cbn [castNumber]. destruct (Num.isNaN x); [cbn; discriminate|].
  unfold validateNumber. destruct (Num.geb x Num.zero) eqn:Hge; [|cbn; discriminate].
  destruct H as [H|H]; [|discriminate]. rewrite H. cbn. discriminate.
Qed.

(** X17: in the two stock handlers, when the new stock is not an integer that
    is at least 0 (a sum that overflows to [Infinity], say) the save fails
    the validation of the schema; the handler answers 500 with its server
    error message, not 400, and nothing is written. *)
Theorem unstorable_stock_is_server_error
    (r : Route) (env : Env) (req : Request) (w : World) (oid : string) (p : Product) :
  adjusts r ->
  bodyChecked r (body req) = true ->
  castObjectId (params_id req) = Some oid ->
  docs w !! oid = Some p ->
  (r = PatchDecrease ->
   Num.ltb (adjusted r (stock_quantity p) (ToNumber (b_amount (body req)))) Num.zero = false) ->
  Num.isInteger (adjusted r (stock_quantity p) (ToNumber (b_amount (body req)))) = false
  \/ Num.geb (adjusted r (stock_quantity p) (ToNumber (b_amount (body req)))) Num.zero = false ->
  router r env req w
  = (mkResponse 500 (ErrorBody (serverError r)),
     mkWorld (docs w) (calls w ++ [CallFindById (params_id req); CallSave (_id p)])).
Proof.
  intros Hr Hb Hid Hp Hfloor Hbad.
  assert (Herr : storedErrors p (adjusted r (stock_quantity p) (ToNumber (b_amount (body req))))
                 <> []).
  { unfold storedErrors. intros E. apply app_eq_nil in E as [_ E].
    apply app_eq_nil in E as [E _]. apply pathError_nil in E.
    exact (validateNumber_unstorable _ _ _ Hbad E). }
  destruct (adjust_found r env req w oid p Hr Hb Hid Hp)
    as [(Hd & Hlt & _)|[(_ & E)|[(Hnil & _)|(Hnil & _)]]].
  - rewrite (Hfloor Hd) in Hlt. discriminate.
  - exact E.
  - contradiction.
  - contradiction.
Qed.

(** X18: decrease followed by increase of the same amount restores the stock,
    for a stored product that satisfies the schema, whose stock is a safe
    integer, and an amount (a positive integer) that is at most the
    stock. *)
Theorem decrease_then_increase_restores
    (env1 env2 : Env) (req : Request) (w : World) (oid : string) (p : Product)
    (a : spec_float) :
  castObjectId (params_id req) = Some oid ->
  docs w !! oid = Some p -> _id p = oid ->
  conforms p = true ->
  Num.valid (stock_quantity p) = true ->
  Num.isSafeInteger (stock_quantity p) = true ->
  b_amount (body req) = JNumber a ->
  Num.valid a = true -> Num.isInteger a = true -> Num.ltb Num.zero a = true ->
  Num.SF2Z a <= Num.SF2Z (stock_quantity p) ->
  exists p1 p2,
    (decreaseStock env1 req w).1 = mkResponse 200 (ProductBody p1)
    /\ Num.SF2Z (stock_quantity p1) = Num.SF2Z (stock_quantity p) - Num.SF2Z a
    /\ (increaseStock env2 req (decreaseStock env1 req w).2).1
       = mkResponse 200 (ProductBody p2)
    /\ docs (increaseStock env2 req (decreaseStock env1 req w).2).2 !! oid = Some p2
    /\ Num.eqb (stock_quantity p2) (stock_quantity p) = true
    /\ Num.SF2Z (stock_quantity p2) = Num.SF2Z (stock_quantity p).
Proof.
  intros Hid Hp Hoid Hc Hvs Hss Ha Hva Hint Hla Hle.
  destruct (conforms_spec p Hc) as (Hname & Hgs & _ & Ht1 & Ht2).
  destruct (NumFacts.safe_stock_cases _ Hvs Hss Hgs) as [Hn Hcan].
  pose proof (positive_SF2Z a Hla) as Hk0.
  assert (Hsa : Num.isSafeInteger a = true).
  { unfold Num.isSafeInteger, Num.MAX_SAFE_INTEGER. rewrite Hint. apply Z.leb_le. lia. }
  destruct (NumFacts.sub_safe _ _ Hvs Hss Hgs Hva Hsa Hla) as [Hsub Hne].
  destruct (NumFacts.safe_amount_cases _ Hva Hsa Hla) as [Hk Ea].
  set (n := Num.SF2Z (stock_quantity p)) in *. set (k := Num.SF2Z a) in *.
  assert (Hz : 0 <= n - k < 2 ^ 53) by lia.
  destruct (Z2SF_storable _ Hz) as (Hge & Hvi).
  rewrite (decreaseStock_saved env1 req w oid p a (n - k)); try assumption;
    [|rewrite <- Hsub; exact Hne].
  cbn [fst snd]. set (p1 := withStock env1 p (Num.Z2SF (n - k))). set (w1 := mkWorld _ _).
  assert (Hp1 : docs w1 !! oid = Some p1).
  { unfold w1. cbn [docs]. rewrite Hoid. apply lookup_insert_eq. }
  assert (Hc1 : conforms p1 = true).
  { unfold conforms, p1. cbn [withStock name stock_quantity low_stock_threshold].
    rewrite Hname, Hge, Hvi, Ht1, Ht2. reflexivity. }
  assert (Hadd : Num.add (stock_quantity p1) a = Num.Z2SF n).
  { unfold p1. cbn [withStock stock_quantity]. rewrite Ea.
    rewrite NumFacts.add_exact by lia. f_equal. lia. }
  assert (Hzn : 0 <= n < 2 ^ 53) by lia.
  destruct (Z2SF_storable _ Hzn) as (Hgen & Hvin).
  exists p1. eexists. split; [reflexivity|]. split.
  { unfold p1. cbn [withStock stock_quantity]. apply NumFacts.SF2Z_exact. lia. }
  rewrite (increaseStock_saved env2 req w1 oid p1 a (Num.Z2SF n)); try assumption.
  - cbn [fst snd docs]. split; [reflexivity|]. split; [|split].
    + unfold p1 at 1. cbn [withStock _id]. rewrite Hoid. apply lookup_insert_eq.
    + cbn [withStock stock_quantity]. destruct Hcan as [E|E].
      * rewrite E. fold n. rewrite NumFacts.eqb_exact by lia. apply Z.eqb_refl.
      * subst n. rewrite E. reflexivity.
    + cbn [withStock stock_quantity]. apply NumFacts.SF2Z_exact. lia.
  - unfold p1. cbn [withStock stock_quantity].
    rewrite NumFacts.eqb_exact by lia. apply Z.eqb_neq. lia.
Qed.

(** ** The low-stock query on integers *)

Lemma ltb_negative_zero_l (y : spec_float) :
  Num.ltb (S754_zero true) y = Num.ltb (Num.Z2SF 0) y.
Proof. destruct y as [s|s| |s m e]; reflexivity. Qed.

Lemma ltb_negative_zero_r (x : spec_float) :
  Num.ltb x (S754_zero true) = Num.ltb x (Num.Z2SF 0).
Proof. destruct x as [s|s| |s m e]; reflexivity. Qed.

(** [<] on two safe integers is [<] on their values. *)
Lemma ltb_safe (x y : spec_float) :
  Num.valid x = true -> Num.isSafeInteger x = true ->
  Num.valid y = true -> Num.isSafeInteger y = true ->
  Num.ltb x y = (Num.SF2Z x <? Num.SF2Z y).
Proof.
  intros Hvx Hsx Hvy Hsy.
  destruct (NumFacts.safe_integer_cases x Hvx Hsx) as [Hx Ex].
  destruct (NumFacts.safe_integer_cases y Hvy Hsy) as [Hy Ey].
  assert (E0 : Num.SF2Z (S754_zero true) = 0) by reflexivity.
  destruct Ex as [Ex|Ex], Ey as [Ey|Ey].
  - rewrite Ex, Ey at 1. apply NumFacts.ltb_exact; assumption.
  - rewrite Ey, E0, ltb_negative_zero_r. rewrite Ex at 1.
    apply NumFacts.ltb_exact; [assumption | cbn; lia].
  - rewrite Ex, E0, ltb_negative_zero_l. rewrite Ey at 1.
    apply NumFacts.ltb_exact; [cbn; lia | assumption].
  - rewrite Ex, Ey. reflexivity.
Qed.

(** X19: on a collection where every stock and threshold is a safe integer,
    the low-stock query lists exactly the stored products whose stock, as
    an integer, is less than their threshold. *)
Theorem low_stock_in_integers (env : Env) (req : Request) (w : World) :
  allStored (fun p => safeQuantities p = true) w ->
  exists l,
    (getLowStockProducts env req w).1 = mkResponse 200 (ProductsBody l)
    /\ (forall p, p ∈ l <->
                  (exists id, docs w !! id = Some p)
                  /\ Num.SF2Z (stock_quantity p) < Num.SF2Z (low_stock_threshold p)).
Proof.
  intros Hw. exists (List.filter lowStock (map_to_list (docs w)).*2).
  split; [reflexivity|]. intros p. rewrite elem_of_findLowStock.
  split; intros [[id Hid] H]; (split; [exists id; exact Hid|]);
    pose proof (Hw id p Hid) as Hs; cbn beta in Hs; unfold safeQuantities in Hs;
    apply andb_true_iff in Hs as [Hs Ht]; apply andb_true_iff in Hs as [Hs1 Hs2];
    apply andb_true_iff in Ht as [Ht1 Ht2];
    rewrite (ltb_safe _ _ Hs1 Hs2 Ht1 Ht2) in *; apply Z.ltb_lt; exact H.
Qed.

(** ** The shape of every response *)

Ltac split_response :=
  repeat match goal with
         | |- context [match ?x with _ => _ end] => destruct x
         end.

(** X20: whatever the route, the request and the collection: the status is
    200, 201, 400, 404 or 500; the body is an error object exactly when
    the status is 400 or more; 201 is answered by the creation only, 404
    always with "Product not found" and only on a route with an id, and
    500 always with the server error message of the route. *)
Theorem responses_are_well_formed (r : Route) (env : Env) (req : Request) (w : World) :
  (status (router r env req w).1 = 200 \/ status (router r env req w).1 = 201
   \/ status (router r env req w).1 = 400 \/ status (router r env req w).1 = 404
   \/ status (router r env req w).1 = 500)
  /\ isErrorJson (json (router r env req w).1) = (400 <=? status (router r env req w).1)
  /\ (status (router r env req w).1 = 201 -> r = PostProduct)
  /\ (status (router r env req w).1 = 200 -> r <> PostProduct)
  /\ (status (router r env req w).1 = 404 ->
      json (router r env req w).1 = ErrorBody "Product not found" /\ takesId r = true)
  /\ (status (router r env req w).1 = 500 ->
      json (router r env req w).1 = ErrorBody (serverError r)).
Proof.
  destruct r; cbn [router];
    unfold getLowStockProducts, findLowStock, createProduct, save, getAllProducts, find,
      getProductById, findById, updateProduct, findByIdAndUpdate, deleteProduct,
      findByIdAndDelete, increaseStock, decreaseStock, saveStock;
    unfold mbind, M_bind, bind, mret, M_ret, ret, logCall, readDocs, writeDocs;
    split_response; cbn; repeat split; try discriminate; try tauto; try (intros; discriminate).
Qed.

(** ** What a successful stock adjustment stores *)

Lemma eqb_true_cases (x y : spec_float) :
  Num.eqb x y = true ->
  x = y \/ exists s s', x = S754_zero s /\ y = S754_zero s'.
Proof.
  unfold Num.eqb, SFeqb.
  destruct x as [s|s| |s m e], y as [s'|s'| |s' m' e']; cbn [SFcompare];
    try discriminate; try (destruct s; discriminate); try (destruct s'; discriminate).
  - intros _. right. eauto.
  - destruct s, s'; try discriminate; intros _; left; reflexivity.
  - destruct s, s'; try discriminate.
    + destruct (Z.compare_spec e e') as [E| |]; try discriminate. subst e'.
      change (Pcompare m m' Eq) with (m ?= m')%positive.
      destruct (Pos.compare_spec m m') as [E| |]; try discriminate. subst. left. reflexivity.
    + destruct (Z.compare_spec e e') as [E| |]; try discriminate. subst e'.
      change (Pcompare m m' Eq) with (m ?= m')%positive.
      destruct (Pos.compare_spec m m') as [E| |]; try discriminate. subst. left. reflexivity.
Qed.

Lemma eqb_refl_geb (x : spec_float) : Num.geb x Num.zero = true -> Num.eqb x x = true.
Proof.
  unfold Num.eqb, SFeqb.
  destruct x as [s|s| |s m e]; try destruct s; cbn; try discriminate; try reflexivity.
  intros _. rewrite Z.compare_refl. change (Pcompare m m Eq) with (m ?= m)%positive.
  rewrite Pos.compare_refl. reflexivity.
Qed.

(** X21: whenever a stock handler answers 200, whatever the size of the
    numbers: the product that it returns is the stored product with
    [stock_quantity] equal to the binary64 sum (increase) or difference
    (decrease) of the stored stock and the amount, that value is an
    integer at least 0, and no other field of the request's product has
    changed apart from [updatedAt], which is refreshed when the stock has
    changed. *)
Theorem adjusted_stock_is_the_rounded_result
    (r : Route) (env : Env) (req : Request) (w : World) :
  adjusts r ->
  status (router r env req w).1 = 200 ->
  exists oid p p',
    castObjectId (params_id req) = Some oid
    /\ docs w !! oid = Some p
    /\ json (router r env req w).1 = ProductBody p'
    /\ Num.eqb (adjusted r (stock_quantity p) (ToNumber (b_amount (body req))))
               (stock_quantity p') = true
    /\ Num.geb (stock_quantity p') Num.zero = true
    /\ Num.isInteger (stock_quantity p') = true
    /\ _id p' = _id p /\ name p' = name p /\ description p' = description p
    /\ low_stock_threshold p' = low_stock_threshold p /\ createdAt p' = createdAt p
    /\ ((p' = p /\ docs (router r env req w).2 = docs w)
        \/ (updatedAt p' = now env
            /\ docs (router r env req w).2 = <[_id p := p']> (docs w))).
Proof.
  intros Hr Hs.
  destruct (bodyChecked r (body req)) eqn:Hb.
  2:{ destruct (adjust_unchecked r env req w Hr Hb) as (_ & E & _).
      rewrite E in Hs. discriminate. }
  destruct (castObjectId (params_id req) ≫= (docs w !!.)) as [p|] eqn:Hfind.
  2:{ destruct (adjust_no_product r env req w Hr Hb Hfind) as (_ & E & _).
      rewrite Hs in E. lia. }
  destruct (castObjectId (params_id req)) as [oid|] eqn:Hid; [|discriminate].
  cbn in Hfind. rename Hfind into Hp.
  exists oid, p.
  destruct (adjust_found r env req w oid p Hr Hb Hid Hp)
    as [(_ & _ & E)|[(_ & E)|[(Hnil & Heq & E)|(Hnil & Heq & E)]]];
    rewrite E in Hs |- *; try discriminate Hs; cbn [fst snd json docs];
    destruct (storedErrors_nil_inv p _ Hnil) as (_ & [Hge Hint] & _).
  - exists p. split; [reflexivity|]. split; [exact Hp|]. split; [reflexivity|].
    split; [exact Heq|].
    assert (Hge' : Num.geb (stock_quantity p) Num.zero = true
                   /\ Num.isInteger (stock_quantity p) = true).
    { destruct (eqb_true_cases _ _ Heq) as [Ev|(s & s' & _ & Ev)].
      - rewrite <- Ev. split; assumption.
      - rewrite Ev. split; reflexivity. }
    destruct Hge' as [Hge' Hint']. repeat split; try assumption. left. split; reflexivity.
  - exists (withStock env p (adjusted r (stock_quantity p) (ToNumber (b_amount (body req))))).
    cbn [withStock stock_quantity _id name description low_stock_threshold createdAt updatedAt].
    repeat split; try assumption; try reflexivity.
    + apply eqb_refl_geb. exact Hge.
    + right. split; reflexivity.
Qed.

(** ** What a response returns is what is stored *)

(** X22: on a collection where every document is stored under its [_id], the
    product in the body of a response is, after the request, the document
    stored under its [_id]; a lookup by that id then answers 200 with the
    same product. *)
Theorem returned_product_is_stored
    (r : Route) (env env' : Env) (req req' : Request) (w : World) (p : Product) :
  idsAreKeys w ->
  json (router r env req w).1 = ProductBody p ->
  docs (router r env req w).2 !! _id p = Some p
  /\ (castObjectId (params_id req') = Some (_id p) ->
      (getProductById env' req' (router r env req w).2).1
      = mkResponse 200 (ProductBody p)).
Proof.
  intros Hk Hj.
  assert (Hstored : docs (router r env req w).2 !! _id p = Some p).
  { pose proof (router_outcome r env req w) as H.
    remember (router r env req w).1 as resp eqn:E1.
    remember (docs (router r env req w).2) as ds eqn:E2. clear E1 E2.
    destruct H as [resp He _|l _|oid q _ Hid Hq|resp ds H].
    - rewrite Hj in He. discriminate.
    - discriminate.
    - injection Hj as <-. rewrite (Hk _ _ Hq). exact Hq.
    - destruct H as [q _ Hq _ _ _|oid q _ Hid Hq|oid q _ _ _|oid q v _ _ _].
      + injection Hj as <-. rewrite Hq. apply lookup_insert_eq.
      + injection Hj as <-. cbn [applyUpdate _id]. rewrite (Hk _ _ Hq).
        apply lookup_insert_eq.
      + discriminate.
      + injection Hj as <-. cbn [withStock _id]. apply lookup_insert_eq. }
  split; [exact Hstored|]. intros Hid.
  unfold getProductById, mbind, M_bind, bind.
  rewrite (findById_cast _ (_id p)) by assumption. rewrite Hstored. reflexivity.
Qed.

(** ** Creation with defaults, and the low-stock query *)

(** X25: a product created without [stock_quantity] and without
    [low_stock_threshold] has stock 0 and threshold 10, so the low-stock
    query that follows lists it. *)
Theorem default_product_is_low_stock
    (env env' : Env) (req req' : Request) (w : World) :
  status (createProduct env req w).1 = 201 ->
  b_stock_quantity (body req) = JUndefined ->
  b_low_stock_threshold (body req) = JUndefined ->
  exists p l,
    json (createProduct env req w).1 = ProductBody p
    /\ Num.SF2Z (stock_quantity p) = 0 /\ Num.SF2Z (low_stock_threshold p) = 10
    /\ (getLowStockProducts env' req' (createProduct env req w).2).1
       = mkResponse 200 (ProductsBody l)
    /\ p ∈ l.
Proof.
  intros Hs Hq Ht.
  destruct (createProduct_created env req w Hs) as (n & q & t & Hn & Hfree & E).
  assert (Eq : q = Num.zero /\ t = Num.Z2SF 10).
  { revert E. unfold createProduct. destruct (negb _); [discriminate|].
    unfold Product_new. rewrite Hq, Ht. cbn [castNumber withDefault].
    unfold save. run_store.
    destruct (validationErrors _); [|discriminate].
    cbn [d_name d_stock_quantity d_low_stock_threshold].
    destruct (trimSetter (b_name (body req))); try discriminate.
    cbn. rewrite Hfree. cbn. intros [= _ <- <-]. split; reflexivity. }
  destruct Eq as [-> ->]. rewrite E. cbn [fst snd json].
  eexists. eexists. split; [reflexivity|]. cbn [stock_quantity low_stock_threshold].
  split; [reflexivity|]. split; [vm_compute; reflexivity|].
  split; [reflexivity|].
  apply elem_of_findLowStock. cbn [docs stock_quantity low_stock_threshold]. split.
  - exists (freshId env). apply lookup_insert_eq.
  - vm_compute. reflexivity.
Qed.

(** ** The general update is idempotent *)

Lemma setName_twice (c : Cast string) (old : string) :
  setName c (setName c old) = setName c old.
Proof. destruct c; reflexivity. Qed.

Lemma setDescription_twice (c : Cast string) (old : StoredString) :
  setDescription c (setDescription c old) = setDescription c old.
Proof. destruct c; reflexivity. Qed.

Lemma setNumber_twice (c : Cast spec_float) (old : spec_float) :
  setNumber c (setNumber c old) = setNumber c old.
Proof. destruct c; reflexivity. Qed.

(** X26: when an update answers 200, the same request once more answers
    200 with the same product, but for [updatedAt], which is the time of
    the second request; the stored product is that product. *)
Theorem update_is_idempotent (env env' : Env) (req : Request) (w : World) :
  status (updateProduct env req w).1 = 200 ->
  exists p1 p2,
    json (updateProduct env req w).1 = ProductBody p1
    /\ (updateProduct env' req (updateProduct env req w).2).1
       = mkResponse 200 (ProductBody p2)
    /\ p2 = mkProduct (_id p1) (name p1) (description p1) (stock_quantity p1)
                      (low_stock_threshold p1) (createdAt p1) (now env')
    /\ forall oid, castObjectId (params_id req) = Some oid ->
                   docs (updateProduct env' req (updateProduct env req w).2).2 !! oid
                   = Some p2.
Proof.
  intros Hs.
  destruct (updateProduct_refused env req w) as [(oid & p & Hid & Hp & E)|(_ & Hge & _)];
    [|rewrite Hs in Hge; lia].
  rewrite E. cbn [fst snd json].
  set (u := updateOf (body req)) in *. set (p1 := applyUpdate env u p).
  set (w1 := mkWorld _ _).
  assert (Hp1 : docs w1 !! oid = Some p1) by apply lookup_insert_eq.
  assert (Hchecks : bodyChecked PutProduct (body req) = true).
  { cbn [bodyChecked]. revert Hs. unfold updateProduct.
    destruct (_ && _); [cbn; discriminate|]. destruct (_ && _); [cbn; discriminate|].
    reflexivity. }
  destruct (update_checks_passed _ Hchecks) as [H1 H2].
  assert (Hvalid : updateCastError u = None /\ updateValidationErrors u = []).
  { revert Hs. unfold updateProduct. rewrite H1, H2. fold (updateOf (body req)). fold u.
    unfold mbind, M_bind, bind, findByIdAndUpdate. run_store. rewrite Hid.
    destruct (updateCastError u); [cbn; discriminate|].
    destruct (updateValidationErrors u); [|cbn; discriminate]. split; reflexivity. }
  destruct Hvalid as [Hc Hv].
  assert (E2 : updateProduct env' req w1
               = (mkResponse 200 (ProductBody (applyUpdate env' u p1)),
                  mkWorld (<[oid := applyUpdate env' u p1]> (docs w1))
                          (calls w1 ++ [CallFindByIdAndUpdate (params_id req)]))).
  { unfold updateProduct. rewrite H1, H2. fold (updateOf (body req)). fold u.
    unfold mbind, M_bind, bind.
    rewrite (findByIdAndUpdate_found env' _ oid u p1) by assumption. reflexivity. }
  rewrite E2. cbn [fst snd docs].
  exists p1, (applyUpdate env' u p1). split; [reflexivity|]. split; [reflexivity|].
  split.
  - unfold p1, applyUpdate.
    cbn [_id name description stock_quantity low_stock_threshold createdAt].
    rewrite setName_twice, setDescription_twice, !setNumber_twice. reflexivity.
  - intros oid' Hid'. rewrite Hid in Hid'. injection Hid' as <-. apply lookup_insert_eq.
Qed.

End HandlerFacts.

(** * The route table *)

(** X23: [GET /api/products/<s>] runs the low-stock handler when the
    segment is [low-stock] (in any case of letters), and otherwise the
    lookup by id, with the segment as the captured id: a segment that
    spells [low-stock] is never taken for an id, and no other segment
    reaches the low-stock handler. *)
Theorem low_stock_is_never_an_id (a p s : string) :
  litEq "api" a = true -> litEq "products" p = true -> s <> EmptyString ->
  app GET [a; p; s]
  = Some (if litEq "low-stock" s then Api GetLowStock [] else Api GetProduct [("id", s)]).
Proof.
  intros Ha Hp Hs. unfold app. rewrite Ha, Hp. cbn [andb].
  unfold productRoutes, routes. cbn [dispatch Method_eqb].
  cbn [matchPath]. destruct (litEq "low-stock" s); [reflexivity|].
  destruct (String.eqb_spec s EmptyString) as [E|_]; [contradiction | reflexivity].
Qed.

Lemma dispatch_routes_params (m : Method) (path : list string) (r : Route)
    (ps : list (string * string)) :
  productRoutes m path = Some (r, ps) ->
  (takesId r = true /\ exists id, ps = [("id", id)] /\ id <> EmptyString /\ id ∈ path)
  \/ (takesId r = false /\ ps = []).
Proof.
  unfold productRoutes, routes.
  destruct m, path as [|s [|s2 [|s3 rest]]]; cbn [dispatch Method_eqb matchPath];
    try discriminate;
    repeat match goal with
           | |- context [if litEq ?x ?y then _ else _] => destruct (litEq x y)
           | |- context [if String.eqb ?x ?y then _ else _] =>
               destruct (String.eqb_spec x y)
           end;
    try discriminate; intros H; injection H as <- <-;
    first [ right; split; reflexivity
          | left; split; [reflexivity|]; eexists; split; [reflexivity|];
            split; [assumption|]; set_solver ].
Qed.

(** X24: whenever [app.js] runs a handler of the controller, a handler that
    reads [req.params.id] has that parameter, bound to a segment of the
    path that is not empty, and a handler that does not read it has no
    parameter; nothing outside [/api/products] reaches the controller. *)
Theorem handlers_receive_their_id
    (m : Method) (path : list string) (r : Route) (ps : list (string * string)) :
  app m path = Some (Api r ps) ->
  (exists a p rest, path = a :: p :: rest /\ litEq "api" a = true /\ litEq "products" p = true
                    /\ productRoutes m rest = Some (r, ps))
  /\ (if takesId r
      then exists id, paramId ps = Some id /\ id <> EmptyString /\ id ∈ path
      else paramId ps = None).
Proof.
  unfold app. destruct path as [|a [|p rest]].
  - destruct (Method_eqb m GET); discriminate.
  - discriminate.
  - destruct (litEq "api" a) eqn:Ha; [|discriminate].
    destruct (litEq "products" p) eqn:Hp; [|discriminate]. cbn [andb].
    destruct (productRoutes m rest) as [[r' ps']|] eqn:Hd; [|discriminate].
    intros [= <- <-]. split.
    + exists a, p, rest. repeat split; assumption.
    + destruct (dispatch_routes_params m rest r' ps' Hd) as [(Ht & id & -> & Hne & Hin)|[Ht ->]];
        rewrite Ht.
      * exists id. split; [reflexivity|]. split; [assumption|]. set_solver.
      * reflexivity.
Qed.

(** * The handlers on concrete requests *)

Import Ref.

Ltac by_computation := vm_compute; first [reflexivity | discriminate].

(** ** The scenarios of [tests/product.test.js] *)

Example test_create :
  let r := (createProduct env
              (mkRequest EmptyString
                 (mkBody (JString "Test Product") (JString "Test Description")
                         (JNumber (Num.Z2SF 100)) (JNumber (Num.Z2SF 20)) JUndefined))
              (world [])).1 in
  status r = 201
  /\ json r = ProductBody (mkProduct id3 "Test Product" (SValue "Test Description")
                                     (Num.Z2SF 100) (Num.Z2SF 20) 1 1).
Proof. split; vm_compute; reflexivity. Qed.

Example test_create_without_name :
  (createProduct env
     (mkRequest EmptyString
        (mkBody JUndefined (JString "Test Description") JUndefined JUndefined JUndefined))
     (world [])).1
  = mkResponse 400 (ErrorBody "Product name is required").
Proof. vm_compute. reflexivity. Qed.

Example test_get_all :
  exists l,
    (getAllProducts env (mkRequest EmptyString emptyBody)
       (world [product id1 50 10; product id2 30 10])).1
    = mkResponse 200 (ProductsBody l)
    /\ length l = 2%nat.
Proof. eexists. split; vm_compute; reflexivity. Qed.

Example test_get_by_id :
  (getProductById env (mkRequest id1 emptyBody) (world [product id1 50 10])).1
  = mkResponse 200 (ProductBody (product id1 50 10))
  /\ (getProductById env (mkRequest id2 emptyBody) (world [product id1 50 10])).1
     = mkResponse 404 (ErrorBody "Product not found")
  /\ (getProductById env (mkRequest "not-an-id" emptyBody) (world [product id1 50 10])).1
     = mkResponse 400 (ErrorBody "Invalid product ID").
Proof. repeat split; vm_compute; reflexivity. Qed.

Example test_update :
  returnedStock
    (updateProduct env
       (mkRequest id1 (mkBody (JString "New Name") JUndefined (JNumber (Num.Z2SF 75))
                              JUndefined JUndefined))
       (world [product id1 50 10])).1 = Some 75.
Proof. vm_compute. reflexivity. Qed.

Example test_delete :
  status (deleteProduct env (mkRequest id1 emptyBody) (world [product id1 50 10])).1 = 200
  /\ docs (deleteProduct env (mkRequest id1 emptyBody) (world [product id1 50 10])).2 !! id1
     = None.
Proof. split; vm_compute; reflexivity. Qed.

Example test_increase :
  returnedStock (increaseStock env (adjust 25) (stocked 50)).1 = Some 75
  /\ (increaseStock env (adjust (-10)) (stocked 50)).1
     = mkResponse 400 (ErrorBody "Amount must be a positive number")
  /\ status (increaseStock env (adjust 0) (stocked 50)).1 = 400.
Proof. repeat split; vm_compute; reflexivity. Qed.

Example test_decrease :
  returnedStock (decreaseStock env (adjust 20) (stocked 50)).1 = Some 30
  /\ (decreaseStock env (adjust 60) (stocked 50)).1
     = mkResponse 400 (ErrorBody "Insufficient stock")
  /\ (decreaseStock env (adjust (-10)) (stocked 50)).1
     = mkResponse 400 (ErrorBody "Amount must be a positive number")
  /\ returnedStock (decreaseStock env (adjust 50) (stocked 50)).1 = Some 0.
Proof. repeat split; vm_compute; reflexivity. Qed.

Example test_low_stock :
  (exists l,
      (getLowStockProducts env (mkRequest EmptyString emptyBody)
         (world [product id1 5 10; product id2 8 15; product id3 50 10])).1
      = mkResponse 200 (ProductsBody l)
      /\ length l = 2%nat
      /\ In (product id1 5 10) l /\ In (product id2 8 15) l)
  /\ (getLowStockProducts env (mkRequest EmptyString emptyBody)
        (world [product id1 50 10])).1
     = mkResponse 200 (ProductsBody []).
Proof.
  split; [|vm_compute; reflexivity].
  eexists. split; [vm_compute; reflexivity|].
  split; [reflexivity|]. split; cbn; tauto.
Qed.

(** A stock exactly at the threshold is not low. *)
Example at_threshold_is_not_low :
  (getLowStockProducts env (mkRequest EmptyString emptyBody)
     (world [product id1 10 10])).1
  = mkResponse 200 (ProductsBody []).
Proof. vm_compute. reflexivity. Qed.

(** An amount far beyond the safe range still fails the floor check. *)
Example decrease_by_huge_amount :
  (decreaseStock env (adjust (2 ^ 80)) (stocked 50)).1
  = mkResponse 400 (ErrorBody "Insufficient stock").
Proof. vm_compute. reflexivity. Qed.

(** ** Beyond the safe integers *)


Lemma increase_inexact_beyond_safe_range :
  stockAt (stocked (2 ^ 53)) id3 = Some (2 ^ 53)
  /\ Num.SF2Z (Num.Z2SF 1) = 1
  /\ status (increaseStock env (adjust 1) (stocked (2 ^ 53))).1 = 200
  /\ returnedStock (increaseStock env (adjust 1) (stocked (2 ^ 53))).1 = Some (2 ^ 53)
  /\ stockAt (increaseStock env (adjust 1) (stocked (2 ^ 53))).2 id3 = Some (2 ^ 53)
  /\ 2 ^ 53 <> 2 ^ 53 + 1.
Proof. repeat split; try (vm_compute; reflexivity). lia. Qed.

Lemma increase_overflow_is_server_error :
  increaseStock env (adjust (2 ^ 1023)) (stocked (2 ^ 1023))
  = (mkResponse 500 (ErrorBody "Server error while increasing stock"),
     mkWorld (docs (stocked (2 ^ 1023)))
             (calls (stocked (2 ^ 1023)) ++ [CallFindById id3; CallSave id3])).
Proof. vm_compute. reflexivity. Qed.

Lemma roundtrip_fails_beyond_safe_range :
  stockAt (stocked (2 ^ 53)) id3 = Some (2 ^ 53)
  /\ status (increaseStock env (adjust 1) (stocked (2 ^ 53))).1 = 200
  /\ status (decreaseStock env (adjust 1)
               (increaseStock env (adjust 1) (stocked (2 ^ 53))).2).1 = 200
  /\ stockAt (decreaseStock env (adjust 1)
                (increaseStock env (adjust 1) (stocked (2 ^ 53))).2).2 id3
     = Some (2 ^ 53 - 1)
  /\ 2 ^ 53 - 1 <> 2 ^ 53.
Proof. repeat split; try (vm_compute; reflexivity). lia. Qed.

(** ** The order of the two checks on the amount *)

Lemma negative_fraction_reports_positive :
  Num.valid minusThreeHalves = true
  /\ Num.isInteger minusThreeHalves = false
  /\ Num.ltb minusThreeHalves Num.zero = true
  /\ increaseStock env (mkRequest id3 (amountBody (JNumber minusThreeHalves))) (stocked 50)
     = (mkResponse 400 (ErrorBody "Amount must be a positive number"), stocked 50)
  /\ decreaseStock env (mkRequest id3 (amountBody (JNumber minusThreeHalves))) (stocked 50)
     = (mkResponse 400 (ErrorBody "Amount must be a positive number"), stocked 50)
  /\ ErrorBody "Amount must be a positive number" <> ErrorBody "Amount must be an integer".
Proof. repeat split; try (vm_compute; reflexivity). discriminate. Qed.

(** ** A stock that is not negative and not an integer *)


(** ** The theorems on the scenarios *)

Lemma stocked_50 : docs (stocked 50) = {[ id3 := testProduct 50 ]}.
Proof. vm_compute. reflexivity. Qed.


Lemma increase_adds_amount_witness :
  exists p',
    increaseStock env (adjust 25) (stocked 50)
    = (mkResponse 200 (ProductBody p'),
       mkWorld (<[id3 := p']> (docs (stocked 50)))
               (calls (stocked 50) ++ [CallFindById id3; CallSave id3]))
    /\ Num.SF2Z (stock_quantity p') = 75.
Proof.
  unshelve epose proof (increase_adds_amount env (adjust 25) (stocked 50) id3
                          (testProduct 50) (Num.Z2SF 25) _ _ _ _ _ _ _ _ _ _)
    as (p' & Hrun & _ & _ & Hval); [by_computation ..|].
  exists p'. split; [exact Hrun | exact Hval].
Defined.

Lemma increase_then_decrease_restores_witness :
  exists p2,
    (decreaseStock env (adjust 25) (increaseStock env (adjust 25) (stocked 50)).2).1
    = mkResponse 200 (ProductBody p2)
    /\ Num.SF2Z (stock_quantity p2) = 50.
Proof.
  unshelve epose proof (increase_then_decrease_restores env env (adjust 25) (stocked 50)
                          id3 (testProduct 50) (Num.Z2SF 25) _ _ _ _ _ _ _ _ _ _ _)
    as (p2 & Hrun & _ & _ & Hval); [by_computation ..|].
  exists p2. split; [exact Hrun | exact Hval].
Defined.

Lemma amount_validation_witness :
  router PatchIncrease env (mkRequest id3 (amountBody JUndefined)) (stocked 50)
  = (mkResponse 400 (ErrorBody "Amount must be a positive number"), stocked 50)
  /\ router PatchDecrease env (mkRequest id3 (amountBody (JNumber threeHalves))) (stocked 50)
     = (mkResponse 400 (ErrorBody "Amount must be an integer"), stocked 50).
Proof.
  split.
  - destruct (amount_validation PatchIncrease env (mkRequest id3 (amountBody JUndefined))
                (stocked 50) (or_introl eq_refl)) as [H _].
    apply H. left. reflexivity.
  - destruct (amount_validation PatchDecrease env
                (mkRequest id3 (amountBody (JNumber threeHalves))) (stocked 50)
                (or_intror eq_refl)) as [_ H].
    apply (H threeHalves); by_computation.
Defined.


Lemma stock_never_negative_witness :
  stockNonNegative
    (serve [(PatchDecrease, env, adjust 20); (PatchDecrease, env, adjust 40)]
           (stocked 50)).
Proof.
  apply stock_never_negative. intros id p. rewrite stocked_50.
  intros H. apply lookup_singleton_Some in H as [_ <-]. reflexivity.
Defined.

Lemma update_changes_only_supplied_fields_witness :
  exists oid p p',
    castObjectId "64b7f1a2c3d4e5f6a7b8c9d2" = Some oid
    /\ docs (stocked 50) !! oid = Some p
    /\ json (updateProduct env (mkRequest id3 (stockBody (JNumber (Num.Z2SF 75))))
                           (stocked 50)).1 = ProductBody p'
    /\ name p' = name p /\ description p' = description p
    /\ low_stock_threshold p' = low_stock_threshold p.
Proof.
  destruct (update_changes_only_supplied_fields env
              (mkRequest id3 (stockBody (JNumber (Num.Z2SF 75)))) (stocked 50))
    as (oid & p & p' & Hid & Hp & Hj & _ & _ & _ & _ & _ & Hn & Hd & _ & Ht).
  - vm_compute. reflexivity.
  - exists oid, p, p'. repeat split; try assumption.
    + apply Hn. reflexivity.
    + apply Hd. reflexivity.
    + apply Ht. reflexivity.
Defined.

Lemma create_applies_defaults_witness :
  exists p,
    json (createProduct env (mkRequest EmptyString
                               (mkBody (JString "Widget") JUndefined JUndefined
                                       JUndefined JUndefined))
                        (mkWorld ∅ [])).1 = ProductBody p
    /\ Num.SF2Z (stock_quantity p) = 0
    /\ Num.SF2Z (low_stock_threshold p) = 10
    /\ description p = SAbsent.
Proof.
  destruct (create_applies_defaults env
              (mkRequest EmptyString
                 (mkBody (JString "Widget") JUndefined JUndefined JUndefined JUndefined))
              (mkWorld ∅ []))
    as (p & Hj & _ & Hs & Ht & Hd & _ & _).
  - vm_compute. reflexivity.
  - exists p. split; [exact Hj|]. split; [|split].
    + rewrite Hs by reflexivity. reflexivity.
    + rewrite Ht by reflexivity. vm_compute. reflexivity.
    + apply Hd. reflexivity.
Defined.


(** ** The further theorems on the scenarios *)

Lemma stocked_50_keys : idsAreKeys (stocked 50).
Proof.
  intros id p. rewrite stocked_50. intros H.
  apply lookup_singleton_Some in H as [<- <-]. reflexivity.
Qed.

Lemma stocked_50_safe : allStored (fun p => safeQuantities p = true) (stocked 50).
Proof.
  intros id p. rewrite stocked_50. intros H.
  apply lookup_singleton_Some in H as [_ <-]. vm_compute. reflexivity.
Qed.

Lemma stocked_50_conforms : allStored (fun p => conforms p = true) (stocked 50).
Proof.
  intros id p. rewrite stocked_50. intros H.
  apply lookup_singleton_Some in H as [_ <-]. vm_compute. reflexivity.
Qed.

Lemma malformed_id_is_rejected_witness :
  (router PatchDecrease env (mkRequest "not-an-id" (amountBody (JNumber (Num.Z2SF 5))))
          (stocked 50)).1
  = mkResponse 400 (ErrorBody "Invalid product ID").
Proof.
  apply (malformed_id_is_rejected PatchDecrease env
           (mkRequest "not-an-id" (amountBody (JNumber (Num.Z2SF 5)))) (stocked 50));
    by_computation.
Defined.

Lemma unknown_id_is_not_found_witness :
  (router PutProduct env (mkRequest id1 (stockBody (JNumber (Num.Z2SF 5)))) (stocked 50)).1
  = mkResponse 404 (ErrorBody "Product not found").
Proof.
  apply (unknown_id_is_not_found PutProduct env
           (mkRequest id1 (stockBody (JNumber (Num.Z2SF 5)))) (stocked 50) id1);
    try by_computation.
  intros _. split; by_computation.
Defined.

Lemma delete_removes_product_witness :
  docs (deleteProduct env (mkRequest id3 emptyBody) (stocked 50)).2 !! id3 = None
  /\ S (size (docs (deleteProduct env (mkRequest id3 emptyBody) (stocked 50)).2))
     = size (docs (stocked 50)).
Proof.
  unshelve epose proof (delete_removes_product env (mkRequest id3 emptyBody) (stocked 50)
                          id3 (testProduct 50) _ _) as (_ & Hgone & _ & Hsize);
    [by_computation ..|].
  split; [exact Hgone | exact Hsize].
Defined.

Lemma deleted_product_is_gone_witness :
  (getProductById env (mkRequest id3 emptyBody)
     (deleteProduct env (mkRequest id3 emptyBody) (stocked 50)).2).1
  = mkResponse 404 (ErrorBody "Product not found").
Proof.
  apply (deleted_product_is_gone env env (mkRequest id3 emptyBody) (stocked 50)).
  by_computation.
Defined.

Lemma create_adds_one_document_witness :
  exists p,
    json (createProduct (mkEnv 2 id1) (mkRequest EmptyString (createBody (Num.Z2SF 7)))
                        (stocked 50)).1 = ProductBody p
    /\ _id p = id1
    /\ size (docs (createProduct (mkEnv 2 id1)
                                 (mkRequest EmptyString (createBody (Num.Z2SF 7)))
                                 (stocked 50)).2)
       = S (size (docs (stocked 50))).
Proof.
  destruct (create_adds_one_document (mkEnv 2 id1)
              (mkRequest EmptyString (createBody (Num.Z2SF 7))) (stocked 50))
    as (p & Hj & Hid & _ & _ & _ & _ & _ & Hsize); [by_computation|].
  exists p. repeat split; assumption.
Defined.

Lemma created_product_can_be_read_witness :
  exists p,
    json (createProduct (mkEnv 2 id1) (mkRequest EmptyString (createBody (Num.Z2SF 7)))
                        (stocked 50)).1 = ProductBody p
    /\ (getProductById env (mkRequest id1 emptyBody)
          (createProduct (mkEnv 2 id1) (mkRequest EmptyString (createBody (Num.Z2SF 7)))
                         (stocked 50)).2).1
       = mkResponse 200 (ProductBody p).
Proof.
  destruct (created_product_can_be_read (mkEnv 2 id1) env
              (mkRequest EmptyString (createBody (Num.Z2SF 7))) (mkRequest id1 emptyBody)
              (stocked 50))
    as (p & Hj & _ & Hget); [by_computation ..|].
  exists p. split; assumption.
Defined.

Lemma create_requires_name_witness :
  createProduct env (mkRequest EmptyString
                       (mkBody (JNumber Num.zero) JUndefined JUndefined JUndefined JUndefined))
                (stocked 50)
  = (mkResponse 400 (ErrorBody "Product name is required"), stocked 50)
  /\ exists errs,
       (createProduct env (mkRequest EmptyString
                             (mkBody (JString "   ") JUndefined JUndefined JUndefined
                                     JUndefined))
                      (stocked 50)).1
       = mkResponse 400 (ErrorMessage (ValidationError errs))
       /\ ("name", "Product name is required") ∈ errs.
Proof.
  split.
  - destruct (create_requires_name env
                (mkRequest EmptyString
                   (mkBody (JNumber Num.zero) JUndefined JUndefined JUndefined JUndefined))
                (stocked 50)) as [H _].
    apply H. reflexivity.
  - destruct (create_requires_name env
                (mkRequest EmptyString
                   (mkBody (JString "   ") JUndefined JUndefined JUndefined JUndefined))
                (stocked 50)) as [_ H].
    destruct (H "   ") as (errs & E & Hin); [reflexivity | discriminate | by_computation|].
    exists errs. rewrite E. split; [reflexivity | exact Hin].
Defined.

Lemma create_rejects_invalid_quantities_witness :
  exists errs,
    createProduct env (mkRequest EmptyString (createBody threeHalves)) (stocked 50)
    = (mkResponse 400 (ErrorMessage (ValidationError errs)),
       mkWorld (docs (stocked 50)) (calls (stocked 50) ++ [CallSave id3]))
    /\ ("stock_quantity", "Stock quantity must be an integer") ∈ errs.
Proof.
  destruct (create_rejects_invalid_quantities env
              (mkRequest EmptyString (createBody threeHalves)) (stocked 50) threeHalves)
    as (errs & E & Hs & _); [by_computation | left; reflexivity | right; by_computation|].
  exists errs. split; [exact E|]. apply Hs; by_computation.
Defined.

Lemma update_cast_failure_reports_invalid_id_witness :
  updateProduct env (mkRequest id3 (stockBody (JString "abc"))) (stocked 50)
  = (mkResponse 400 (ErrorBody "Invalid product ID"),
     mkWorld (docs (stocked 50)) (calls (stocked 50) ++ [CallFindByIdAndUpdate id3])).
Proof.
  apply (update_cast_failure_reports_invalid_id env
           (mkRequest id3 (stockBody (JString "abc"))) (stocked 50)).
  - by_computation.
  - left. apply castNumber_text; [discriminate | by_computation].
Defined.

Lemma update_rejects_fractions_witness :
  exists errs,
    updateProduct env (mkRequest id3 (stockBody (JNumber threeHalves))) (stocked 50)
    = (mkResponse 400 (ErrorMessage (ValidationError errs)),
       mkWorld (docs (stocked 50)) (calls (stocked 50) ++ [CallFindByIdAndUpdate id3]))
    /\ ("stock_quantity", "Stock quantity must be an integer") ∈ errs.
Proof.
  destruct (update_rejects_fractions env (mkRequest id3 (stockBody (JNumber threeHalves)))
              (stocked 50) id3 threeHalves)
    as (errs & E & Hs & _); [by_computation ..| |by_computation|by_computation|].
  - left. reflexivity.
  - exists errs. split; [exact E|]. apply Hs. reflexivity.
Defined.

Lemma error_leaves_collection_witness :
  docs (router PatchDecrease env (adjust 60) (stocked 50)).2 = docs (stocked 50).
Proof.
  apply (error_leaves_collection PatchDecrease env (adjust 60) (stocked 50)).
  vm_compute. discriminate.
Defined.

Lemma writes_are_confined_witness :
  docs (router PatchIncrease env (mkRequest id1 (amountBody (JNumber (Num.Z2SF 5))))
               (stocked 50)).2 !! id3
  = docs (stocked 50) !! id3.
Proof.
  apply (writes_are_confined PatchIncrease env
           (mkRequest id1 (amountBody (JNumber (Num.Z2SF 5)))) (stocked 50) id3).
  - exact stocked_50_keys.
  - by_computation.
Defined.

Lemma stored_fields_frame_witness :
  exists p',
    docs (router PatchIncrease env (adjust 25) (stocked 50)).2 !! id3 = Some p'
    /\ _id p' = id3 /\ createdAt p' = 1 /\ name p' = "Test Product"
    /\ low_stock_threshold p' = Num.Z2SF 10.
Proof.
  assert (H : docs (router PatchIncrease env (adjust 25) (stocked 50)).2 !! id3
              = Some (withStock env (testProduct 50) (Num.Z2SF 75)))
    by by_computation.
  destruct (stored_fields_frame PatchIncrease env (adjust 25) (stocked 50) id3
              (testProduct 50) (withStock env (testProduct 50) (Num.Z2SF 75))
              stocked_50_keys)
    as (Hid & Hc & Hrest & _); [by_computation | exact H|].
  destruct Hrest as (Hn & _ & Ht); [discriminate|].
  eexists. split; [exact H|]. repeat split; assumption.
Defined.

Lemma ids_are_keys_witness :
  idsAreKeys (serve [(PatchDecrease, env, adjust 20); (DeleteProduct, env, adjust 1)]
                    (stocked 50)).
Proof.
  apply (ids_are_keys [(PatchDecrease, env, adjust 20); (DeleteProduct, env, adjust 1)]
           (stocked 50) env (adjust 1)).
  exact stocked_50_keys.
Defined.

Lemma schema_invariant_witness :
  exists p,
    docs (serve [(PatchDecrease, env, adjust 20);
                 (PutProduct, env, mkRequest id3 (stockBody (JNumber (Num.Z2SF 3))))]
                (stocked 50)) !! id3 = Some p
    /\ name p <> EmptyString /\ Num.isInteger (stock_quantity p) = true
    /\ Num.geb (low_stock_threshold p) Num.zero = true.
Proof.
  assert (H : docs (serve [(PatchDecrease, env, adjust 20);
                           (PutProduct, env,
                            mkRequest id3 (stockBody (JNumber (Num.Z2SF 3))))]
                          (stocked 50)) !! id3
              = Some (withStock env (testProduct 50) (Num.Z2SF 3)))
    by by_computation.
  destruct (schema_invariant
              [(PatchDecrease, env, adjust 20);
               (PutProduct, env, mkRequest id3 (stockBody (JNumber (Num.Z2SF 3))))]
              (stocked 50) id3 _ stocked_50_conforms H) as (Hn & _ & Hi & Ht & _).
  eexists. split; [exact H|]. repeat split; assumption.
Defined.

Lemma unstorable_stock_is_server_error_witness :
  router PatchIncrease env (adjust (2 ^ 1023)) (stocked (2 ^ 1023))
  = (mkResponse 500 (ErrorBody "Server error while increasing stock"),
     mkWorld (docs (stocked (2 ^ 1023)))
             (calls (stocked (2 ^ 1023)) ++ [CallFindById id3; CallSave id3])).
Proof.
  apply (unstorable_stock_is_server_error PatchIncrease env (adjust (2 ^ 1023))
           (stocked (2 ^ 1023)) id3 (testProduct (2 ^ 1023))).
  - left. reflexivity.
  - by_computation.
  - by_computation.
  - by_computation.
  - discriminate.
  - left. by_computation.
Defined.

Lemma decrease_then_increase_restores_witness :
  exists p1 p2,
    (decreaseStock env (adjust 50) (stocked 50)).1 = mkResponse 200 (ProductBody p1)
    /\ Num.SF2Z (stock_quantity p1) = 0
    /\ (increaseStock env (adjust 50) (decreaseStock env (adjust 50) (stocked 50)).2).1
       = mkResponse 200 (ProductBody p2)
    /\ Num.SF2Z (stock_quantity p2) = 50.
Proof.
  unshelve epose proof (decrease_then_increase_restores env env (adjust 50) (stocked 50)
                          id3 (testProduct 50) (Num.Z2SF 50) _ _ _ _ _ _ _ _ _ _ _)
    as (p1 & p2 & H1 & V1 & H2 & _ & _ & V2); [by_computation ..|].
  exists p1, p2. repeat split; assumption.
Defined.

Lemma low_stock_in_integers_witness :
  exists l,
    (getLowStockProducts env (mkRequest EmptyString emptyBody) (stocked 50)).1
    = mkResponse 200 (ProductsBody l)
    /\ testProduct 50 ∉ l.
Proof.
  destruct (low_stock_in_integers env (mkRequest EmptyString emptyBody) (stocked 50)
              stocked_50_safe) as (l & E & Hl).
  exists l. split; [exact E|]. intros Hin. apply Hl in Hin as [_ Hlt].
  vm_compute in Hlt. discriminate.
Defined.

Lemma low_stock_is_never_an_id_witness :
  app GET ["api"; "products"; "Low-Stock"] = Some (Api GetLowStock [])
  /\ app GET ["api"; "products"; id3] = Some (Api GetProduct [("id", id3)]).
Proof.
  split.
  - apply (low_stock_is_never_an_id "api" "products" "Low-Stock"); by_computation.
  - apply (low_stock_is_never_an_id "api" "products" id3); by_computation.
Defined.

Lemma handlers_receive_their_id_witness :
  app PATCH ["api"; "products"; id3; "increase"] = Some (Api PatchIncrease [("id", id3)])
  /\ exists id, paramId [("id", id3)] = Some id /\ id <> EmptyString.
Proof.
  split; [by_computation|].
  destruct (handlers_receive_their_id PATCH ["api"; "products"; id3; "increase"]
              PatchIncrease [("id", id3)]) as (_ & id & Hid & Hne & _); [by_computation|].
  exists id. split; assumption.
Defined.

Lemma returned_product_is_stored_witness :
  docs (router PatchIncrease env (adjust 25) (stocked 50)).2 !! id3
  = Some (withStock env (testProduct 50) (Num.Z2SF 75)).
Proof.
  apply (returned_product_is_stored PatchIncrease env env (adjust 25) (adjust 25)
           (stocked 50) (withStock env (testProduct 50) (Num.Z2SF 75))).
  - exact stocked_50_keys.
  - by_computation.
Defined.

Lemma adjusted_stock_is_the_rounded_result_witness :
  exists p',
    json (router PatchIncrease env (adjust 1) (stocked (2 ^ 53))).1 = ProductBody p'
    /\ Num.eqb (Num.add (Num.Z2SF (2 ^ 53)) (Num.Z2SF 1)) (stock_quantity p') = true
    /\ Num.SF2Z (stock_quantity p') = 2 ^ 53.
Proof.
  destruct (adjusted_stock_is_the_rounded_result PatchIncrease env (adjust 1)
              (stocked (2 ^ 53)))
    as (oid & p & p' & Hid & Hp & Hj & Heq & _); [left; reflexivity | by_computation|].
  exists p'. split; [exact Hj|].
  assert (E : p = testProduct (2 ^ 53)).
  { vm_compute in Hid. injection Hid as <-. vm_compute in Hp. injection Hp as <-.
    vm_compute. reflexivity. }
  subst p. split; [exact Heq|].
  assert (Hj' : json (router PatchIncrease env (adjust 1) (stocked (2 ^ 53))).1
                = ProductBody (testProduct (2 ^ 53))) by by_computation.
  rewrite Hj' in Hj. injection Hj as <-. vm_compute. reflexivity.
Defined.

Lemma default_product_is_low_stock_witness :
  exists p l,
    json (createProduct env (mkRequest EmptyString
                               (mkBody (JString "Widget") JUndefined JUndefined
                                       JUndefined JUndefined))
                        (mkWorld ∅ [])).1 = ProductBody p
    /\ (getLowStockProducts env (mkRequest EmptyString emptyBody)
          (createProduct env (mkRequest EmptyString
                                (mkBody (JString "Widget") JUndefined JUndefined
                                        JUndefined JUndefined))
                         (mkWorld ∅ [])).2).1
       = mkResponse 200 (ProductsBody l)
    /\ p ∈ l.
Proof.
  destruct (default_product_is_low_stock env env
              (mkRequest EmptyString
                 (mkBody (JString "Widget") JUndefined JUndefined JUndefined JUndefined))
              (mkRequest EmptyString emptyBody) (mkWorld ∅ []))
    as (p & l & Hj & _ & _ & Hl & Hin); [by_computation ..|].
  exists p, l. repeat split; assumption.
Defined.

Lemma update_is_idempotent_witness :
  exists p2,
    (updateProduct (mkEnv 2 id1) (mkRequest id3 (stockBody (JNumber (Num.Z2SF 75))))
       (updateProduct env (mkRequest id3 (stockBody (JNumber (Num.Z2SF 75))))
                      (stocked 50)).2).1
    = mkResponse 200 (ProductBody p2)
    /\ Num.SF2Z (stock_quantity p2) = 75 /\ updatedAt p2 = 2.
Proof.
  destruct (update_is_idempotent env (mkEnv 2 id1)
              (mkRequest id3 (stockBody (JNumber (Num.Z2SF 75)))) (stocked 50))
    as (p1 & p2 & Hj & E & Hp2 & _); [by_computation|].
  exists p2. split; [exact E|].
  assert (Hj' : json (updateProduct env (mkRequest id3 (stockBody (JNumber (Num.Z2SF 75))))
                                    (stocked 50)).1
                = ProductBody (withStock env (testProduct 50) (Num.Z2SF 75)))
    by by_computation.
  rewrite Hj' in Hj. injection Hj as <-. subst p2. split; by_computation.
Defined.
